(** * Evaluation-result extraction: reconciliation and artifact submission

    A shallow embedding of [src/utils/hf_utils.py] and of [write_output]
    from [src/main.py], with the properties of the reconciliation logic,
    of the artifact naming convention and of the submission routine's
    effects.

    Python values are an inductive type, exceptions are values of an
    error type, and every function that performs I/O is a computation over
    an explicit world (the local files it writes and the trace of the
    effects it performs).  The Hub, the YAML library, the interpreter's
    [str()] and the faults of the local file system are oracles gathered
    in one record. *)

From Stdlib Require Import ZArith Ascii String List Lia.
From stdpp Require Import base tactics option list strings pretty gmap.

Local Open Scope string_scope.
Local Open Scope list_scope.
Local Open Scope Z_scope.

(** ** Strings

    Python [str] values are modelled as byte strings (their UTF-8
    encoding).  The case conversions defined here act on the ASCII
    letters; [str.lower] and [str.upper] of the interpreter, which follow
    Unicode, are oracles that agree with them on ASCII strings. *)

Module Str.

Definition nl : string := String (ascii_of_nat 10) EmptyString.

Definition is_upper (c : ascii) : bool :=
  ((65 <=? nat_of_ascii c) && (nat_of_ascii c <=? 90))%nat.

Definition is_lower (c : ascii) : bool :=
  ((97 <=? nat_of_ascii c) && (nat_of_ascii c <=? 122))%nat.

Definition lower_char (c : ascii) : ascii :=
  if is_upper c then ascii_of_nat (nat_of_ascii c + 32) else c.

Definition upper_char (c : ascii) : ascii :=
  if is_lower c then ascii_of_nat (nat_of_ascii c - 32) else c.

Fixpoint map_chars (f : ascii -> ascii) (s : string) : string :=
  match s with
  | EmptyString => EmptyString
  | String c s' => String (f c) (map_chars f s')
  end.

(** [s.lower()] and [s.upper()] on an ASCII string. *)
Definition lower : string -> string := map_chars lower_char.
Definition upper : string -> string := map_chars upper_char.

(** The characters of a string: in UTF-8 a character is a byte followed
    by the continuation bytes (from 128 to 191) that come after it. *)
Definition is_continuation (c : ascii) : bool :=
  ((128 <=? nat_of_ascii c) && (nat_of_ascii c <? 192))%nat.

Fixpoint code_points (s : string) : list string :=
  match s with
  | EmptyString => []
  | String c s' =>
      match code_points s' with
      | String c' p :: rest =>
          if is_continuation c' then String c (String c' p) :: rest
          else String c EmptyString :: String c' p :: rest
      | rest => String c EmptyString :: rest
      end
  end.

(** [s.isascii()]. *)
Fixpoint is_ascii (s : string) : bool :=
  match s with
  | EmptyString => true
  | String c s' => (nat_of_ascii c <? 128)%nat && is_ascii s'
  end.

(** [s.split(sep)] for a one-character separator: never empty. *)
Fixpoint split (sep : ascii) (s : string) : list string :=
  match s with
  | EmptyString => [EmptyString]
  | String c s' =>
      if Ascii.eqb c sep then EmptyString :: split sep s'
      else match split sep s' with
           | [] => [String c EmptyString]
           | seg :: rest => String c seg :: rest
           end
  end.

(** [l[-1]] on the list of segments. *)
Definition last_segment (l : list string) : string := List.last l EmptyString.

(** [s.replace(c, t)] for a one-character pattern [c]. *)
Fixpoint replace_char (c : ascii) (t : string) (s : string) : string :=
  match s with
  | EmptyString => EmptyString
  | String c' s' =>
      if Ascii.eqb c' c then t +:+ replace_char c t s'
      else String c' (replace_char c t s')
  end.

(** [s.startswith(p)] and [s.endswith(p)]. *)
Definition startswith (p s : string) : bool := String.prefix p s.
Definition endswith (p s : string) : bool :=
  String.prefix (String.rev p) (String.rev s).

(** [sep.join(l)]. *)
Fixpoint join (sep : string) (l : list string) : string :=
  match l with
  | [] => EmptyString
  | [x] => x
  | x :: rest => x +:+ sep +:+ join sep rest
  end.

(** Whether the character [c] occurs in [s]. *)
Fixpoint contains (c : ascii) (s : string) : bool :=
  match s with
  | EmptyString => false
  | String c' s' => Ascii.eqb c' c || contains c s'
  end.

End Str.

(** ** Python values, exceptions, dictionaries *)

(** The data model of JSON and of [yaml.safe_load]: a float is the pair
    of a mantissa and a binary exponent (infinities and NaN are left
    out). *)
#[warnings="-register-all"]
Inductive pyval : Type :=
| PNone
| PBool (b : bool)
| PInt (z : Z)
| PFloat (m e : Z)
| PStr (s : string)
| PList (l : list pyval)
| PDict (d : list (string * pyval)).

(** The exceptions the code distinguishes; [Exception] stands for any
    other subclass of Python's [Exception]. *)
Inductive exn : Type :=
| HfHubHTTPError (status_code : Z) (msg : string)
| OSError (msg : string)
| AttributeError (msg : string)
| TypeError (msg : string)
| Exception (msg : string).

(** [str(e)]. *)
Definition exn_str (e : exn) : string :=
  match e with
  | HfHubHTTPError _ m | OSError m | AttributeError m | TypeError m
  | Exception m => m
  end.

(** [isinstance(e, OSError)]. *)
Definition is_OSError (e : exn) : bool :=
  match e with
  | OSError _ | HfHubHTTPError _ _ => true
  | _ => false
  end.

Inductive outcome (A : Type) : Type :=
| Ok (a : A)
| Raise (e : exn).
Arguments Ok {A} a.
Arguments Raise {A} e.

(** [bool(v)]. *)
Definition truthy (v : pyval) : bool :=
  match v with
  | PNone => false
  | PBool b => b
  | PInt z => negb (z =? 0)
  | PFloat m _ => negb (m =? 0)
  | PStr s => negb (String.eqb s EmptyString)
  | PList l => match l with [] => false | _ => true end
  | PDict d => match d with [] => false | _ => true end
  end.

Definition type_name (v : pyval) : string :=
  match v with
  | PNone => "NoneType" | PBool _ => "bool" | PInt _ => "int"
  | PFloat _ _ => "float" | PStr _ => "str" | PList _ => "list"
  | PDict _ => "dict"
  end.

Fixpoint assoc {V : Type} (k : string) (d : list (string * V)) : option V :=
  match d with
  | [] => None
  | (k', v) :: d' => if String.eqb k' k then Some v else assoc k d'
  end.

(** [v.get(key, default)]: only a dict has the method. *)
Definition py_get (v : pyval) (key : string) (dflt : pyval) : outcome pyval :=
  match v with
  | PDict d => Ok (default dflt (assoc key d))
  | _ => Raise (AttributeError
                  ("'" +:+ type_name v +:+ "' object has no attribute 'get'"))
  end.

(** Iterating over a value ([for x in v], a comprehension) and [len(v)];
    a string is iterated and measured by its characters. *)
Definition chars (s : string) : list pyval := map PStr (Str.code_points s).

Definition py_iter (v : pyval) : outcome (list pyval) :=
  match v with
  | PList l => Ok l
  | PDict d => Ok (map (fun kv => PStr kv.1) d)
  | PStr s => Ok (chars s)
  | _ => Raise (TypeError ("'" +:+ type_name v +:+ "' object is not iterable"))
  end.

Definition py_len (v : pyval) : outcome Z :=
  match v with
  | PList l => Ok (Z.of_nat (length l))
  | PDict d => Ok (Z.of_nat (length d))
  | PStr s => Ok (Z.of_nat (length (Str.code_points s)))
  | _ => Raise (TypeError ("object of type '" +:+ type_name v +:+ "' has no len()"))
  end.

(** *** Dictionary keys

    A key is a hashable value up to Python's equality: [True == 1 == 1.0],
    so numbers are kept in a normal form (odd mantissa, or zero). *)
Inductive pykey : Type :=
| KNone
| KNum (m e : Z)
| KStr (s : string).

#[global] Instance pykey_eq_dec : EqDecision pykey.
Proof. solve_decision. Defined.

Fixpoint strip_twos (p : positive) (e : Z) : positive * Z :=
  match p with
  | xO p' => strip_twos p' (e + 1)
  | _ => (p, e)
  end.

Definition norm_num (m e : Z) : pykey :=
  match m with
  | Z0 => KNum 0 0
  | Zpos p => let '(p', e') := strip_twos p e in KNum (Zpos p') e'
  | Zneg p => let '(p', e') := strip_twos p e in KNum (Zneg p') e'
  end.

(** [hash(v)]: lists and dicts are unhashable. *)
Definition hash_key (v : pyval) : outcome pykey :=
  match v with
  | PNone => Ok KNone
  | PBool b => Ok (norm_num (if b then 1 else 0) 0)
  | PInt z => Ok (norm_num z 0)
  | PFloat m e => Ok (norm_num m e)
  | PStr s => Ok (KStr s)
  | PList _ | PDict _ =>
      Raise (TypeError ("unhashable type: '" +:+ type_name v +:+ "'"))
  end.

(** The key object [o] is the key [k]. *)
Definition is_key (k : pykey) (o : pyval) : bool :=
  match hash_key o with
  | Ok k' => bool_decide (k' = k)
  | Raise _ => false
  end.

(** An insertion-ordered dict.  An entry holds the key object that was
    inserted first and its value; a key is found up to Python's equality.
    [d[o] = v], where [k] is the hash of [o], overwrites the value in
    place and keeps the key object that is there, or appends. *)
Section Dict.
Context {V : Type}.

Fixpoint dict_lookup (k : pykey) (d : list (pyval * V)) : option V :=
  match d with
  | [] => None
  | (o', v) :: d' => if is_key k o' then Some v else dict_lookup k d'
  end.

Definition dict_mem (k : pykey) (d : list (pyval * V)) : bool :=
  match dict_lookup k d with Some _ => true | None => false end.

Fixpoint dict_set (k : pykey) (o : pyval) (v : V) (d : list (pyval * V))
    : list (pyval * V) :=
  match d with
  | [] => [(o, v)]
  | (o', v') :: d' =>
      if is_key k o' then (o', v) :: d' else (o', v') :: dict_set k o v d'
  end.

End Dict.

(** ** Effects

    The effects the code performs, in the order it performs them. *)

(** [CommitOperationAdd(path_in_repo=..., path_or_fileobj=...)]. *)
Record CommitOperationAdd : Type := {
  path_in_repo : string;
  path_or_fileobj : string;
}.

Inductive event : Type :=
| Print (line : string)
| ListRepoFiles (repo_id repo_type : string) (revision : option string)
| HfHubDownload (repo_id filename repo_type : string) (revision : option string)
| GetRepoDiscussions (repo_id repo_type : string)
| CreateCommit (repo_id : string) (operations : list CommitOperationAdd)
    (commit_message commit_description : string) (create_pr : bool)
    (repo_type : string)
| OpenRead (path : string)
| OpenWrite (path content : string)
| Makedirs (path : string)
| Remove (path : string)
| Rmdir (path : string).

(** The calls that reach the remote platform. *)
Definition is_remote (ev : event) : bool :=
  match ev with
  | ListRepoFiles _ _ _ | HfHubDownload _ _ _ _ | GetRepoDiscussions _ _
  | CreateCommit _ _ _ _ _ _ => true
  | _ => false
  end.

Definition is_file_write (ev : event) : bool :=
  match ev with OpenWrite _ _ => true | _ => false end.

(** A discussion of the Hub, as [get_repo_discussions] yields it. *)
Record Discussion : Type := {
  num : Z;
  is_pull_request : bool;
  status : string;
}.

(** What the code does not define: the interpreter's [str()],
    [str.lower] and [str.upper], the YAML serializer with the options
    both writers pass, the directory of [main.py], a snapshot of the Hub,
    and the local file system's answers.

    [str.lower] and [str.upper] follow Unicode.  What is known of them:
    on an ASCII string they are the ASCII conversions, and lowering
    introduces no separator (no character has ['/'] in its lower case).

    A fault of the local file system may depend on what happened before;
    [fs_write_residue] is what a write that fails leaves in the file
    ([None] when the file could not be opened). *)
Record Env : Type := {
  py_str : pyval -> string;
  py_lower : string -> string;
  py_upper : string -> string;
  py_lower_ascii : forall s, Str.is_ascii s = true -> py_lower s = Str.lower s;
  py_upper_ascii : forall s, Str.is_ascii s = true -> py_upper s = Str.upper s;
  py_lower_sep : forall s, Str.contains "/" s = false ->
                           Str.contains "/" (py_lower s) = false;
  yaml_dump : list pyval -> string;
  script_dir : string;
  hub_list_repo_files : string -> string -> option string -> outcome (list string);
  hub_download : string -> string -> string -> option string -> outcome string;
  hub_discussions : string -> string -> outcome (list Discussion);
  hub_create_commit : string -> list CommitOperationAdd -> string -> string ->
                      bool -> string -> outcome string;
  fs_read_yaml : string -> outcome pyval;
  fs_read_text : string -> outcome string;
  fs_makedirs_fault : list event -> string -> option exn;
  fs_write_fault : list event -> string -> string -> option exn;
  fs_write_residue : list event -> string -> string -> option string;
  fs_remove_fault : list event -> string -> option string;
  fs_rmdir_fault : list event -> string -> option string;
}.

(** The ASCII conversions are such oracles. *)
Definition ascii_lower_sep (s : string) :
  Str.contains "/" s = false -> Str.contains "/" (Str.lower s) = false.
Proof.
  assert (Hc : forall c, Ascii.eqb (Str.lower_char c) "/" = Ascii.eqb c "/")
    by (intros [[] [] [] [] [] [] [] []]; reflexivity).
  unfold Str.lower. induction s as [|c s IH]; [reflexivity|].
  cbn [Str.map_chars Str.contains]. rewrite Hc. intros H.
  apply orb_false_elim in H as [-> H]. now apply IH.
Qed.

(** The world a run acts on: the files it has written, the trace so far. *)
Record world : Type := {
  files : gmap string string;
  trace : list event;
}.

Definition log (ev : event) (w : world) : world :=
  {| files := files w; trace := trace w ++ [ev] |}.

Definition set_files (f : gmap string string) (w : world) : world :=
  {| files := f; trace := trace w |}.

(** *** The monad: state and exceptions

    A raised exception keeps the state reached so far, as a mutated
    Python object does. *)
Definition M (S A : Type) : Type := S -> S * outcome A.

Definition ret {S A} (a : A) : M S A := fun s => (s, Ok a).

Definition raise {S A} (e : exn) : M S A := fun s => (s, Raise e).

Definition bind {S A B} (m : M S A) (k : A -> M S B) : M S B :=
  fun s => match m s with
           | (s', Ok a) => k a s'
           | (s', Raise e) => (s', Raise e)
           end.

Definition lift_outcome {S A} (o : outcome A) : M S A := fun s => (s, o).

(** [try: m except Exception as e: h e]. *)
Definition try_except {S A} (m : M S A) (h : exn -> M S A) : M S A :=
  fun s => match m s with
           | (s', Ok a) => (s', Ok a)
           | (s', Raise e) => h e s'
           end.

(** [try: m finally: f]: an exception of [f] replaces the outcome of [m]. *)
Definition try_finally {S A} (m : M S A) (f : M S unit) : M S A :=
  fun s => match m s with
           | (s', o) => match f s' with
                        | (s'', Ok _) => (s'', o)
                        | (s'', Raise e) => (s'', Raise e)
                        end
           end.

Notation "'let*' x := m 'in' k" := (bind m (fun x => k))
  (at level 10, x name, m at level 100, k at level 200).
Notation "m1 ;;; m2" := (bind m1 (fun _ => m2))
  (at level 100, m2 at level 200, right associativity).

(** [for x in l: body x]. *)
Fixpoint for_each {S A} (body : A -> M S unit) (l : list A) : M S unit :=
  match l with
  | [] => ret tt
  | x :: l' => body x ;;; for_each body l'
  end.

(** Local variables next to the world. *)
Definition lift_w {L A} (m : M world A) : M (world * L) A :=
  fun s => match m s.1 with (w', o) => ((w', s.2), o) end.

Definition get_local {L} : M (world * L) L := fun s => (s, Ok s.2).

Definition modify_local {L} (f : L -> L) : M (world * L) unit :=
  fun s => ((s.1, f s.2), Ok tt).

Definition with_locals {L A} (l0 : L) (m : M (world * L) A) : M world A :=
  fun w => match m (w, l0) with (s', o) => (s'.1, o) end.

(** [try: m except C: h e], for an exception class [C]. *)
Definition try_except_when {S A} (cls : exn -> bool) (m : M S A)
    (h : exn -> M S A) : M S A :=
  fun s => match m s with
           | (s', Ok a) => (s', Ok a)
           | (s', Raise e) => if cls e then h e s' else (s', Raise e)
           end.

(** A comprehension [[x for x in l if p x]] whose test may raise. *)
Fixpoint filter_m {S A} (p : A -> M S bool) (l : list A) : M S (list A) :=
  match l with
  | [] => ret []
  | x :: l' =>
      let* keep := p x in
      let* rest := filter_m p l' in
      ret (if keep then x :: rest else rest)
  end.

(** *** Paths

    A [pathlib] path on a POSIX system is modelled by its string, which is
    never empty and ends with a separator only when it is a root. *)

(** A component that [pathlib] drops. *)
Definition is_blank (c : string) : bool :=
  String.eqb c "" || String.eqb c ".".

(** [a / c] for one component [c]. *)
Definition join1 (a c : string) : string :=
  if String.eqb a "." then c
  else if Str.endswith "/" a then a +:+ c
  else a +:+ "/" +:+ c.

(** The root of a path that starts with a separator: two leading
    separators are kept, three or more are one. *)
Definition root_of (b : string) : string :=
  if Str.startswith "//" b && negb (Str.startswith "///" b) then "//" else "/".

(** [a / b]: the components of [b] are appended one by one; the empty
    ones and ["."] are dropped, [".."] is kept; a [b] that starts with a
    separator replaces [a]. *)
Definition path_join (a b : string) : string :=
  fold_left join1
    (List.filter (fun c => negb (is_blank c)) (Str.split "/" b))
    (if Str.startswith "/" b then root_of b else a).

(** [p.name]: the last component, empty for a root and for ["."]. *)
Definition path_name (p : string) : string :=
  if String.eqb p "." then "" else Str.last_segment (Str.split "/" p).

(** [v.split]: only a [str] has the method. *)
Definition as_str (v : pyval) (method : string) : outcome string :=
  match v with
  | PStr s => Ok s
  | _ => Raise (AttributeError
           ("'" +:+ type_name v +:+ "' object has no attribute '" +:+ method +:+ "'"))
  end.

(** One entry of the existing-results index. *)
Record ExistingInfo : Type := {
  source : string;
  pr_num : option Z;
  value : pyval;
  file_path : string;
}.

Abbreviation index := (list (pyval * ExistingInfo)).

Definition is_eval_file (f : string) : bool :=
  Str.startswith ".eval_results/" f && Str.endswith ".yaml" f.

Definition is_list (v : pyval) : bool :=
  match v with PList _ => true | _ => false end.

Section Program.
Context (env : Env).

(** *** Primitive effects *)

Definition print (line : string) : M world unit :=
  fun w => (log (Print line) w, Ok tt).

Definition list_repo_files (repo_id repo_type : string)
    (revision : option string) : M world (list string) :=
  fun w => (log (ListRepoFiles repo_id repo_type revision) w,
            hub_list_repo_files env repo_id repo_type revision).

Definition hf_hub_download (repo_id filename repo_type : string)
    (revision : option string) : M world string :=
  fun w => (log (HfHubDownload repo_id filename repo_type revision) w,
            hub_download env repo_id filename repo_type revision).

Definition get_repo_discussions (repo_id repo_type : string)
    : M world (list Discussion) :=
  fun w => (log (GetRepoDiscussions repo_id repo_type) w,
            hub_discussions env repo_id repo_type).

Definition create_commit (repo_id : string) (ops : list CommitOperationAdd)
    (commit_message commit_description : string) (create_pr : bool)
    (repo_type : string) : M world string :=
  fun w => (log (CreateCommit repo_id ops commit_message commit_description
                   create_pr repo_type) w,
            hub_create_commit env repo_id ops commit_message
              commit_description create_pr repo_type).

(** [with open(path, "r", encoding="utf-8") as f: return yaml.safe_load(f)] *)
Definition read_yaml (path : string) : M world pyval :=
  fun w => (log (OpenRead path) w, fs_read_yaml env path).

(** [with open(path, "r", encoding="utf-8") as f: return f.read()] *)
Definition read_file (path : string) : M world string :=
  fun w => (log (OpenRead path) w, fs_read_text env path).

(** [os.makedirs(path, exist_ok=True)], [path.mkdir(parents=True, exist_ok=True)] *)
Definition os_makedirs (path : string) : M world unit :=
  fun w => (log (Makedirs path) w,
            match fs_makedirs_fault env (trace w) path with
            | Some e => Raise e
            | None => Ok tt
            end).

(** [with open(path, "w", encoding="utf-8") as f: f.write(content)]:
    [open] creates or truncates the file before [f.write] or the closing
    of the file can fail. *)
Definition write_text (path content : string) : M world unit :=
  fun w => match fs_write_fault env (trace w) path content with
           | Some e =>
               match fs_write_residue env (trace w) path content with
               | Some residue =>
                   (set_files (<[path := residue]> (files w))
                      (log (OpenWrite path content) w), Raise e)
               | None => (log (OpenWrite path content) w, Raise e)
               end
           | None => (set_files (<[path := content]> (files w))
                        (log (OpenWrite path content) w), Ok tt)
           end.

(** [os.remove(path)]: a missing file is an [OSError] too. *)
Definition os_remove (path : string) : M world unit :=
  fun w => match fs_remove_fault env (trace w) path with
           | Some msg => (log (Remove path) w, Raise (OSError msg))
           | None =>
               match files w !! path with
               | Some _ => (set_files (delete path (files w))
                              (log (Remove path) w), Ok tt)
               | None => (log (Remove path) w,
                          Raise (OSError ("No such file or directory: " +:+ path)))
               end
           end.

(** [os.rmdir(path)]. *)
Definition os_rmdir (path : string) : M world unit :=
  fun w => (log (Rmdir path) w,
            match fs_rmdir_fault env (trace w) path with
            | Some msg => Raise (OSError msg)
            | None => Ok tt
            end).

(** *** [get_existing_eval_results] (hf_utils.py:18) *)

(** Lines 68-75: one record of a file of the main branch. *)
Definition record_main (eval_file : string) (result : pyval)
    : M (world * index) unit :=
  let* dataset := lift_outcome (py_get result "dataset" (PDict [])) in
  let* dataset_id := lift_outcome (py_get dataset "id" PNone) in
  if truthy dataset_id then
    let* v := lift_outcome (py_get result "value" PNone) in
    let* k := lift_outcome (hash_key dataset_id) in
    modify_local (dict_set k dataset_id
                    {| source := "main"; pr_num := None;
                       value := v; file_path := eval_file |})
  else ret tt.

(** Lines 52-77: one file of the main branch. *)
Definition scan_main_file (repo_id repo_type eval_file : string)
    : M (world * index) unit :=
  try_except
    (let* file_path := lift_w (hf_hub_download repo_id eval_file repo_type None) in
     let* content := lift_w (read_yaml file_path) in
     if is_list content && truthy content then
       let* items := lift_outcome (py_iter content) in
       for_each (record_main eval_file) items
     else ret tt)
    (fun e => lift_w (print ("Warning: Could not read " +:+ eval_file +:+
                             " from main branch: " +:+ exn_str e))).

(** Lines 45-79: the main branch. *)
Definition scan_main (repo_id repo_type : string) : M (world * index) unit :=
  try_except
    (let* files := lift_w (list_repo_files repo_id repo_type None) in
     let eval_files := List.filter is_eval_file files in
     for_each (scan_main_file repo_id repo_type) eval_files)
    (fun e => lift_w (print ("Warning: Could not list files from " +:+ repo_id +:+
                             ": " +:+ exn_str e))).

(** Lines 122-129: one record of a file of an open pull request. *)
Definition record_pr (pr : Discussion) (eval_file : string) (result : pyval)
    : M (world * index) unit :=
  let* dataset := lift_outcome (py_get result "dataset" (PDict [])) in
  let* dataset_id := lift_outcome (py_get dataset "id" PNone) in
  let* fresh :=
    (if truthy dataset_id then
       let* k := lift_outcome (hash_key dataset_id) in
       let* existing_results := get_local in
       ret (negb (dict_mem k existing_results))
     else ret false) in
  if fresh then
    let* v := lift_outcome (py_get result "value" PNone) in
    let* k := lift_outcome (hash_key dataset_id) in
    modify_local (dict_set k dataset_id
                    {| source := "pr"; pr_num := Some (num pr);
                       value := v; file_path := eval_file |})
  else ret tt.

Definition pr_revision (pr : Discussion) : string :=
  "refs/pr/" +:+ pretty (num pr).

(** Lines 101-131: one file of an open pull request.  The unused
    [benchmark_name] of line 103 is left out. *)
Definition scan_pr_file (repo_id repo_type : string) (pr : Discussion)
    (eval_file : string) : M (world * index) unit :=
  try_except
    (let* file_path := lift_w (hf_hub_download repo_id eval_file repo_type
                                 (Some (pr_revision pr))) in
     let* content := lift_w (read_yaml file_path) in
     if is_list content && truthy content then
       let* items := lift_outcome (py_iter content) in
       for_each (record_pr pr eval_file) items
     else ret tt)
    (fun e => lift_w (print ("Warning: Could not read " +:+ eval_file +:+
                             " from PR #" +:+ pretty (num pr) +:+ ": " +:+
                             exn_str e))).

(** Lines 90-133: one open pull request. *)
Definition scan_pr (repo_id repo_type : string) (pr : Discussion)
    : M (world * index) unit :=
  try_except
    (let* pr_files := lift_w (list_repo_files repo_id repo_type
                                (Some (pr_revision pr))) in
     let pr_eval_files := List.filter is_eval_file pr_files in
     for_each (scan_pr_file repo_id repo_type pr) pr_eval_files)
    (fun e => lift_w (print ("Warning: Could not check PR #" +:+
                             pretty (num pr) +:+ ": " +:+ exn_str e))).

Definition is_open_pr (d : Discussion) : bool :=
  is_pull_request d && String.eqb (status d) "open".

(** Lines 82-135: the open pull requests. *)
Definition scan_prs (repo_id repo_type : string) : M (world * index) unit :=
  try_except
    (let* discussions := lift_w (get_repo_discussions repo_id repo_type) in
     let open_prs := List.filter is_open_pr discussions in
     for_each (scan_pr repo_id repo_type) open_prs)
    (fun e => lift_w (print ("Warning: Could not list PRs for " +:+ repo_id +:+
                             ": " +:+ exn_str e))).

Definition get_existing_eval_results (repo_id repo_type : string)
    : M world index :=
  fun w =>
    match (scan_main repo_id repo_type ;;; scan_prs repo_id repo_type) (w, []) with
    | (s, Ok _) => (s.1, Ok s.2)
    | (s, Raise e) => (s.1, Raise e)
    end.

(** *** [fetch_huggingface_readme] (hf_utils.py:140)

    [inl v] is a [return v] taken inside a handler. *)
Definition fetch_huggingface_readme (repo_id repo_type : string)
    : M world (option string) :=
  let* r :=
    try_except
      (let* filepath := hf_hub_download repo_id "README.md" repo_type None in
       ret (inr filepath))
      (fun e =>
         match e with
         | HfHubHTTPError status_code _ =>
             (if status_code =? 404 then
                print ("README.md not found for " +:+ repo_id +:+ " (" +:+
                       repo_type +:+ "): 404")
              else
                print ("HTTP error downloading README for " +:+ repo_id +:+
                       " (" +:+ repo_type +:+ "): " +:+ pretty status_code)) ;;;
             ret (inl None)
         | _ =>
             print ("Error downloading README for " +:+ repo_id +:+ " (" +:+
                    repo_type +:+ "): " +:+ exn_str e) ;;;
             ret (inl None)
         end) in
  match r with
  | inl v => ret v
  | inr filepath =>
      try_except
        (let* text := read_file filepath in ret (Some text))
        (fun e =>
           print ("Error reading README file " +:+ filepath +:+ " for " +:+
                  repo_id +:+ " (" +:+ repo_type +:+ "): " +:+ exn_str e) ;;;
           ret None)
  end.

(** *** [create_eval_results_pr] (hf_utils.py:173) *)

(** Lines 223-226: the test of the comprehension. *)
Definition not_in_existing {S} (existing_results : index) (r : pyval)
    : M S bool :=
  let* dataset := lift_outcome (py_get r "dataset" (PDict [])) in
  let* dataset_id := lift_outcome (py_get dataset "id" PNone) in
  let* k := lift_outcome (hash_key dataset_id) in
  ret (negb (dict_mem k existing_results)).

(** Lines 223-226: the comprehension that drops the results found in the
    index (the spec's [reconcile]). *)
Definition reconcile {S} (candidates : list pyval) (existing_results : index)
    : M S (list pyval) :=
  filter_m (not_in_existing existing_results) candidates.

(** Lines 217-219: one line per entry of the index. *)
Definition print_existing (entry : pyval * ExistingInfo) : M world unit :=
  let source_desc :=
    if String.eqb (source entry.2) "main" then "main branch"
    else "open PR #" +:+ match pr_num entry.2 with
                         | Some n => pretty n
                         | None => "None"
                         end in
  print ("  - " +:+ py_str env entry.1 +:+ ": " +:+
         py_str env (value entry.2) +:+ " (" +:+ source_desc +:+ ")").

Record locals : Type := {
  temp_files : list string;
  operations : list CommitOperationAdd;
  benchmark_names : list string;
  benchmark_ids : list string;
}.

Definition no_locals : locals :=
  {| temp_files := []; operations := []; benchmark_names := [];
     benchmark_ids := [] |}.

(** Lines 249-284: one iteration of the staging loop. *)
Definition stage_result (temp_dir : string) (result : pyval)
    : M (world * locals) unit :=
  let* dataset := lift_outcome (py_get result "dataset" (PDict [])) in
  let* dataset_id := lift_outcome (py_get dataset "id" (PStr "")) in
  if negb (truthy dataset_id) then
    lift_w (print ("Warning: Skipping result with missing dataset ID: " +:+
                   py_str env result))
  else
    let* id := lift_outcome (as_str dataset_id "split") in
    let dataset_name := py_lower env (Str.last_segment (Str.split "/" id)) in
    let filename := dataset_name +:+ ".yaml" in
    let temp_path := path_join temp_dir filename in
    let yaml_content := yaml_dump env [result] in
    lift_w (write_text temp_path yaml_content) ;;;
    modify_local (fun l =>
      {| temp_files := temp_files l ++ [temp_path];
         operations := operations l;
         benchmark_names := benchmark_names l ++ [py_upper env dataset_name];
         benchmark_ids := benchmark_ids l ++ [id] |}) ;;;
    modify_local (fun l =>
      {| temp_files := temp_files l;
         operations := operations l ++
           [{| path_in_repo := ".eval_results/" +:+ filename;
               path_or_fileobj := temp_path |}];
         benchmark_names := benchmark_names l;
         benchmark_ids := benchmark_ids l |}).

(** Lines 291-298. *)
Definition pr_title (names : list string) : string :=
  "Add community evaluation results for " +:+ Str.join ", " names.

Definition pr_description (names ids : list string) : string :=
  "This PR adds community-provided evaluation results for the following benchmarks:"
  +:+ Str.nl +:+ Str.nl +:+
  "- " +:+
  Str.join Str.nl
    (map (fun p => "**[" +:+ p.1 +:+ "](https://huggingface.co/datasets/" +:+
                   p.2 +:+ ")**") (zip names ids))
  +:+ Str.nl +:+ Str.nl +:+
  "These results were extracted from the model card. This is based on the new [evaluation results feature](https://huggingface.co/docs/hub/eval-results)."
  +:+
  "*Note: This is an automated PR. Please review the evaluation results before merging.*".

(** Lines 247-317: the body of the [try] with its [except] clause. *)
Definition submit_body (repo_id repo_type temp_dir : string) (results : pyval)
    : M (world * locals) (option string) :=
  try_except
    (let* items := lift_outcome (py_iter results) in
     for_each (stage_result temp_dir) items ;;;
     let* l := get_local in
     match operations l with
     | [] =>
         lift_w (print ("No valid evaluation results to submit for " +:+ repo_id)) ;;;
         ret None
     | _ =>
         let title := pr_title (benchmark_names l) in
         let description := pr_description (benchmark_names l) (benchmark_ids l) in
         let* pr_url := lift_w (create_commit repo_id (operations l) title
                                  description true repo_type) in
         lift_w (print ("PR created successfully at " +:+ repo_id +:+ ": " +:+
                        pr_url)) ;;;
         ret (Some pr_url)
     end)
    (fun e =>
       lift_w (print ("Error creating PR for " +:+ repo_id +:+ ": " +:+
                      exn_str e)) ;;;
       raise e).

(** Lines 321-324: [try: os.remove(temp_path) except OSError: pass]. *)
Definition remove_quietly (temp_path : string) : M (world * locals) unit :=
  try_except_when is_OSError (lift_w (os_remove temp_path)) (fun _ => ret tt).

(** Lines 318-329: the [finally] clause. *)
Definition cleanup (temp_dir : string) : M (world * locals) unit :=
  let* l := get_local in
  for_each remove_quietly (temp_files l) ;;;
  try_except_when is_OSError (lift_w (os_rmdir temp_dir)) (fun _ => ret tt).

Definition staging_dir (repo_id : string) : string :=
  let sanitized_repo_id :=
    Str.replace_char "\" "_" (Str.replace_char "/" "_" repo_id) in
  path_join (path_join (script_dir env) "outputs") ("temp_" +:+ sanitized_repo_id).

(** Lines 212-234: the index, its report and the filter; [inl v] is a
    [return v], [inr results] goes on to the staging. *)
Definition skip_existing_results (repo_id repo_type : string) (results : pyval)
    : M world (option string + pyval) :=
  let* existing_results := get_existing_eval_results repo_id repo_type in
  match existing_results with
  | [] => ret tt
  | _ =>
      print ("Found existing evaluation results for " +:+ repo_id +:+ ":") ;;;
      for_each print_existing existing_results
  end ;;;
  let* original_count := lift_outcome (py_len results) in
  let* candidates := lift_outcome (py_iter results) in
  let* results := reconcile candidates existing_results in
  let skipped_count := original_count - Z.of_nat (length results) in
  (if 0 <? skipped_count then
     print ("Skipping " +:+ pretty skipped_count +:+
            " benchmark(s) with existing results")
   else ret tt) ;;;
  match results with
  | [] =>
      print ("All evaluation results already exist for " +:+ repo_id +:+
             ", skipping PR creation") ;;;
      ret (inl None)
  | _ => ret (inr (PList results))
  end.

(** Lines 246-329: what runs once the staging directory exists. *)
Definition stage_and_submit (repo_id repo_type temp_dir : string)
    (results : pyval) : M world (option string) :=
  with_locals no_locals
    (try_finally (submit_body repo_id repo_type temp_dir results)
       (cleanup temp_dir)).

Definition create_eval_results_pr (repo_id : string) (evaluation_results : pyval)
    (repo_type : string) (skip_existing : bool) : M world (option string) :=
  let* results := lift_outcome
                    (py_get evaluation_results "evaluation_results" (PList [])) in
  if negb (truthy results) then
    print ("No evaluation results to submit for " +:+ repo_id) ;;;
    ret None
  else
    let* r := (if skip_existing then skip_existing_results repo_id repo_type results
               else ret (inr results)) in
    match r with
    | inl v => ret v
    | inr results =>
        let temp_dir := staging_dir repo_id in
        os_makedirs temp_dir ;;;
        stage_and_submit repo_id repo_type temp_dir results
    end.

(** *** [write_output] (main.py:100) *)

(** Lines 118-137: one iteration of the loop; the local variable is
    [written_files]. *)
Definition write_result (output_folder : string) (result : pyval)
    : M (world * list string) unit :=
  let* dataset := lift_outcome (py_get result "dataset" (PDict [])) in
  let* dataset_id := lift_outcome (py_get dataset "id" (PStr "")) in
  if negb (truthy dataset_id) then
    lift_w (print ("Warning: Skipping result with missing dataset ID: " +:+
                   py_str env result))
  else
    let* id := lift_outcome (as_str dataset_id "split") in
    let dataset_name := py_lower env (Str.last_segment (Str.split "/" id)) in
    let filename := dataset_name +:+ ".yaml" in
    let output_path := path_join output_folder filename in
    let yaml_content := yaml_dump env [result] in
    lift_w (write_text output_path yaml_content) ;;;
    modify_local (fun written_files => written_files ++ [output_path]).

Definition output_dir (repo_id : string) : string :=
  let folder_name := Str.replace_char "/" "__" repo_id in
  path_join (path_join (script_dir env) "outputs") folder_name.

Definition write_output (repo_id : string) (evaluation_results : pyval)
    : M world unit :=
  let output_folder := output_dir repo_id in
  os_makedirs output_folder ;;;
  let* results := lift_outcome
                    (py_get evaluation_results "evaluation_results" (PList [])) in
  if negb (truthy results) then
    print (Str.nl +:+ "No evaluation results to write for " +:+ repo_id)
  else
    with_locals []
      (let* items := lift_outcome (py_iter results) in
       for_each (write_result output_folder) items ;;;
       lift_w (print (Str.nl +:+ "Results written to " +:+ output_folder +:+ "/:")) ;;;
       let* written_files := get_local in
       for_each (fun filepath => lift_w (print ("  - " +:+ path_name filepath)))
         written_files).

End Program.

(** ** Notions used to state the properties *)

(** The index after the scan of the main branch alone. *)
Definition main_findings (env : Env) (repo_id repo_type : string) (w : world)
    : index :=
  (scan_main env repo_id repo_type (w, [])).1.2.

(** What the scan of one pull request records when nothing is known yet. *)
Definition pr_findings (env : Env) (repo_id repo_type : string)
    (pr : Discussion) (w : world) : index :=
  (scan_pr env repo_id repo_type pr (w, [])).1.2.

(** The open pull requests, in the order the Hub lists them. *)
Definition open_prs (env : Env) (repo_id repo_type : string) : list Discussion :=
  match hub_discussions env repo_id repo_type with
  | Ok discussions => List.filter is_open_pr discussions
  | Raise _ => []
  end.

(** The entry for [k] in the first index of [l] that has one. *)
Fixpoint first_finding (k : pykey) (l : list index) : option ExistingInfo :=
  match l with
  | [] => None
  | idx :: l' =>
      match dict_lookup k idx with
      | Some info => Some info
      | None => first_finding k l'
      end
  end.

(** [d1] is [base] completed by [d2]: an entry of [base] hides the entry
    of [d2] for the same key. *)
Definition overlay (base d2 d1 : index) : Prop :=
  forall k, dict_lookup k d1 =
            match dict_lookup k base with
            | Some info => Some info
            | None => dict_lookup k d2
            end.

(** Every entry carries the given provenance. *)
Definition tagged (src : string) (n : option Z) (idx : index) : Prop :=
  forall k info, dict_lookup k idx = Some info ->
                 source info = src /\ pr_num info = n.


(** What makes a file unreadable: the download raises, or opening and
    parsing the downloaded file does. *)
Definition unreadable (env : Env) (download : outcome string) : Prop :=
  match download with
  | Raise _ => True
  | Ok file_path => exists e, fs_read_yaml env file_path = Raise e
  end.

(** The line that the handler of a file of the main branch prints. *)
Definition could_not_read (eval_file : string) (e : exn) : event :=
  Print ("Warning: Could not read " +:+ eval_file +:+ " from main branch: " +:+
         exn_str e).

(** The claim on the files of the index builder: a failure that the
    handler of a file catches leaves no finding from that file. *)
Definition caught_file_contributes_nothing : Prop :=
  forall (env : Env) (repo_id repo_type eval_file : string)
         (s : world * index) (e : exn),
    let r := scan_main_file env repo_id repo_type eval_file s in
    last (trace r.1.1) = Some (could_not_read eval_file e) ->
    r.1.2 = s.2.

(** [dataset.id] of a record, [None] when the record has none. *)
Definition dataset_id (r : pyval) : pyval :=
  match r with
  | PDict d =>
      match default (PDict []) (assoc "dataset" d) with
      | PDict ds => default PNone (assoc "id" ds)
      | _ => PNone
      end
  | _ => PNone
  end.

(** A candidate record: an object whose [dataset], when it has one, is an
    object, and whose [dataset.id], when it has one, is a scalar. *)
Definition is_record (r : pyval) : bool :=
  match r with
  | PDict d =>
      match default (PDict []) (assoc "dataset" d) with
      | PDict ds =>
          match default PNone (assoc "id" ds) with
          | PList _ | PDict _ => false
          | _ => true
          end
      | _ => false
      end
  | _ => false
  end.

(** [v] is a key of the index. *)
Definition is_key_of (v : pyval) (existing : index) : bool :=
  match hash_key v with
  | Ok k => dict_mem k existing
  | Raise _ => false
  end.

(** The substring of [s] after the last [sep]; [s] itself when it holds
    no [sep]. *)
Fixpoint after_last (sep : ascii) (s : string) : string :=
  match s with
  | EmptyString => EmptyString
  | String c s' =>
      if Str.contains sep s' then after_last sep s'
      else if Ascii.eqb c sep then s' else s
  end.

(** The stem of the artifact's filename, as the data model words it. *)
Definition stem_of (env : Env) (dataset_id : string) : string :=
  py_lower env (after_last "/" dataset_id).

(** A record with an identity and a value. *)
Definition result_record (id : string) (v : pyval) : pyval :=
  PDict [("dataset", PDict [("id", PStr id)]); ("value", v)].

(** Printing and reading: the effects that change nothing. *)
Definition is_lookup (ev : event) : bool :=
  match ev with
  | Print _ | ListRepoFiles _ _ _ | HfHubDownload _ _ _ _
  | GetRepoDiscussions _ _ | OpenRead _ => true
  | _ => false
  end.

(** From [w] to [w'] the files are the same and only lookups were added
    to the trace. *)
Definition only_looks (w w' : world) : Prop :=
  files w' = files w /\
  exists evs, trace w' = trace w ++ evs /\ Forall (fun ev => is_lookup ev = true) evs.

(** Every write of the run (the events after [before]) that succeeded is
    listed in [temp_files]. *)
Definition writes_staged (env : Env) (before : list event)
    (s : world * locals) : Prop :=
  forall pre p c post,
    trace s.1 = pre ++ OpenWrite p c :: post ->
    (length before <= length pre)%nat ->
    fs_write_fault env pre p c = None ->
    p ∈ temp_files s.2.

(** What the [try ... finally] of [create_eval_results_pr] guarantees for
    the run [r] started in [w] once the staging directory exists: the
    outcome is the outcome of the body, the body's effects are followed by
    one removal per staged file and the removal of the directory, and
    every successful write of the body is staged. *)
Definition cleaned_up (env : Env) (repo_id repo_type temp_dir : string)
    (results : pyval) (w : world) (r : world * outcome (option string))
    : Prop :=
  let body := submit_body env repo_id repo_type temp_dir results (w, no_locals) in
  r.2 = body.2 /\
  trace r.1 =
    trace body.1.1 ++ map Remove (temp_files body.1.2) ++ [Rmdir temp_dir] /\
  writes_staged env (trace w) body.1.

(** The claim of the overview on the document fetcher: a missing file
    (HTTP 404) and any other failure of the download give the caller
    different results. *)
Definition absence_is_distinct : Prop :=
  forall (env1 env2 : Env) (repo_id repo_type : string) (w : world)
         (msg : string) (e : exn),
    hub_download env1 repo_id "README.md" repo_type None =
      Raise (HfHubHTTPError 404 msg) ->
    hub_download env2 repo_id "README.md" repo_type None = Raise e ->
    (forall msg', e <> HfHubHTTPError 404 msg') ->
    (fetch_huggingface_readme env1 repo_id repo_type w).2 <>
    (fetch_huggingface_readme env2 repo_id repo_type w).2.

(** *** Notions for the proofs *)

(** A computation that cannot raise. *)
Definition safe {S A} (m : M S A) : Prop :=
  forall s, exists a, (m s).2 = Ok a.

(** One run: every step respects the relation [R] on states. *)
Definition steps {S} (R : S -> S -> Prop) {A} (m : M S A) : Prop :=
  forall s, R s (m s).1.

(** Two runs: from states related by [I], the outcomes are the same and
    the states reached are related by [I]. *)
Definition sim {S} (I : S -> S -> Prop) {A} (m : M S A) : Prop :=
  forall s1 s2, I s1 s2 -> (m s1).2 = (m s2).2 /\ I (m s1).1 (m s2).1.

(** A step keeps the property [P] of the state. *)
Definition keeps {S} (P : S -> Prop) (s s' : S) : Prop := P s -> P s'.

(** A relation on worlds, on states that carry local variables. *)
Definition on_world {L} (R : world -> world -> Prop) (s s' : world * L) : Prop :=
  R s.1 s'.1.

(** The index of the first run is [base] completed by the index of the
    second. *)
Definition over (base : index) (s1 s2 : world * index) : Prop :=
  overlay base s2.2 s1.2.

(** ** A repository to run the code on *)

Module Demo.

Definition record (id : string) (v : Z) : pyval := result_record id (PInt v).

Definition w0 : world := {| files := ∅; trace := [] |}.

(** The main branch records [cais/hle]; pull request 7 records
    [cais/hle] and [Idavidrein/gpqa], pull request 9 records
    [Idavidrein/gpqa]; the files of pull request 10 cannot be listed, and
    one file of the main branch cannot be parsed.  A file that no
    revision lists, [mixed.yaml], holds a record, then a string, then
    another record. *)
Definition listing (revision : option string) : outcome (list string) :=
  match revision with
  | None => Ok [".eval_results/hle.yaml"; "README.md"; ".eval_results/bad.yaml"]
  | Some r =>
      if String.eqb r "refs/pr/7"
      then Ok [".eval_results/gpqa.yaml"; ".eval_results/hle.yaml"]
      else if String.eqb r "refs/pr/9" then Ok [".eval_results/gpqa.yaml"]
      else Raise (Exception "revision not found")
  end.

Definition parsed (path : string) : outcome pyval :=
  if String.eqb path "main/.eval_results/hle.yaml"
  then Ok (PList [record "cais/hle" 40])
  else if String.eqb path "refs/pr/7/.eval_results/hle.yaml"
  then Ok (PList [record "cais/hle" 41])
  else if String.eqb path "refs/pr/7/.eval_results/gpqa.yaml"
  then Ok (PList [record "Idavidrein/gpqa" 50])
  else if String.eqb path "refs/pr/9/.eval_results/gpqa.yaml"
  then Ok (PList [record "Idavidrein/gpqa" 51])
  else if String.eqb path "main/.eval_results/mixed.yaml"
  then Ok (PList [record "cais/hle" 40; PStr "junk"; record "openai/gsm8k" 1])
  else Raise (Exception "could not parse").

Definition pr7 : Discussion := {| num := 7; is_pull_request := true; status := "open" |}.
Definition pr9 : Discussion := {| num := 9; is_pull_request := true; status := "open" |}.
Definition pr10 : Discussion := {| num := 10; is_pull_request := true; status := "open" |}.

Definition discussions : list Discussion :=
  [ {| num := 3; is_pull_request := false; status := "open" |};
    pr7;
    {| num := 8; is_pull_request := true; status := "closed" |};
    pr9; pr10 ].

(** The repository, with the given answer to the download of a file. *)
Definition hub_with (download : string -> option string -> outcome string) : Env :=
  {| py_str := fun _ => "<value>";
     py_lower := Str.lower;
     py_upper := Str.upper;
     py_lower_ascii := fun _ _ => eq_refl;
     py_upper_ascii := fun _ _ => eq_refl;
     py_lower_sep := ascii_lower_sep;
     yaml_dump := fun _ => "<yaml>";
     script_dir := "/app";
     hub_list_repo_files := fun _ _ revision => listing revision;
     hub_download := fun _ filename _ revision => download filename revision;
     hub_discussions := fun _ _ => Ok discussions;
     hub_create_commit := fun _ _ _ _ _ _ => Ok "https://hub/acme/model-x/discussions/11";
     fs_read_yaml := parsed;
     fs_read_text := fun _ => Ok "# Model card";
     fs_makedirs_fault := fun _ _ => None;
     fs_write_fault := fun _ _ _ => None;
     fs_write_residue := fun _ _ _ => None;
     fs_remove_fault := fun _ _ => None;
     fs_rmdir_fault := fun _ _ => None |}.

Definition hub : Env :=
  hub_with (fun filename revision =>
              Ok (default "main" revision +:+ "/" +:+ filename)).

Definition hub_failing (e : exn) : Env := hub_with (fun _ _ => Raise e).

Definition not_found : exn := HfHubHTTPError 404 "404 Client Error: Not Found".
Definition unavailable : exn :=
  HfHubHTTPError 503 "503 Server Error: Service Unavailable".

Definition hle_main : ExistingInfo :=
  {| source := "main"; pr_num := None; value := PInt 40;
     file_path := ".eval_results/hle.yaml" |}.

Definition gpqa_pr7 : ExistingInfo :=
  {| source := "pr"; pr_num := Some 7; value := PInt 50;
     file_path := ".eval_results/gpqa.yaml" |}.

End Demo.

(** The scan keeps the provenance of the entries. *)
Abbreviation keeps_tag src n :=
  (keeps (fun s : world * index => tagged src n s.2)).

(** ** The rest of [main.py] *)

Module Main.

(** A content block and a message of the agent's stream, as
    [claude_agent_sdk.types] has them; [OtherBlock] and [OtherMessage]
    stand for the classes the code does not test for. *)
Inductive block : Type :=
| TextBlock (text : string)
| ToolUseBlock (id name : string) (input : pyval)
| OtherBlock.

Inductive message : Type :=
| AssistantMessage (content : list block) (parent_tool_use_id : option string)
| ResultMessage (total_cost_usd : pyval)
| OtherMessage.

(** What [main.py] does not define: the messages that [query] yields for
    a prompt (with the options [main] builds) and the exception that ends
    the stream, if any; [template.format(repo_id=..., model_card_content=...)];
    the format [:.4f], which raises on a number beyond the range of a
    float; [type(e).__name__]; the text that [traceback.print_exc()]
    writes. *)
Record Agent : Type := {
  agent_query : string -> list message * option exn;
  str_format : string -> string -> string -> outcome string;
  format_4f : pyval -> outcome string;
  class_name : exn -> string;
  format_exc : exn -> string;
}.

(** What a run of [main] holds beside the world: its local variables,
    the prompts it sent to the agent, and what it wrote on stderr. *)
Record run : Type := {
  message_count : Z;
  subagent_names : gmap string pyval;
  evaluation_results : pyval;
  prompts : list string;
  stderr : list string;
}.

Definition start : run :=
  {| message_count := 0; subagent_names := ∅; evaluation_results := PNone;
     prompts := []; stderr := [] |}.

Definition is_dict (v : pyval) : bool :=
  match v with PDict _ => true | _ => false end.

(** [v > 0]. *)
Definition py_gt0 (v : pyval) : outcome bool :=
  match v with
  | PBool b => Ok b
  | PInt z => Ok (0 <? z)
  | PFloat m _ => Ok (0 <? m)
  | _ => Raise (TypeError ("'>' not supported between instances of '" +:+
                           type_name v +:+ "' and 'int'"))
  end.

Section Program.
Context (env : Env) (agent : Agent).

(** [f"{v}"]: a [str] is printed as it is. *)
Definition fstr (v : pyval) : string :=
  match v with PStr s => s | _ => py_str env v end.

(** [read_prompt] (main.py:32). *)
Definition read_prompt (filename : string) : M world string :=
  let filepath := path_join (script_dir env) filename in
  read_file env filepath.

(** [format_user_prompt] (main.py:39); the [ValueError] is an
    [Exception]. *)
Definition format_user_prompt (repo_id : string) : M world string :=
  let* model_card_content := fetch_huggingface_readme env repo_id "model" in
  match model_card_content with
  | None =>
      raise (Exception ("Model card content not found for repo_id: " +:+ repo_id))
  | Some model_card_content =>
      let* user_prompt_template := read_prompt "prompts/user_prompt.md" in
      lift_outcome (str_format agent user_prompt_template repo_id
                      model_card_content)
  end.

(** [open_pull_request] (main.py:144); [None] is [PNone]. *)
Definition open_pull_request (repo_id : string) (evaluation_results : pyval)
    : M world (option string) :=
  if negb (truthy evaluation_results) then
    print (Str.nl +:+ "No evaluation results to submit as PR") ;;;
    ret None
  else
    let* results := lift_outcome
                      (py_get evaluation_results "evaluation_results" (PList [])) in
    if negb (truthy results) then
      print (Str.nl +:+ "No evaluation results to submit as PR") ;;;
      ret None
    else
      print (Str.nl +:+ "Opening pull request for " +:+ repo_id +:+ "...") ;;;
      try_except
        (create_eval_results_pr env repo_id evaluation_results "model" true)
        (fun e =>
           print ("Failed to create pull request: " +:+ exn_str e) ;;;
           ret None).

(** Lines 213-224 of [main]: one block of an assistant message. *)
Definition process_block (agent_prefix : string) (b : block)
    : M (world * run) unit :=
  match b with
  | TextBlock text =>
      lift_w (print (agent_prefix +:+ " Claude: " +:+ text))
  | ToolUseBlock id name input =>
      lift_w (print (agent_prefix +:+ " Tool: " +:+ name +:+ "(" +:+
                     fstr input +:+ ")")) ;;;
      (if String.eqb name "Task" && is_dict input then
         let* subagent_type :=
           lift_outcome (py_get input "subagent_type" (PStr "subagent")) in
         modify_local (fun r =>
           {| message_count := message_count r;
              subagent_names := <[id := subagent_type]> (subagent_names r);
              evaluation_results := evaluation_results r;
              prompts := prompts r; stderr := stderr r |})
       else ret tt) ;;;
      (if String.eqb name "StructuredOutput" && is_dict input then
         modify_local (fun r =>
           {| message_count := message_count r;
              subagent_names := subagent_names r;
              evaluation_results := input;
              prompts := prompts r; stderr := stderr r |})
       else ret tt)
  | OtherBlock => ret tt
  end.

(** Lines 202-230 of [main]: one message of the stream. *)
Definition process_message (m : message) : M (world * run) unit :=
  modify_local (fun r =>
    {| message_count := message_count r + 1;
       subagent_names := subagent_names r;
       evaluation_results := evaluation_results r;
       prompts := prompts r; stderr := stderr r |}) ;;;
  match m with
  | AssistantMessage content parent_tool_use_id =>
      let* agent_prefix :=
        match parent_tool_use_id with
        | None => ret "[main]"
        | Some parent =>
            let* r := get_local in
            let subagent_name :=
              default (PStr "subagent") (subagent_names r !! parent) in
            ret ("[" +:+ fstr subagent_name +:+ "]")
        end in
      for_each (process_block agent_prefix) content
  | ResultMessage total_cost_usd =>
      let* paid :=
        (if truthy total_cost_usd then lift_outcome (py_gt0 total_cost_usd)
         else ret false) in
      if paid then
        let* cost := lift_outcome (format_4f agent total_cost_usd) in
        lift_w (print (Str.nl +:+ "Cost: $" +:+ cost))
      else ret tt
  | OtherMessage => ret tt
  end.

(** Lines 197-235 of [main]: the stream, consumed in the order of
    arrival, and the handler of whatever ends it. *)
Definition run_agent (user_prompt : string) : M (world * run) unit :=
  try_except
    (modify_local (fun r =>
       {| message_count := message_count r;
          subagent_names := subagent_names r;
          evaluation_results := evaluation_results r;
          prompts := prompts r ++ [user_prompt]; stderr := stderr r |}) ;;;
     for_each process_message (agent_query agent user_prompt).1 ;;;
     match (agent_query agent user_prompt).2 with
     | Some e => raise e
     | None => ret tt
     end)
    (fun e =>
       lift_w (print ("Error during agent query: " +:+ class_name agent e +:+
                      ": " +:+ exn_str e)) ;;;
       modify_local (fun r =>
         {| message_count := message_count r;
            subagent_names := subagent_names r;
            evaluation_results := evaluation_results r;
            prompts := prompts r; stderr := stderr r ++ [format_exc agent e] |})).

(** [main] (main.py:176), started with [start]. *)
Definition main (repo_id : string) (open_pr : bool) : M (world * run) unit :=
  let* user_prompt := lift_w (format_user_prompt repo_id) in
  run_agent user_prompt ;;;
  let* r := get_local in
  lift_w (print (Str.nl +:+ "Agent query completed. Total messages received: " +:+
                 pretty (message_count r))) ;;;
  (if truthy (evaluation_results r) then
     lift_w (write_output env repo_id (evaluation_results r))
   else ret tt) ;;;
  (if open_pr then
     let* pr_url := lift_w (open_pull_request repo_id (evaluation_results r)) in
     ret tt
   else ret tt).

End Program.

End Main.

(** *** Notions used to state the further properties *)

(** The world after a write of [content] to [path] that failed in [w]. *)
Definition failed_write (env : Env) (path content : string) (w : world)
    : world :=
  match fs_write_residue env (trace w) path content with
  | Some residue =>
      set_files (<[path := residue]> (files w)) (log (OpenWrite path content) w)
  | None => log (OpenWrite path content) w
  end.

(** The events a run added to the trace. *)
Definition new_events (w w' : world) : list event :=
  drop (length (trace w)) (trace w').

(** From [w] to [w'] only events that satisfy [Q] were added. *)
Definition emits (Q : event -> Prop) (w w' : world) : Prop :=
  exists evs, trace w' = trace w ++ evs /\ Forall Q evs.

(** The revisions the index builder looks at: the main branch and the
    open pull requests. *)
Definition scanned_revision (env : Env) (repo_id repo_type : string)
    (revision : option string) : Prop :=
  revision = None \/
  exists pr, pr ∈ open_prs env repo_id repo_type /\
             revision = Some (pr_revision pr).

(** What the index builder may do: print, list the discussions, list the
    files of a scanned revision, download a result file that the listing
    of its revision holds, read what the Hub answered to such a
    download. *)
Definition index_lookup (env : Env) (repo_id repo_type : string)
    (ev : event) : Prop :=
  match ev with
  | Print _ => True
  | GetRepoDiscussions r t => r = repo_id /\ t = repo_type
  | ListRepoFiles r t revision =>
      r = repo_id /\ t = repo_type /\
      scanned_revision env repo_id repo_type revision
  | HfHubDownload r f t revision =>
      r = repo_id /\ t = repo_type /\
      scanned_revision env repo_id repo_type revision /\
      is_eval_file f = true /\
      exists files,
        hub_list_repo_files env repo_id repo_type revision = Ok files /\
        f ∈ files
  | OpenRead p =>
      exists f revision files,
        scanned_revision env repo_id repo_type revision /\
        is_eval_file f = true /\
        hub_list_repo_files env repo_id repo_type revision = Ok files /\
        f ∈ files /\
        hub_download env repo_id f repo_type revision = Ok p
  | _ => False
  end.

(** Every read among [evs] comes right after a download from the
    repository, and reads the file that this download answered. *)
Definition reads_downloaded (env : Env) (repo_id repo_type : string)
    (evs : list event) : Prop :=
  forall pre p post,
    evs = pre ++ OpenRead p :: post ->
    exists pre' f revision,
      pre = pre' ++ [HfHubDownload repo_id f repo_type revision] /\
      hub_download env repo_id f repo_type revision = Ok p.

(** From [w] to [w'] the index builder did what it may do, and read only
    what it had just downloaded. *)
Definition scans (env : Env) (repo_id repo_type : string) (w w' : world)
    : Prop :=
  exists evs,
    trace w' = trace w ++ evs /\
    Forall (index_lookup env repo_id repo_type) evs /\
    reads_downloaded env repo_id repo_type evs.

(** An entry of the index: its key is the hash of a dataset id that is
    not empty, its file is a result file. *)
Definition sound_entry (k : pykey) (info : ExistingInfo) : Prop :=
  (exists v, truthy v = true /\ hash_key v = Ok k) /\
  is_eval_file (file_path info) = true.

Definition sound_index (idx : index) : Prop :=
  forall k info, dict_lookup k idx = Some info -> sound_entry k info.

(** The dataset id of a record when it is a non-empty string. *)
Definition string_id (r : pyval) : option string :=
  match dataset_id r with
  | PStr id => if String.eqb id EmptyString then None else Some id
  | _ => None
  end.

Definition string_ids (items : list pyval) : list string := omap string_id items.

(** The artifact of an identity in a directory, its add-file operation
    and its name in the title. *)
Definition path_for (env : Env) (dir id : string) : string :=
  path_join dir (stem_of env id +:+ ".yaml").

Definition op_for (env : Env) (temp_dir id : string) : CommitOperationAdd :=
  {| path_in_repo := ".eval_results/" +:+ (stem_of env id +:+ ".yaml");
     path_or_fileobj := path_for env temp_dir id |}.

Definition name_for (env : Env) (id : string) : string :=
  py_upper env (stem_of env id).

(** The local variables of the submitter once the identities [ids] have
    been staged on top of [l]. *)
Definition staged (env : Env) (temp_dir : string) (l : locals)
    (ids : list string) : locals :=
  {| temp_files := temp_files l ++ map (path_for env temp_dir) ids;
     operations := operations l ++ map (op_for env temp_dir) ids;
     benchmark_names := benchmark_names l ++ map (name_for env) ids;
     benchmark_ids := benchmark_ids l ++ ids |}.

(** The one commit that submits the identities [ids]. *)
Definition commit_of (env : Env) (repo_id repo_type temp_dir : string)
    (ids : list string) : event :=
  CreateCommit repo_id (map (op_for env temp_dir) ids)
    (pr_title (map (name_for env) ids))
    (pr_description (map (name_for env) ids) ids) true repo_type.

Definition is_commit (ev : event) : bool :=
  match ev with CreateCommit _ _ _ _ _ _ => true | _ => false end.

(** A file [<name>.yaml] directly in [dir]. *)
Definition yaml_in (dir path : string) : Prop :=
  exists name, path = path_join dir (name +:+ ".yaml") /\
               Str.contains "/" name = false.

(** What the loops over the candidates [items] may do in [dir]: print,
    and write the YAML of a candidate that has an id in the file of its
    stem. *)
Definition stage_event (env : Env) (dir : string) (items : list pyval)
    (ev : event) : Prop :=
  match ev with
  | Print _ => True
  | OpenWrite p c =>
      exists x id,
        x ∈ items /\ string_id x = Some id /\
        p = path_for env dir id /\ c = yaml_dump env [x]
  | _ => False
  end.

(** What [for result in results] iterates over; nothing when [results]
    cannot be iterated. *)
Definition iterated (results : pyval) : list pyval :=
  match py_iter results with
  | Ok items => items
  | Raise _ => []
  end.

(** The line that [create_eval_results_pr] prints before it re-raises. *)
Definition error_line (repo_id : string) (e : exn) : event :=
  Print ("Error creating PR for " +:+ repo_id +:+ ": " +:+ exn_str e).

(** How the part of [create_eval_results_pr] between the staging loop
    and the [finally] clause ends, for the staged identities [ids]:
    [tail] is what it adds to the trace, [o] is its outcome. *)
Definition submission (env : Env) (repo_id repo_type temp_dir : string)
    (ids : list string) (tail : list event) (o : outcome (option string))
    : Prop :=
  match ids with
  | [] =>
      tail = [Print ("No valid evaluation results to submit for " +:+ repo_id)] /\
      o = Ok None
  | _ =>
      match hub_create_commit env repo_id (map (op_for env temp_dir) ids)
              (pr_title (map (name_for env) ids))
              (pr_description (map (name_for env) ids) ids) true repo_type with
      | Ok pr_url =>
          tail = [commit_of env repo_id repo_type temp_dir ids;
                  Print ("PR created successfully at " +:+ repo_id +:+ ": " +:+
                         pr_url)] /\
          o = Ok (Some pr_url)
      | Raise e =>
          tail = [commit_of env repo_id repo_type temp_dir ids; error_line repo_id e] /\
          o = Raise e
      end
  end.

(** The candidates that [create_eval_results_pr] iterates over. *)
Definition candidates_of (evaluation_results : pyval) : list pyval :=
  match py_get evaluation_results "evaluation_results" (PList []) with
  | Ok results => iterated results
  | Raise _ => []
  end.

(** The candidates that reach the staging loop of a run started in [w]:
    all of them, or those that the comprehension keeps against the index
    that the builder returns. *)
Definition selected (env : Env) (repo_id repo_type : string)
    (skip_existing : bool) (w : world) (candidates items : list pyval) : Prop :=
  if skip_existing then
    exists w1 idx,
      get_existing_eval_results env repo_id repo_type w = (w1, Ok idx) /\
      (@reconcile unit candidates idx tt).2 = Ok items
  else items = candidates.

(** What [create_eval_results_pr] may do: look as the index builder
    does, create and remove its staging directory, write and remove
    [.yaml] files directly in it, and commit to the repository as a pull
    request. *)
Definition submitter_event (env : Env) (repo_id repo_type : string)
    (ev : event) : Prop :=
  match ev with
  | Makedirs p | Rmdir p => p = staging_dir env repo_id
  | OpenWrite p _ | Remove p => yaml_in (staging_dir env repo_id) p
  | CreateCommit r _ _ _ create_pr t =>
      r = repo_id /\ t = repo_type /\ create_pr = true
  | _ => index_lookup env repo_id repo_type ev
  end.

(** A record that the staging loop skips: an object without a dataset
    id. *)
Definition lacks_id (r : pyval) : bool :=
  match py_get r "dataset" (PDict []) with
  | Ok dataset =>
      match py_get dataset "id" (PStr "") with
      | Ok v => negb (truthy v)
      | Raise _ => false
      end
  | Raise _ => false
  end.

Definition skip_warning (env : Env) (r : pyval) : event :=
  Print ("Warning: Skipping result with missing dataset ID: " +:+ py_str env r).

(** The Hub's answer to the commit that submits the identities [ids]. *)
Definition commit_answer (env : Env) (repo_id repo_type temp_dir : string)
    (ids : list string) : outcome string :=
  hub_create_commit env repo_id (map (op_for env temp_dir) ids)
    (pr_title (map (name_for env) ids))
    (pr_description (map (name_for env) ids) ids) true repo_type.

Definition no_commit (ev : event) : Prop := is_commit ev = false.

(** What [write_output] may do: print, create its output directory, and
    write [.yaml] files directly in it. *)
Definition writer_event (env : Env) (repo_id : string) (ev : event) : Prop :=
  match ev with
  | Print _ => True
  | Makedirs p => p = output_dir env repo_id
  | OpenWrite p _ => yaml_in (output_dir env repo_id) p
  | _ => False
  end.

(** A candidate on which the loops of [write_output] and of
    [create_eval_results_pr] do not raise: its dataset id is a non-empty
    string, or it is an object without a dataset id. *)
Definition writable (r : pyval) : bool :=
  match string_id r with
  | Some _ => true
  | None => lacks_id r
  end.

(** The files after the artifacts of [items] have been written in [dir],
    one after the other. *)
Definition written (env : Env) (dir : string) (items : list pyval)
    (f : gmap string string) : gmap string string :=
  foldl (fun f r =>
           match string_id r with
           | Some id => <[path_for env dir id := yaml_dump env [r]]> f
           | None => f
           end) f items.

(** What the loop over [items] adds to the trace when no write fails. *)
Definition write_events (env : Env) (dir : string) (items : list pyval)
    : list event :=
  map (fun r =>
         match string_id r with
         | Some id => OpenWrite (path_for env dir id) (yaml_dump env [r])
         | None => skip_warning env r
         end) items.

(** *** Notions on the agent's stream *)

Definition printed (ev : event) : Prop := exists line, ev = Print line.

(** The structured output that a block carries, if any. *)
Definition block_output (b : Main.block) : option pyval :=
  match b with
  | Main.ToolUseBlock _ name input =>
      if String.eqb name "StructuredOutput" && Main.is_dict input
      then Some input else None
  | _ => None
  end.

Definition message_outputs (m : Main.message) : list pyval :=
  match m with
  | Main.AssistantMessage content _ => omap block_output content
  | _ => []
  end.

(** The structured outputs of a stream, in the order of arrival. *)
Definition structured_outputs (msgs : list Main.message) : list pyval :=
  flat_map message_outputs msgs.

(** The format [:.4f] accepts the cost. *)
Definition formats (agent : Main.Agent) (c : pyval) : bool :=
  match Main.format_4f agent c with Ok _ => true | Raise _ => false end.

(** A message whose cost, if it has one, can be compared with [0] and,
    when it is positive, formatted. *)
Definition cost_ok (agent : Main.Agent) (m : Main.message) : bool :=
  match m with
  | Main.ResultMessage c =>
      match c with
      | PNone => true
      | PBool b => negb b || formats agent c
      | PInt z => negb (0 <? z) || formats agent c
      | PFloat m _ => negb (0 <? m) || formats agent c
      | PStr _ | PList _ | PDict _ => negb (truthy c)
      end
  | _ => true
  end.

(** The messages that the loop of [main] handles: all of them up to and
    including the first one whose cost cannot be compared or formatted. *)
Fixpoint consumed (agent : Main.Agent) (msgs : list Main.message)
    : list Main.message :=
  match msgs with
  | [] => []
  | m :: msgs' => if cost_ok agent m then m :: consumed agent msgs' else [m]
  end.

(** What one step of the loop of [main] leaves as it is, and what it
    does to the captured output: [outs] are the structured outputs it
    met. *)
Definition stream_step (outs : list pyval) (n : Z)
    (s s' : world * Main.run) : Prop :=
  files s'.1 = files s.1 /\
  emits printed s.1 s'.1 /\
  Main.message_count s'.2 = Main.message_count s.2 + n /\
  Main.prompts s'.2 = Main.prompts s.2 /\
  Main.stderr s'.2 = Main.stderr s.2 /\
  Main.evaluation_results s'.2 =
    default (Main.evaluation_results s.2) (last outs).

(** What [format_user_prompt] may do: download [README.md] of the
    model, read, print. *)
Definition prompt_event (repo_id : string) (ev : event) : Prop :=
  ev = HfHubDownload repo_id "README.md" "model" None \/
  (exists p, ev = OpenRead p) \/
  printed ev.

(** What [main] may do: what [format_user_prompt] and [write_output]
    may do and, when a pull request is asked for, what
    [create_eval_results_pr] may do on the model repository. *)
Definition main_event (env : Env) (repo_id : string) (open_pr : bool)
    (ev : event) : Prop :=
  prompt_event repo_id ev \/
  writer_event env repo_id ev \/
  (open_pr = true /\ submitter_event env repo_id "model" ev).

(** The line that [main] prints after the stream. *)
Definition completed (r : Main.run) : event :=
  Print (Str.nl +:+ "Agent query completed. Total messages received: " +:+
         pretty (Main.message_count r)).

(** How a run [r] of [open_pull_request] from [w] goes on what [main]
    captured: it does not raise; it makes no commit and returns [None],
    or it makes one commit, of candidates with an id, and returns the
    URL that the Hub answers, [None] if the Hub refuses. *)
Definition pull_request_run (env : Env) (repo_id : string) (out : pyval)
    (w : world) (r : world * outcome (option string)) : Prop :=
  exists o before after,
    r.2 = Ok o /\
    emits (submitter_event env repo_id "model") w r.1 /\
    Forall no_commit before /\ Forall no_commit after /\
    ((trace r.1 = trace w ++ before ++ after /\ o = None) \/
     (exists items,
        items `sublist_of` candidates_of out /\
        string_ids items <> [] /\
        trace r.1 =
          trace w ++ before ++
          commit_of env repo_id "model" (staging_dir env repo_id) (string_ids items)
          :: after /\
        match commit_answer env repo_id "model" (staging_dir env repo_id)
                (string_ids items) with
        | Ok pr_url => o = Some pr_url
        | Raise _ => o = None
        end)).

(** An agent that answers every prompt with the same stream. *)
Module Script.

Definition agent (msgs : list Main.message) (ending : option exn) : Main.Agent :=
  {| Main.agent_query := fun _ => (msgs, ending);
     Main.str_format := fun template repo_id card =>
       Ok (template +:+ repo_id +:+ card);
     Main.format_4f := fun c =>
       match c with
       | PInt z =>
           if 2 ^ 1024 <=? z
           then Raise (Exception "int too large to convert to float")
           else Ok (pretty z +:+ ".0000")
       | _ => Ok "0.0000"
       end;
     Main.class_name := fun _ => "Exception";
     Main.format_exc := fun e => "Traceback: " +:+ exn_str e |}.

Definition output (items : list pyval) : Main.block :=
  Main.ToolUseBlock "toolu_1" "StructuredOutput"
    (PDict [("evaluation_results", PList items)]).

(** The demonstration repository with other listings, or on a file
    system that refuses to create directories. *)
Definition env (files_of : option string -> outcome (list string))
    (makedirs : option exn) : Env :=
  {| py_str := fun _ => "<value>";
     py_lower := Str.lower;
     py_upper := Str.upper;
     py_lower_ascii := fun _ _ => eq_refl;
     py_upper_ascii := fun _ _ => eq_refl;
     py_lower_sep := ascii_lower_sep;
     yaml_dump := fun _ => "<yaml>";
     script_dir := "/app";
     hub_list_repo_files := fun _ _ revision => files_of revision;
     hub_download := fun _ filename _ revision =>
       Ok (default "main" revision +:+ "/" +:+ filename);
     hub_discussions := fun _ _ => Ok Demo.discussions;
     hub_create_commit := fun _ _ _ _ _ _ =>
       Ok "https://hub/acme/model-x/discussions/11";
     fs_read_yaml := Demo.parsed;
     fs_read_text := fun _ => Ok "# Model card";
     fs_makedirs_fault := fun _ _ => makedirs;
     fs_write_fault := fun _ _ _ => None;
     fs_write_residue := fun _ _ _ => None;
     fs_remove_fault := fun _ _ => None;
     fs_rmdir_fault := fun _ _ => None |}.

Definition bare : Env := env (fun _ => Ok ["README.md"; "config.json"]) None.

(** [str.lower] on the letters of ASCII and of the Latin-1 supplement.
    In UTF-8 a capital letter from U+00C0 to U+00DE (the sign U+00D7
    apart) is the byte 195 followed by a byte from 128 to 158, and its
    small letter has 32 more in the second byte. *)
Definition is_latin1_upper (b : ascii) : bool :=
  ((128 <=? nat_of_ascii b) && (nat_of_ascii b <=? 158) &&
   negb (nat_of_ascii b =? 151))%nat.

Fixpoint lower_latin1 (s : string) : string :=
  match s with
  | EmptyString => EmptyString
  | String c s1 =>
      match s1 with
      | String c' s2 =>
          if (nat_of_ascii c =? 195)%nat && is_latin1_upper c'
          then String c (String (ascii_of_nat (nat_of_ascii c' + 32))
                           (lower_latin1 s2))
          else String (Str.lower_char c) (lower_latin1 s1)
      | EmptyString => String (Str.lower_char c) EmptyString
      end
  end.

Definition lower_latin1_ascii (s : string) :
  Str.is_ascii s = true -> lower_latin1 s = Str.lower s.
Proof.
  induction s as [|c s IH]; [reflexivity|].
  cbn [Str.is_ascii]. intros H. apply andb_prop in H as [Hc Hs].
  specialize (IH Hs). cbn [lower_latin1]. unfold Str.lower in *.
  cbn [Str.map_chars]. destruct s as [|c' s2]; [reflexivity|].
  replace (nat_of_ascii c =? 195)%nat with false; [cbn [andb]; now rewrite IH|].
  symmetry. apply Nat.eqb_neq. apply Nat.ltb_lt in Hc. lia.
Qed.

Definition lower_latin1_sep (s : string) :
  Str.contains "/" s = false -> Str.contains "/" (lower_latin1 s) = false.
Proof.
  assert (Hlow : forall c, Ascii.eqb (Str.lower_char c) "/" = Ascii.eqb c "/")
    by (intros [[] [] [] [] [] [] [] []]; reflexivity).
  assert (Hup : forall c, is_latin1_upper c = true ->
                          Ascii.eqb (ascii_of_nat (nat_of_ascii c + 32)) "/" = false)
    by (intros [[] [] [] [] [] [] [] []]; (discriminate || reflexivity)).
  assert (H : forall n s, (String.length s <= n)%nat ->
                Str.contains "/" s = false ->
                Str.contains "/" (lower_latin1 s) = false).
  { induction n as [|n IH]; intros [|c s1] Hlen Hs; try reflexivity.
    - cbn in Hlen. lia.
    - cbn [Str.contains] in Hs. apply orb_false_elim in Hs as [Hc Hs].
      cbn [String.length] in Hlen. cbn [lower_latin1].
      destruct s1 as [|c' s2]; [cbn [Str.contains]; now rewrite Hlow, Hc|].
      destruct ((nat_of_ascii c =? 195)%nat && is_latin1_upper c') eqn:Hpair.
      + apply andb_prop in Hpair as [_ Hc'].
        cbn [Str.contains] in Hs |- *. apply orb_false_elim in Hs as [_ Hs].
        rewrite Hc, (Hup _ Hc'). cbn [orb]. apply IH; [|exact Hs].
        cbn [String.length] in Hlen. lia.
      + cbn [Str.contains]. rewrite Hlow, Hc. cbn [orb].
        apply IH; [lia|exact Hs]. }
  intros Hs. now apply (H (String.length s)).
Qed.

(** The demonstration repository under an interpreter that lowers the
    letters of the Latin-1 supplement too. *)
Definition latin1 : Env :=
  {| py_str := fun _ => "<value>";
     py_lower := lower_latin1;
     py_upper := Str.upper;
     py_lower_ascii := lower_latin1_ascii;
     py_upper_ascii := fun _ _ => eq_refl;
     py_lower_sep := lower_latin1_sep;
     yaml_dump := fun _ => "<yaml>";
     script_dir := "/app";
     hub_list_repo_files := fun _ _ revision => Demo.listing revision;
     hub_download := fun _ filename _ revision =>
       Ok (default "main" revision +:+ "/" +:+ filename);
     hub_discussions := fun _ _ => Ok Demo.discussions;
     hub_create_commit := fun _ _ _ _ _ _ =>
       Ok "https://hub/acme/model-x/discussions/11";
     fs_read_yaml := Demo.parsed;
     fs_read_text := fun _ => Ok "# Model card";
     fs_makedirs_fault := fun _ _ => None;
     fs_write_fault := fun _ _ _ => None;
     fs_write_residue := fun _ _ _ => None;
     fs_remove_fault := fun _ _ => None;
     fs_rmdir_fault := fun _ _ => None |}.

(** The letters [É] and [é] in UTF-8, and two ids that differ by them
    only. *)
Definition E_acute : string := String (ascii_of_nat 195) (String (ascii_of_nat 137) "").
Definition e_acute : string := String (ascii_of_nat 195) (String (ascii_of_nat 169) "").
Definition ECOLE : string := "org/" +:+ E_acute +:+ "COLE-Bench".
Definition ecole : string := "org/" +:+ e_acute +:+ "cole-bench".


Definition read_only : Env :=
  env Demo.listing (Some (OSError "Read-only file system")).

End Script.

(** What [main] may do before it opens a pull request. *)
Definition local_event (env : Env) (repo_id : string) (ev : event) : Prop :=
  prompt_event repo_id ev \/ writer_event env repo_id ev.

(** Where what a run writes and commits comes from: a file that is
    written holds the YAML of one of the [candidates], one that has an
    id, and is the file of its stem in the output directory or in the
    staging directory; a commit is the commit of some of the candidates,
    taken in their order. *)
Definition from_candidates (env : Env) (repo_id repo_type : string)
    (candidates : list pyval) (ev : event) : Prop :=
  match ev with
  | OpenWrite p c =>
      exists x id,
        x ∈ candidates /\ string_id x = Some id /\ c = yaml_dump env [x] /\
        (p = path_for env (output_dir env repo_id) id \/
         p = path_for env (staging_dir env repo_id) id)
  | CreateCommit _ _ _ _ _ _ =>
      exists items,
        items `sublist_of` candidates /\ string_ids items <> [] /\
        ev = commit_of env repo_id repo_type (staging_dir env repo_id)
               (string_ids items)
  | _ => True
  end.


(** [p] is the entry [name] of the directory [dir]: [name] is one
    component, and neither ["."] nor [".."]. *)
Definition entry_of (dir name p : string) : Prop :=
  p = join1 dir name /\
  Str.contains "/" name = false /\
  name <> "" /\ name <> "." /\ name <> "..".



(** ** The monad's equations *)

Section MonadFacts.
Context {S : Type}.

Lemma bind_ok {A B} (m : M S A) (k : A -> M S B) s s' a :
  m s = (s', Ok a) -> bind m k s = k a s'.
Proof. intros H. unfold bind. now rewrite H. Qed.

Lemma bind_raise {A B} (m : M S A) (k : A -> M S B) s s' e :
  m s = (s', Raise e) -> bind m k s = (s', Raise e).
Proof. intros H. unfold bind. now rewrite H. Qed.

Lemma for_each_app {A} (body : A -> M S unit) l1 l2 s :
  for_each body (l1 ++ l2) s = (for_each body l1 ;;; for_each body l2) s.
Proof.
  revert s. induction l1 as [|x l1 IH]; intros s; [reflexivity|].
  cbn [for_each app]. unfold bind.
  destruct (body x s) as [s1 [[]|e]]; [|reflexivity].
  rewrite IH. reflexivity.
Qed.

Lemma safe_ret {A} (a : A) : safe (@ret S A a).
Proof. intros s. now exists a. Qed.

Lemma safe_bind {A B} (m : M S A) (k : A -> M S B) :
  safe m -> (forall a, safe (k a)) -> safe (bind m k).
Proof.
  intros Hm Hk s. unfold bind. destruct (Hm s) as [a Ha].
  destruct (m s) as [s' o]; cbn in Ha; subst o. apply Hk.
Qed.

Lemma safe_try_except {A} (m : M S A) h :
  (forall e, safe (h e)) -> safe (try_except m h).
Proof.
  intros Hh s. unfold try_except. destruct (m s) as [s' [a|e]].
  - now exists a.
  - apply Hh.
Qed.

Lemma safe_for_each {A} (body : A -> M S unit) l :
  (forall x, safe (body x)) -> safe (for_each body l).
Proof.
  intros Hb. induction l as [|x l IH]; [apply safe_ret|].
  cbn [for_each]. apply safe_bind; [apply Hb | intros _; apply IH].
Qed.

(** *** One run *)

Section Steps.
Context (R : S -> S -> Prop) `{!PreOrder R}.

Lemma steps_ret {A} (a : A) : steps R (ret a).
Proof. intros s. cbn. reflexivity. Qed.

Lemma steps_raise {A} e : steps R (@raise S A e).
Proof. intros s. cbn. reflexivity. Qed.

Lemma steps_lift_outcome {A} (o : outcome A) : steps R (lift_outcome o).
Proof. intros s. cbn. reflexivity. Qed.

Lemma steps_bind {A B} (m : M S A) (k : A -> M S B) :
  steps R m -> (forall a, steps R (k a)) -> steps R (bind m k).
Proof.
  intros Hm Hk s. unfold bind. specialize (Hm s).
  destruct (m s) as [s' [a|e]]; cbn in *; [|assumption].
  etransitivity; [exact Hm | apply Hk].
Qed.

Lemma steps_try_except {A} (m : M S A) h :
  steps R m -> (forall e, steps R (h e)) -> steps R (try_except m h).
Proof.
  intros Hm Hh s. unfold try_except. specialize (Hm s).
  destruct (m s) as [s' [a|e]]; cbn in *; [assumption|].
  etransitivity; [exact Hm | apply Hh].
Qed.

Lemma steps_for_each {A} (body : A -> M S unit) l :
  (forall x, steps R (body x)) -> steps R (for_each body l).
Proof.
  intros Hb. induction l as [|x l IH]; [apply steps_ret|].
  cbn [for_each]. apply steps_bind; [apply Hb | intros _; apply IH].
Qed.

Lemma steps_filter_m {A} (p : A -> M S bool) l :
  (forall x, steps R (p x)) -> steps R (filter_m p l).
Proof.
  intros Hp. induction l as [|x l IH]; [apply steps_ret|].
  cbn [filter_m]. apply steps_bind; [apply Hp|intros keep].
  apply steps_bind; [exact IH|intros rest]. apply steps_ret.
Qed.

Lemma steps_if {A} (b : bool) (m1 m2 : M S A) :
  steps R m1 -> steps R m2 -> steps R (if b then m1 else m2).
Proof. now destruct b. Qed.

End Steps.

(** *** Two runs *)

Section Sim.
Context (I : S -> S -> Prop).

Lemma sim_ret {A} (a : A) : sim I (ret a).
Proof. intros s1 s2 H. now split. Qed.

Lemma sim_lift_outcome {A} (o : outcome A) : sim I (lift_outcome o).
Proof. intros s1 s2 H. now split. Qed.

Lemma sim_bind {A B} (m : M S A) (k : A -> M S B) :
  sim I m -> (forall a, sim I (k a)) -> sim I (bind m k).
Proof.
  intros Hm Hk s1 s2 H. unfold bind. destruct (Hm s1 s2 H) as [Ho HI].
  destruct (m s1) as [s1' o1], (m s2) as [s2' o2]; cbn in *. subst o2.
  destruct o1 as [a|e]; [now apply Hk | now split].
Qed.

Lemma sim_try_except {A} (m : M S A) h :
  sim I m -> (forall e, sim I (h e)) -> sim I (try_except m h).
Proof.
  intros Hm Hh s1 s2 H. unfold try_except. destruct (Hm s1 s2 H) as [Ho HI].
  destruct (m s1) as [s1' o1], (m s2) as [s2' o2]; cbn in *. subst o2.
  destruct o1 as [a|e]; [now split | now apply Hh].
Qed.

Lemma sim_for_each {A} (body : A -> M S unit) l :
  (forall x, sim I (body x)) -> sim I (for_each body l).
Proof.
  intros Hb. induction l as [|x l IH]; [apply sim_ret|].
  cbn [for_each]. apply sim_bind; [apply Hb | intros _; apply IH].
Qed.

Lemma sim_if {A} (b : bool) (m1 m2 : M S A) :
  sim I m1 -> sim I m2 -> sim I (if b then m1 else m2).
Proof. now destruct b. Qed.

End Sim.

End MonadFacts.

#[local] Instance keeps_preorder {S} (P : S -> Prop) : PreOrder (keeps P).
Proof.
  split.
  - intros s H. exact H.
  - intros s1 s2 s3 H12 H23 H. apply H23, H12, H.
Qed.

(** ** Dictionaries *)

Lemma is_key_hash k o : is_key k o = true <-> hash_key o = Ok k.
Proof.
  unfold is_key. destruct (hash_key o) as [k'|e].
  - rewrite bool_decide_eq_true. split; [now intros ->|now intros [= ->]].
  - split; discriminate.
Qed.

Lemma is_key_other k k' o : hash_key o = Ok k -> k <> k' -> is_key k' o = false.
Proof.
  intros Hk Hne. unfold is_key. rewrite Hk. now apply bool_decide_eq_false.
Qed.

Lemma dict_lookup_set_eq {V} k o (v : V) d :
  hash_key o = Ok k -> dict_lookup k (dict_set k o v d) = Some v.
Proof.
  intros Hk. apply is_key_hash in Hk.
  induction d as [|[o' v'] d IH]; cbn.
  - now rewrite Hk.
  - destruct (is_key k o') eqn:Ho; cbn; now rewrite Ho.
Qed.

Lemma dict_lookup_set_ne {V} k k' o (v : V) d :
  hash_key o = Ok k -> k <> k' ->
  dict_lookup k' (dict_set k o v d) = dict_lookup k' d.
Proof.
  intros Hk Hne. induction d as [|[o0 v0] d IH]; cbn.
  - now rewrite (is_key_other _ _ _ Hk Hne).
  - destruct (is_key k o0) eqn:Ho; cbn.
    + apply is_key_hash in Ho. now rewrite (is_key_other _ _ _ Ho Hne).
    + destruct (is_key k' o0); [reflexivity | exact IH].
Qed.

(** [d[True] = v] then [d[1] = v']: one entry, under the key object
    that was inserted first. *)
Remark dict_keeps_first_key_object :
  dict_set (KNum 1 0) (PInt 1) "b" (dict_set (KNum 1 0) (PBool true) "a" []) =
    [(PBool true, "b")] /\
  hash_key (PBool true) = hash_key (PInt 1) /\
  dict_lookup (KNum 1 0) [(PBool true, "b")] = Some "b".
Proof. repeat split. Qed.

Lemma dict_lookup_set_inv {V} k o (v : V) d k' v' :
  dict_lookup k' (dict_set k o v d) = Some v' ->
  v' = v \/ dict_lookup k' d = Some v'.
Proof.
  induction d as [|[o0 v0] d IH]; cbn.
  - destruct (is_key k' o); [intros [= <-]; now left|discriminate].
  - destruct (is_key k o0); cbn.
    + destruct (is_key k' o0); [intros [= <-]; now left|now right].
    + destruct (is_key k' o0); [now right|exact IH].
Qed.

Lemma dict_mem_true {V} k (d : list (pyval * V)) :
  dict_mem k d = true <-> exists v, dict_lookup k d = Some v.
Proof.
  unfold dict_mem. destruct (dict_lookup k d) as [v|].
  - split; [now exists v | reflexivity].
  - split; [discriminate | now intros [v Hv]].
Qed.

Lemma dict_mem_false {V} k (d : list (pyval * V)) :
  dict_mem k d = false <-> dict_lookup k d = None.
Proof.
  unfold dict_mem. destruct (dict_lookup k d); split; congruence.
Qed.

(** ** Lists and strings *)

Lemma snoc_split {A} (l pre post : list A) (x y : A) :
  l ++ [x] = pre ++ y :: post ->
  (post = [] /\ pre = l /\ y = x) \/
  (exists post', post = post' ++ [x] /\ l = pre ++ y :: post').
Proof.
  destruct post as [|z post _] using rev_ind; intros H.
  - left. apply app_inj_tail in H as [-> ->]. auto.
  - right. exists post.
    change (pre ++ y :: post ++ [z]) with (pre ++ (y :: post) ++ [z]) in H.
    rewrite app_assoc in H. apply app_inj_tail in H as [-> ->]. now split.
Qed.

Lemma drop_new_events {A} (l new : list A) : drop (length l) (l ++ new) = new.
Proof. now rewrite drop_app_length. Qed.

Lemma startswith_append p x : Str.startswith p (p +:+ x) = true.
Proof.
  unfold Str.startswith. induction p as [|a p IH].
  - now destruct x.
  - change (String.prefix (String a p) (String a (p +:+ x)) = true).
    cbn [String.prefix]. now destruct (ascii_dec a a).
Qed.

Lemma split_not_nil sep s : Str.split sep s <> [].
Proof.
  destruct s as [|c s]; cbn; [discriminate|].
  destruct (Ascii.eqb c sep); [discriminate|].
  destruct (Str.split sep s); discriminate.
Qed.

Lemma split_without_sep sep s :
  Str.contains sep s = false -> Str.split sep s = [s].
Proof.
  induction s as [|c s IH]; cbn; [reflexivity|].
  destruct (Ascii.eqb c sep); cbn; [discriminate|].
  intros H. now rewrite (IH H).
Qed.

Lemma split_with_sep sep s :
  Str.contains sep s = true -> exists x y l, Str.split sep s = x :: y :: l.
Proof.
  induction s as [|c s IH]; cbn; [discriminate|].
  destruct (Ascii.eqb c sep); cbn.
  - intros _. pose proof (split_not_nil sep s) as Hne.
    destruct (Str.split sep s) as [|y l]; [contradiction|]. eauto.
  - intros H. destruct (IH H) as (x & y & l & ->). eauto.
Qed.

(** The last segment of [s.split(sep)] is what follows the last [sep]. *)
Lemma last_segment_split sep s :
  Str.last_segment (Str.split sep s) = after_last sep s.
Proof.
  unfold Str.last_segment. induction s as [|c s IH]; [reflexivity|].
  cbn [Str.split after_last].
  destruct (Str.contains sep s) eqn:Hc.
  - destruct (split_with_sep sep s Hc) as (x & y & l & Hs).
    rewrite Hs in *. now destruct (Ascii.eqb c sep).
  - rewrite (split_without_sep sep s Hc). now destruct (Ascii.eqb c sep).
Qed.

Lemma after_last_no_sep sep s : Str.contains sep (after_last sep s) = false.
Proof.
  induction s as [|c s IH]; [reflexivity|]. cbn [after_last].
  destruct (Str.contains sep s) eqn:Hc; [exact IH|].
  destruct (Ascii.eqb c sep) eqn:Hcs; [exact Hc|]. cbn. now rewrite Hcs, Hc.
Qed.

Lemma after_last_suffix sep s :
  s = after_last sep s \/
  exists p, s = p +:+ String sep (after_last sep s).
Proof.
  induction s as [|c s IH]; [now left|]. cbn [after_last].
  destruct (Str.contains sep s) eqn:Hc.
  - right. destruct IH as [IH|[p IH]].
    + rewrite <- IH. pose proof (after_last_no_sep sep s) as Hn.
      rewrite <- IH in Hn. congruence.
    + exists (String c p).
      change (String c s = String c (p +:+ String sep (after_last sep s))).
      now f_equal.
  - destruct (Ascii.eqb c sep) eqn:Hcs; [|now left].
    right. exists EmptyString. apply Ascii.eqb_eq in Hcs. now subst c.
Qed.

Lemma truthy_str s : s <> EmptyString -> truthy (PStr s) = true.
Proof. cbn. destruct s; [contradiction | reflexivity]. Qed.

Lemma dataset_id_get r id :
  dataset_id r = PStr id ->
  exists dataset,
    py_get r "dataset" (PDict []) = Ok dataset /\
    py_get dataset "id" (PStr "") = Ok (PStr id).
Proof.
  unfold dataset_id. destruct r as [| | | | | |d]; try discriminate.
  cbn [py_get]. destruct (default (PDict []) (assoc "dataset" d))
    as [| | | | | |ds] eqn:Hd; try discriminate.
  intros Hid. eexists. split; [reflexivity|]. cbn [py_get].
  destruct (assoc "id" ds); cbn in *; [now subst | discriminate].
Qed.

(** ** Computations on the world, next to local variables *)

Lemma steps_lift_w {L A} (R : world * L -> world * L -> Prop) (m : M world A) :
  (forall w w' l, R (w, l) (w', l)) -> steps R (lift_w m).
Proof.
  intros HR [w l]. unfold lift_w. cbn. destruct (m w) as [w' o]. apply HR.
Qed.

Lemma sim_lift_w {L A} (I : world * L -> world * L -> Prop) (m : M world A) :
  (forall w1 w2, (m w1).2 = (m w2).2) ->
  (forall w1 w2 w1' w2' l1 l2, I (w1, l1) (w2, l2) -> I (w1', l1) (w2', l2)) ->
  sim I (lift_w m).
Proof.
  intros Hm HI [w1 l1] [w2 l2] H. unfold lift_w. cbn.
  specialize (Hm w1 w2). destruct (m w1) as [w1' o1], (m w2) as [w2' o2].
  cbn in *. split; [assumption | eapply HI, H].
Qed.

Lemma safe_lift_w {L A} (m : M world A) : safe m -> safe (@lift_w L A m).
Proof.
  intros Hm [w l]. unfold lift_w. cbn. destruct (Hm w) as [a Ha].
  destruct (m w) as [w' o]. cbn in *. now exists a.
Qed.

Lemma safe_print line : safe (print line).
Proof. intros w. now exists tt. Qed.

Lemma steps_on_world {L A} R (m : M world A) :
  steps R m -> steps (@on_world L R) (lift_w m).
Proof.
  intros Hm [w l]. unfold on_world, lift_w. cbn. specialize (Hm w).
  now destruct (m w).
Qed.

#[local] Instance on_world_preorder {L} R `{!PreOrder R} :
  PreOrder (@on_world L R).
Proof.
  split.
  - intros s. unfold on_world. reflexivity.
  - intros s1 s2 s3 H12 H23. unfold on_world in *. etransitivity; eassumption.
Qed.

#[local] Instance only_looks_preorder : PreOrder only_looks.
Proof.
  split.
  - intros w. split; [reflexivity|]. exists []. now rewrite app_nil_r.
  - intros w1 w2 w3 [Hf12 (evs1 & Ht12 & Hq1)] [Hf23 (evs2 & Ht23 & Hq2)].
    split; [congruence|]. exists (evs1 ++ evs2).
    split; [now rewrite Ht23, Ht12, app_assoc | now apply Forall_app].
Qed.

Lemma only_looks_log ev w : is_lookup ev = true -> only_looks w (log ev w).
Proof.
  intros Hev. split; [reflexivity|]. exists [ev]. split; [reflexivity|].
  now constructor.
Qed.

Lemma keeps_tag_lift {A} src n (m : M world A) :
  steps (keeps_tag src n) (lift_w m).
Proof. apply steps_lift_w. intros w w' l H. exact H. Qed.

Lemma over_lift {A} base (m : M world A) :
  (forall w1 w2, (m w1).2 = (m w2).2) -> sim (over base) (lift_w m).
Proof. intros Hm. apply sim_lift_w; [exact Hm | intros; assumption]. Qed.

(** Walks down a computation along its structure and leaves the steps
    that act on the local variables. *)
Ltac walk_steps :=
  repeat match goal with
         | |- PreOrder _ => apply _
         | |- steps _ (bind _ _) => apply steps_bind
         | |- steps _ (try_except _ _) => apply steps_try_except
         | |- steps _ (for_each _ _) => apply steps_for_each
         | |- steps _ (filter_m _ _) => apply steps_filter_m
         | |- steps _ (if _ then _ else _) => apply steps_if
         | |- steps _ (match ?x with [] => _ | _ :: _ => _ end) => destruct x
         | |- steps _ (ret _) => apply steps_ret
         | |- steps _ (raise _) => apply steps_raise
         | |- steps _ (lift_outcome _) => apply steps_lift_outcome
         | |- steps (keeps_tag _ _) (lift_w _) => apply keeps_tag_lift
         | |- steps (on_world _) (lift_w _) => apply steps_on_world
         | |- steps (on_world _) get_local =>
             intros ?; unfold on_world; reflexivity
         | |- steps (on_world _) (modify_local _) =>
             intros ?; unfold on_world; reflexivity
         | |- steps only_looks (print _) =>
             intros ?; now apply only_looks_log
         | |- steps only_looks (list_repo_files _ _ _ _) =>
             intros ?; now apply only_looks_log
         | |- steps only_looks (hf_hub_download _ _ _ _ _) =>
             intros ?; now apply only_looks_log
         | |- steps only_looks (read_yaml _ _) =>
             intros ?; now apply only_looks_log
         | |- steps only_looks (get_repo_discussions _ _ _) =>
             intros ?; now apply only_looks_log
         | |- forall _, _ => intro
         end.

Ltac walk_sim :=
  repeat match goal with
         | |- sim _ (bind _ _) => apply sim_bind
         | |- sim _ (try_except _ _) => apply sim_try_except
         | |- sim _ (for_each _ _) => apply sim_for_each
         | |- sim _ (if _ then _ else _) => apply sim_if
         | |- sim _ (ret _) => apply sim_ret
         | |- sim _ (lift_outcome _) => apply sim_lift_outcome
         | |- sim (over _) (lift_w _) => apply over_lift; reflexivity
         | |- forall _, _ => intro
         end.

(** ** The index builder *)

Section IndexBuilder.
Context (env : Env) (repo_id repo_type : string).

(** *** It cannot raise: every handler only prints *)

Lemma scan_main_safe : safe (scan_main env repo_id repo_type).
Proof. apply safe_try_except. intros e. apply safe_lift_w, safe_print. Qed.

Lemma scan_pr_safe pr : safe (scan_pr env repo_id repo_type pr).
Proof. apply safe_try_except. intros e. apply safe_lift_w, safe_print. Qed.

Lemma scan_prs_safe : safe (scan_prs env repo_id repo_type).
Proof. apply safe_try_except. intros e. apply safe_lift_w, safe_print. Qed.

Lemma get_existing_eval_results_run w :
  exists w',
    get_existing_eval_results env repo_id repo_type w =
      (w', Ok (scan_prs env repo_id repo_type
                 (scan_main env repo_id repo_type (w, [])).1).1.2).
Proof.
  unfold get_existing_eval_results, bind.
  destruct (scan_main_safe (w, [])) as [[] Hm].
  destruct (scan_main env repo_id repo_type (w, [])) as [s1 o1].
  cbn in Hm. subst o1. cbn [fst].
  destruct (scan_prs_safe s1) as [[] Hp].
  destruct (scan_prs env repo_id repo_type s1) as [s2 o2].
  cbn in Hp. subst o2. now exists s2.1.
Qed.

(** *** Provenance of the entries *)

Lemma tagged_nil src n : tagged src n [].
Proof. intros k info. discriminate. Qed.

Lemma tagged_set src n k o info idx :
  source info = src -> pr_num info = n ->
  tagged src n idx -> tagged src n (dict_set k o info idx).
Proof.
  intros Hs Hn Hidx k' info' H.
  apply dict_lookup_set_inv in H as [->|H]; [now split|exact (Hidx _ _ H)].
Qed.

Lemma record_main_tag f r : steps (keeps_tag "main" None) (record_main f r).
Proof.
  unfold record_main. walk_steps.
  intros [w idx] H. cbn. now apply tagged_set.
Qed.

Lemma record_pr_tag pr f r :
  steps (keeps_tag "pr" (Some (num pr))) (record_pr pr f r).
Proof.
  unfold record_pr. walk_steps.
  - intros s H. exact H.
  - intros [w idx] H. cbn. now apply tagged_set.
Qed.

Lemma main_findings_tagged w :
  tagged "main" None (main_findings env repo_id repo_type w).
Proof.
  assert (H : steps (keeps_tag "main" None) (scan_main env repo_id repo_type)).
  { unfold scan_main, scan_main_file. walk_steps. apply record_main_tag. }
  apply (H (w, [])), tagged_nil.
Qed.

Lemma pr_findings_tagged pr w :
  tagged "pr" (Some (num pr)) (pr_findings env repo_id repo_type pr w).
Proof.
  assert (H : steps (keeps_tag "pr" (Some (num pr)))
                (scan_pr env repo_id repo_type pr)).
  { unfold scan_pr, scan_pr_file. walk_steps. apply record_pr_tag. }
  apply (H (w, [])), tagged_nil.
Qed.

(** *** A pull request scanned on top of an index

    The scan of a pull request started from an index [base] and the scan
    started from the empty index raise at the same places, and the first
    index is [base] completed by the second. *)

Lemma record_pr_sim base pr f r : sim (over base) (record_pr pr f r).
Proof.
  intros [w1 i1] [w2 i2] H. unfold over in *. cbn [fst snd] in *.
  unfold record_pr, bind, lift_outcome, get_local, ret, modify_local.
  destruct r as [| | | | |l|d]; try (cbn; now split). cbn [py_get].
  destruct (py_get _ "id" PNone) as [dataset_id|e]; [|now split].
  destruct (truthy dataset_id); cbn [fst snd]; [|now split].
  destruct (hash_key dataset_id) as [k|e] eqn:Hhash; cbn [fst snd];
    [|now split].
  pose proof (H k) as Hk.
  destruct (dict_mem k i1) eqn:M1, (dict_mem k i2) eqn:M2; cbn [negb fst snd];
    (split; [reflexivity|]).
  - exact H.
  - apply dict_mem_false in M2. apply dict_mem_true in M1 as [v1 Hv1].
    intros k'. destruct (decide (k = k')) as [<-|Hne].
    + rewrite dict_lookup_set_eq by assumption.
      rewrite Hk, M2 in Hv1. rewrite Hk, M2.
      destruct (dict_lookup k base); [reflexivity | discriminate].
    + rewrite dict_lookup_set_ne by assumption. apply H.
  - apply dict_mem_false in M1. apply dict_mem_true in M2 as [v2 Hv2].
    rewrite Hk, Hv2 in M1. destruct (dict_lookup k base); discriminate.
  - apply dict_mem_false in M1, M2. intros k'.
    destruct (decide (k = k')) as [<-|Hne].
    + rewrite !dict_lookup_set_eq by assumption. rewrite Hk in M1.
      destruct (dict_lookup k base); [discriminate | reflexivity].
    + rewrite !dict_lookup_set_ne by assumption. apply H.
Qed.

Lemma scan_pr_sim base pr :
  sim (over base) (scan_pr env repo_id repo_type pr).
Proof.
  unfold scan_pr, scan_pr_file. walk_sim. apply record_pr_sim.
Qed.

(** One pull request: what was known stays, the rest is what the pull
    request records on its own. *)
Lemma scan_pr_lookup pr w1 idx w k :
  dict_lookup k (scan_pr env repo_id repo_type pr (w1, idx)).1.2 =
  match dict_lookup k idx with
  | Some info => Some info
  | None => dict_lookup k (pr_findings env repo_id repo_type pr w)
  end.
Proof.
  assert (H0 : over idx (w1, idx) (w, [])).
  { intros k'. cbn. now destruct (dict_lookup k' idx). }
  destruct (scan_pr_sim idx pr _ _ H0) as [_ H]. apply H.
Qed.

Lemma scan_pr_loop_lookup prs w1 idx w k :
  dict_lookup k (for_each (scan_pr env repo_id repo_type) prs (w1, idx)).1.2 =
  match dict_lookup k idx with
  | Some info => Some info
  | None =>
      first_finding k (map (fun pr => pr_findings env repo_id repo_type pr w) prs)
  end.
Proof.
  revert w1 idx. induction prs as [|pr prs IH]; intros w1 idx.
  - cbn. now destruct (dict_lookup k idx).
  - cbn [for_each map first_finding]. unfold bind.
    destruct (scan_pr_safe pr (w1, idx)) as [[] Hs].
    pose proof (scan_pr_lookup pr w1 idx w k) as Hl.
    destruct (scan_pr env repo_id repo_type pr (w1, idx)) as [[w2 idx2] o].
    cbn in Hs, Hl. subst o. rewrite IH, Hl.
    destruct (dict_lookup k idx); [reflexivity|].
    now destruct (dict_lookup k (pr_findings env repo_id repo_type pr w)).
Qed.

Lemma scan_prs_lookup w1 idx w k :
  dict_lookup k (scan_prs env repo_id repo_type (w1, idx)).1.2 =
  match dict_lookup k idx with
  | Some info => Some info
  | None =>
      first_finding k
        (map (fun pr => pr_findings env repo_id repo_type pr w)
           (open_prs env repo_id repo_type))
  end.
Proof.
  unfold scan_prs, try_except, bind, lift_w, get_repo_discussions, open_prs.
  cbn [fst snd].
  destruct (hub_discussions env repo_id repo_type) as [ds|e].
  - pose proof (scan_pr_loop_lookup (List.filter is_open_pr ds)
                  (log (GetRepoDiscussions repo_id repo_type) w1) idx w k) as Hl.
    destruct (safe_for_each (scan_pr env repo_id repo_type)
                (List.filter is_open_pr ds) scan_pr_safe
                (log (GetRepoDiscussions repo_id repo_type) w1, idx)) as [[] Hs].
    destruct (for_each _ _ _) as [s o]. cbn in Hs, Hl. subst o. exact Hl.
  - cbn. now destruct (dict_lookup k idx).
Qed.

(** The index that is built: the main branch first, then the first pull
    request that has the key. *)
Lemma built_index_lookup w k :
  exists w' idx,
    get_existing_eval_results env repo_id repo_type w = (w', Ok idx) /\
    dict_lookup k idx =
      match dict_lookup k (main_findings env repo_id repo_type w) with
      | Some info => Some info
      | None =>
          first_finding k
            (map (fun pr => pr_findings env repo_id repo_type pr w)
               (open_prs env repo_id repo_type))
      end.
Proof.
  destruct (get_existing_eval_results_run w) as [w' Hrun].
  eexists _, _. split; [exact Hrun|].
  unfold main_findings.
  destruct (scan_main env repo_id repo_type (w, [])) as [[w1 idx1] o1].
  cbn [fst snd]. apply scan_prs_lookup.
Qed.

Lemma first_finding_app k l1 l2 :
  first_finding k (l1 ++ l2) =
  match first_finding k l1 with
  | Some info => Some info
  | None => first_finding k l2
  end.
Proof.
  induction l1 as [|idx l1 IH]; [reflexivity|]. cbn.
  now destruct (dict_lookup k idx).
Qed.

Lemma first_finding_none k (l : list index) :
  Forall (fun idx => dict_lookup k idx = None) l -> first_finding k l = None.
Proof. induction 1 as [|idx l H _ IH]; [reflexivity|]. cbn. now rewrite H. Qed.

(** *** Its effects: it prints and reads *)

Lemma get_existing_eval_results_looks :
  steps only_looks (get_existing_eval_results env repo_id repo_type).
Proof.
  intros w. unfold get_existing_eval_results.
  assert (H : steps (on_world only_looks)
                (scan_main env repo_id repo_type ;;;
                 scan_prs env repo_id repo_type)).
  { unfold scan_main, scan_main_file, record_main, scan_prs, scan_pr,
      scan_pr_file, record_pr. walk_steps. }
  specialize (H (w, [])). unfold on_world in H.
  now destruct ((_ ;;; _) (w, [])) as [s [[]|e]].
Qed.

End IndexBuilder.

(** C2: in the index that [get_existing_eval_results] builds, an identity
    recorded from the main branch keeps its main-branch entry
    ([source = "main"], no pull-request number, the published value)
    whatever the open pull requests hold; an identity that the main branch
    does not record has the entry (value and number) of the first open pull
    request, in the order the Hub lists them, that records it. *)
Theorem published_wins_then_first_proposal
    (env : Env) (repo_id repo_type : string) (w : world) (k : pykey) :
  exists w' idx,
    get_existing_eval_results env repo_id repo_type w = (w', Ok idx) /\
    (forall info,
       dict_lookup k (main_findings env repo_id repo_type w) = Some info ->
       dict_lookup k idx = Some info /\
       source info = "main" /\ pr_num info = None) /\
    (forall earlier pr later info,
       open_prs env repo_id repo_type = earlier ++ pr :: later ->
       dict_lookup k (main_findings env repo_id repo_type w) = None ->
       Forall (fun p => dict_lookup k (pr_findings env repo_id repo_type p w) = None)
         earlier ->
       dict_lookup k (pr_findings env repo_id repo_type pr w) = Some info ->
       dict_lookup k idx = Some info /\
       source info = "pr" /\ pr_num info = Some (num pr)).
Proof.
  destruct (built_index_lookup env repo_id repo_type w k) as (w' & idx & Hrun & Hk).
  exists w', idx. split; [exact Hrun|]. split.
  - intros info Hmain. rewrite Hmain in Hk. split; [exact Hk|].
    eapply main_findings_tagged, Hmain.
  - intros earlier pr later info Hprs Hmain Hearlier Hpr.
    rewrite Hmain, Hprs, map_app, first_finding_app in Hk.
    rewrite first_finding_none in Hk.
    2:{ apply Forall_map. exact Hearlier. }
    cbn in Hk. rewrite Hpr in Hk. split; [exact Hk|].
    eapply pr_findings_tagged, Hpr.
Qed.

(** On the demonstration repository: [cais/hle] is on the main branch and
    in pull request 7, and the index has the main-branch entry;
    [Idavidrein/gpqa] is in pull requests 7 and 9 only, and the index has
    the entry of pull request 7. *)
Lemma published_wins_then_first_proposal_witness :
  (exists w' idx,
     get_existing_eval_results Demo.hub "acme/model-x" "model" Demo.w0 =
       (w', Ok idx) /\
     dict_lookup (KStr "cais/hle") idx = Some Demo.hle_main) /\
  (exists w' idx,
     get_existing_eval_results Demo.hub "acme/model-x" "model" Demo.w0 =
       (w', Ok idx) /\
     dict_lookup (KStr "Idavidrein/gpqa") idx = Some Demo.gpqa_pr7).
Proof.
  split.
  - destruct (published_wins_then_first_proposal Demo.hub "acme/model-x" "model"
                Demo.w0 (KStr "cais/hle")) as (w' & idx & Hrun & Hmain & _).
    exists w', idx. split; [exact Hrun|].
    apply (Hmain Demo.hle_main). vm_compute. reflexivity.
  - destruct (published_wins_then_first_proposal Demo.hub "acme/model-x" "model"
                Demo.w0 (KStr "Idavidrein/gpqa")) as (w' & idx & Hrun & _ & Hpr).
    exists w', idx. split; [exact Hrun|].
    apply (Hpr [] Demo.pr7 [Demo.pr9; Demo.pr10] Demo.gpqa_pr7).
    + vm_compute. reflexivity.
    + vm_compute. reflexivity.
    + constructor.
    + vm_compute. reflexivity.
Defined.

(** *** A record that cannot be processed *)

(** One record acts on the index only, and a record that raises leaves
    the index as it was. *)
Lemma record_main_local eval_file result idx :
  exists idx' o,
    (forall w, record_main eval_file result (w, idx) = ((w, idx'), o)) /\
    (forall e, o = Raise e -> idx' = idx).
Proof.
  unfold record_main, bind, lift_outcome, modify_local, ret.
  destruct (py_get result "dataset" (PDict [])) as [dataset|e];
    [|eexists _, _; split; [intros w; cbn [fst snd]; reflexivity|reflexivity]].
  destruct (py_get dataset "id" PNone) as [dataset_id|e];
    [|eexists _, _; split; [intros w; cbn [fst snd]; reflexivity|reflexivity]].
  destruct (truthy dataset_id);
    [|eexists _, _; split; [intros w; cbn [fst snd]; reflexivity|discriminate]].
  destruct (py_get result "value" PNone) as [v|e];
    [|eexists _, _; split; [intros w; cbn [fst snd]; reflexivity|reflexivity]].
  destruct (hash_key dataset_id) as [k|e];
    eexists _, _; (split; [intros w; cbn [fst snd]; reflexivity|]); (reflexivity || discriminate).
Qed.

Lemma record_pr_local pr eval_file result idx :
  exists idx' o,
    (forall w, record_pr pr eval_file result (w, idx) = ((w, idx'), o)) /\
    (forall e, o = Raise e -> idx' = idx).
Proof.
  unfold record_pr, bind, lift_outcome, modify_local, get_local, ret.
  destruct (py_get result "dataset" (PDict [])) as [dataset|e];
    [|eexists _, _; split; [intros w; cbn [fst snd]; reflexivity|reflexivity]].
  destruct (py_get dataset "id" PNone) as [dataset_id|e];
    [|eexists _, _; split; [intros w; cbn [fst snd]; reflexivity|reflexivity]].
  destruct (truthy dataset_id); cbn [fst snd].
  2:{ eexists _, _. split; [intros w; cbn [fst snd]; reflexivity|discriminate]. }
  destruct (hash_key dataset_id) as [k|e]; cbn [fst snd].
  2:{ eexists _, _. split; [intros w; cbn [fst snd]; reflexivity|reflexivity]. }
  destruct (negb (dict_mem k idx)).
  2:{ eexists _, _. split; [intros w; cbn [fst snd]; reflexivity|discriminate]. }
  destruct (py_get result "value" PNone) as [v|e];
    eexists _, _; (split; [intros w; cbn [fst snd]; reflexivity|]); (reflexivity || discriminate).
Qed.

(** The records of a file up to one that raises: the loop stops there
    with the index that the records before it left. *)
Lemma record_loop_stops {A} (body : A -> M (world * index) unit)
    pre bad post s w e :
  (forall x idx, exists idx' o,
     (forall w, body x (w, idx) = ((w, idx'), o)) /\
     (forall e, o = Raise e -> idx' = idx)) ->
  (for_each body pre s).2 = Ok tt ->
  (body bad (for_each body pre s).1).2 = Raise e ->
  for_each body (pre ++ bad :: post) (w, s.2) =
    ((w, (for_each body pre s).1.2), Raise e).
Proof.
  intros Hlocal. revert s. induction pre as [|x pre IH]; intros [w0 idx] Hpre Hbad.
  - cbn [app for_each fst snd] in *. unfold bind.
    destruct (Hlocal bad idx) as (idx' & o & Hrun & Hsame).
    unfold ret in Hbad. cbn [fst snd] in Hbad.
    rewrite Hrun in Hbad |- *. cbn [snd] in Hbad. subst o.
    now rewrite (Hsame e eq_refl).
  - cbn [app for_each] in *. unfold bind in *. cbn [snd].
    destruct (Hlocal x idx) as (idx1 & o1 & Hrun & _).
    rewrite Hrun in Hpre, Hbad |- *. rewrite Hrun.
    destruct o1 as [[]|e1]; [|discriminate].
    exact (IH (w0, idx1) Hpre Hbad).
Qed.

(** The scan of a file that was downloaded and parsed into a non-empty
    list. *)
Lemma scan_main_file_parsed env repo_id repo_type f s path items :
  hub_download env repo_id f repo_type None = Ok path ->
  fs_read_yaml env path = Ok (PList items) ->
  items <> [] ->
  scan_main_file env repo_id repo_type f s =
    match for_each (record_main f) items
            (log (OpenRead path)
               (log (HfHubDownload repo_id f repo_type None) s.1), s.2) with
    | (s', Ok a) => (s', Ok a)
    | (s', Raise e) => ((log (could_not_read f e) s'.1, s'.2), Ok tt)
    end.
Proof.
  intros Hdl Hread Hne. destruct s as [w idx].
  unfold scan_main_file, try_except, bind, lift_w, hf_hub_download, read_yaml,
    lift_outcome, print, could_not_read.
  cbn [fst snd]. rewrite Hdl. cbn [fst snd]. rewrite Hread.
  destruct items as [|x items]; [congruence|]. cbn [is_list truthy andb py_iter].
  reflexivity.
Qed.

Lemma scan_pr_file_parsed env repo_id repo_type pr f s path items :
  hub_download env repo_id f repo_type (Some (pr_revision pr)) = Ok path ->
  fs_read_yaml env path = Ok (PList items) ->
  items <> [] ->
  scan_pr_file env repo_id repo_type pr f s =
    match for_each (record_pr pr f) items
            (log (OpenRead path)
               (log (HfHubDownload repo_id f repo_type (Some (pr_revision pr)))
                  s.1), s.2) with
    | (s', Ok a) => (s', Ok a)
    | (s', Raise e) =>
        ((log (Print ("Warning: Could not read " +:+ f +:+ " from PR #" +:+
                      pretty (num pr) +:+ ": " +:+ exn_str e)) s'.1, s'.2),
         Ok tt)
    end.
Proof.
  intros Hdl Hread Hne. destruct s as [w idx].
  unfold scan_pr_file, try_except, bind, lift_w, hf_hub_download, read_yaml,
    lift_outcome, print.
  cbn [fst snd]. rewrite Hdl. cbn [fst snd]. rewrite Hread.
  destruct items as [|x items]; [congruence|]. cbn [is_list truthy andb py_iter].
  reflexivity.
Qed.

(** C4, as amended: [get_existing_eval_results] returns an index in
    every state of the repository.  A failure to list or to fetch leaves
    no finding from its source: when the files of the main branch cannot be listed, the scan
    of the main branch records nothing; when the discussions cannot be
    listed, the scan of the pull requests records nothing; when the files
    of a pull request cannot be listed, that pull request records
    nothing; when a file of the main branch or of a pull request cannot
    be downloaded or parsed, that file records nothing.  A record that
    cannot be processed, in a file that was parsed, ends the scan of that
    file: the entries of the records before it stay in the index, and the
    records after it are not looked at.  Each time the scan goes on
    normally. *)
Theorem get_existing_eval_results_never_raises
    (env : Env) (repo_id repo_type : string) (w : world) :
  (exists w' idx,
     get_existing_eval_results env repo_id repo_type w = (w', Ok idx)) /\
  (forall e s,
     hub_list_repo_files env repo_id repo_type None = Raise e ->
     (scan_main env repo_id repo_type s).2 = Ok tt /\
     (scan_main env repo_id repo_type s).1.2 = s.2) /\
  (forall e s,
     hub_discussions env repo_id repo_type = Raise e ->
     (scan_prs env repo_id repo_type s).2 = Ok tt /\
     (scan_prs env repo_id repo_type s).1.2 = s.2) /\
  (forall pr e s,
     hub_list_repo_files env repo_id repo_type (Some (pr_revision pr)) = Raise e ->
     (scan_pr env repo_id repo_type pr s).2 = Ok tt /\
     (scan_pr env repo_id repo_type pr s).1.2 = s.2) /\
  (forall f s,
     unreadable env (hub_download env repo_id f repo_type None) ->
     (scan_main_file env repo_id repo_type f s).2 = Ok tt /\
     (scan_main_file env repo_id repo_type f s).1.2 = s.2) /\
  (forall pr f s,
     unreadable env (hub_download env repo_id f repo_type (Some (pr_revision pr))) ->
     (scan_pr_file env repo_id repo_type pr f s).2 = Ok tt /\
     (scan_pr_file env repo_id repo_type pr f s).1.2 = s.2) /\
  (forall f s path pre bad post e,
     hub_download env repo_id f repo_type None = Ok path ->
     fs_read_yaml env path = Ok (PList (pre ++ bad :: post)) ->
     let before := for_each (record_main f) pre s in
     before.2 = Ok tt ->
     (record_main f bad before.1).2 = Raise e ->
     let r := scan_main_file env repo_id repo_type f s in
     r.2 = Ok tt /\ r.1.2 = before.1.2 /\
     last (trace r.1.1) = Some (could_not_read f e)) /\
  (forall pr f s path pre bad post e,
     hub_download env repo_id f repo_type (Some (pr_revision pr)) = Ok path ->
     fs_read_yaml env path = Ok (PList (pre ++ bad :: post)) ->
     let before := for_each (record_pr pr f) pre s in
     before.2 = Ok tt ->
     (record_pr pr f bad before.1).2 = Raise e ->
     let r := scan_pr_file env repo_id repo_type pr f s in
     r.2 = Ok tt /\ r.1.2 = before.1.2).
Proof.
  split; [|split; [|split; [|split; [|split; [|split; [|split]]]]]].
  - destruct (get_existing_eval_results_run env repo_id repo_type w) as [w' H].
    eauto.
  - intros e [w0 idx] H.
    unfold scan_main, try_except, bind, lift_w, list_repo_files. cbn.
    rewrite H. now split.
  - intros e [w0 idx] H.
    unfold scan_prs, try_except, bind, lift_w, get_repo_discussions. cbn.
    rewrite H. now split.
  - intros pr e [w0 idx] H.
    unfold scan_pr, try_except, bind, lift_w, list_repo_files. cbn.
    rewrite H. now split.
  - intros f [w0 idx] H.
    unfold scan_main_file, try_except, bind, lift_w, hf_hub_download, read_yaml.
    cbn. destruct (hub_download env repo_id f repo_type None) as [p|e]; cbn.
    + destruct H as [e He]. rewrite He. now split.
    + now split.
  - intros pr f [w0 idx] H.
    unfold scan_pr_file, try_except, bind, lift_w, hf_hub_download, read_yaml.
    cbn. destruct (hub_download env repo_id f repo_type _) as [p|e]; cbn.
    + destruct H as [e He]. rewrite He. now split.
    + now split.
  - intros f s path pre bad post e Hdl Hread before Hpre Hbad r. subst r.
    rewrite (scan_main_file_parsed _ _ _ _ _ _ _ Hdl Hread)
      by now destruct pre.
    rewrite (record_loop_stops _ pre bad post s _ e
               (record_main_local f) Hpre Hbad).
    cbn. split; [reflexivity|]. split; [reflexivity|].
    now rewrite last_snoc.
  - intros pr f s path pre bad post e Hdl Hread before Hpre Hbad r. subst r.
    rewrite (scan_pr_file_parsed _ _ _ _ _ _ _ _ Hdl Hread)
      by now destruct pre.
    rewrite (record_loop_stops _ pre bad post s _ e
               (record_pr_local pr f) Hpre Hbad).
    cbn. now split.
Qed.

(** On the demonstration repository: the files of pull request 10 cannot
    be listed and [.eval_results/bad.yaml] cannot be parsed; neither
    changes the index, and the builder returns.  In [mixed.yaml] the
    second record is a string: the entry of the first record is in the
    index, the third record is not. *)
Lemma get_existing_eval_results_never_raises_witness :
  (exists w' idx,
     get_existing_eval_results Demo.hub "acme/model-x" "model" Demo.w0 =
       (w', Ok idx)) /\
  (scan_pr Demo.hub "acme/model-x" "model" Demo.pr10
     (Demo.w0, [(PStr "cais/hle", Demo.hle_main)])).1.2 =
    [(PStr "cais/hle", Demo.hle_main)] /\
  (scan_main_file Demo.hub "acme/model-x" "model" ".eval_results/bad.yaml"
     (Demo.w0, [(PStr "cais/hle", Demo.hle_main)])).1.2 =
    [(PStr "cais/hle", Demo.hle_main)] /\
  (scan_main_file Demo.hub "acme/model-x" "model" ".eval_results/mixed.yaml"
     (Demo.w0, [])).1.2 =
    [(PStr "cais/hle",
      {| source := "main"; pr_num := None; value := PInt 40;
         file_path := ".eval_results/mixed.yaml" |})].
Proof.
  destruct (get_existing_eval_results_never_raises Demo.hub "acme/model-x"
              "model" Demo.w0) as (Hrun & _ & _ & Hpr & Hfile & _ & Hrecord & _).
  split; [exact Hrun|]. split; [|split].
  - apply (Hpr Demo.pr10 (Exception "revision not found")). reflexivity.
  - apply Hfile. cbn. exists (Exception "could not parse"). reflexivity.
  - refine (proj1 (proj2 (Hrecord ".eval_results/mixed.yaml" (Demo.w0, [])
                            "main/.eval_results/mixed.yaml"
                            [Demo.record "cais/hle" 40] (PStr "junk")
                            [Demo.record "openai/gsm8k" 1]
                            (AttributeError "'str' object has no attribute 'get'")
                            _ _ _ _)));
      reflexivity.
Defined.

(** C4, the claim refuted: in [mixed.yaml] the handler of the file
    catches the failure of the second record, and the entry of the first
    record stays in the index; the third record is not looked at. *)
Lemma malformed_file_keeps_earlier_records :
  let r := scan_main_file Demo.hub "acme/model-x" "model"
             ".eval_results/mixed.yaml" (Demo.w0, []) in
  r.2 = Ok tt /\
  last (trace r.1.1) =
    Some (could_not_read ".eval_results/mixed.yaml"
            (AttributeError "'str' object has no attribute 'get'")) /\
  dict_lookup (KStr "cais/hle") r.1.2 =
    Some {| source := "main"; pr_num := None; value := PInt 40;
            file_path := ".eval_results/mixed.yaml" |} /\
  dict_lookup (KStr "openai/gsm8k") r.1.2 = None /\
  ~ caught_file_contributes_nothing.
Proof.
  split; [reflexivity|]. split; [reflexivity|]. split; [reflexivity|].
  split; [reflexivity|]. intros H.
  specialize (H Demo.hub "acme/model-x" "model" ".eval_results/mixed.yaml"
                (Demo.w0, [])
                (AttributeError "'str' object has no attribute 'get'") eq_refl).
  discriminate.
Qed.

(** ** The dedup filter *)

Lemma not_in_existing_record {S} existing r (s : S) :
  is_record r = true ->
  not_in_existing existing r s =
    (s, Ok (negb (is_key_of (dataset_id r) existing))).
Proof.
  unfold is_record, dataset_id, not_in_existing, is_key_of, bind, lift_outcome, ret.
  destruct r as [| | | | | |d]; try discriminate. cbn [py_get].
  destruct (default (PDict []) (assoc "dataset" d)) as [| | | | | |ds];
    try discriminate. cbn [py_get].
  destruct (default PNone (assoc "id" ds)); try discriminate; reflexivity.
Qed.

Lemma reconcile_filter {S} candidates existing (s : S) :
  Forall (fun r => is_record r = true) candidates ->
  reconcile candidates existing s =
    (s, Ok (filter (fun r => is_key_of (dataset_id r) existing = false)
              candidates)).
Proof.
  unfold reconcile. induction 1 as [|r l Hr _ IH]; [reflexivity|].
  cbn [filter_m]. unfold bind at 1. rewrite (not_in_existing_record _ _ _ Hr).
  unfold bind at 1. rewrite IH. unfold ret.
  destruct (is_key_of (dataset_id r) existing) eqn:Hk; cbn [negb].
  - now rewrite filter_cons_False by congruence.
  - now rewrite filter_cons_True by assumption.
Qed.

(** C1: on candidate records, the comprehension of
    [create_eval_results_pr] returns, without any effect, exactly the
    candidates whose [dataset.id] is not a key of the index, in their
    order: nothing it returns has its [dataset.id] among the keys, and
    every candidate whose [dataset.id] is not among the keys is returned.
    Only [dataset.id] is looked at. *)
Theorem reconcile_exact {S : Type}
    (candidates : list pyval) (existing : index) (s : S) :
  Forall (fun r => is_record r = true) candidates ->
  exists kept,
    reconcile candidates existing s = (s, Ok kept) /\
    kept = filter (fun r => is_key_of (dataset_id r) existing = false) candidates /\
    kept `sublist_of` candidates /\
    (forall r, r ∈ kept -> is_key_of (dataset_id r) existing = false) /\
    (forall r, r ∈ candidates -> is_key_of (dataset_id r) existing = false ->
               r ∈ kept).
Proof.
  intros Hc. eexists. split; [apply reconcile_filter, Hc|].
  split; [reflexivity|]. split; [apply sublist_filter|]. split.
  - intros r Hr. now apply list_elem_of_filter in Hr as [Hk _].
  - intros r Hr Hk. apply list_elem_of_filter. now split.
Qed.

(** Three candidates against an index that knows [cais/hle]: the two
    others are kept, in their order; [task_id] is not looked at. *)
Lemma reconcile_exact_witness :
  let hle := PDict [("dataset", PDict [("id", PStr "cais/hle");
                                       ("task_id", PStr "other")]);
                    ("value", PInt 42)] in
  let candidates := [Demo.record "openai/gsm8k" 3; hle;
                     Demo.record "Idavidrein/gpqa" 5] in
  let existing := [(PStr "cais/hle", Demo.hle_main)] in
  Forall (fun r => is_record r = true) candidates /\
  reconcile candidates existing tt =
    (tt, Ok [Demo.record "openai/gsm8k" 3; Demo.record "Idavidrein/gpqa" 5]).
Proof.
  intros hle candidates existing.
  assert (Hc : Forall (fun r => is_record r = true) candidates).
  { repeat constructor. }
  split; [exact Hc|].
  destruct (reconcile_exact candidates existing tt Hc) as (kept & Hrun & Hkept & _).
  rewrite Hrun, Hkept. reflexivity.
Defined.

(** ** The artifact's name *)

(** *** Strings and paths *)

Lemma contains_app c a b :
  Str.contains c (a +:+ b) = Str.contains c a || Str.contains c b.
Proof.
  induction a as [|x a IH]; [reflexivity|].
  change (String x a +:+ b) with (String x (a +:+ b)). cbn [Str.contains].
  now rewrite IH, orb_assoc.
Qed.

Lemma after_last_join sep p name :
  Str.contains sep name = false ->
  after_last sep (p +:+ String sep name) = name.
Proof.
  intros Hn. induction p as [|c p IH].
  - change (after_last sep (String sep name) = name). cbn [after_last].
    rewrite Hn. now rewrite Ascii.eqb_refl.
  - change (String c p +:+ String sep name)
      with (String c (p +:+ String sep name)).
    cbn [after_last]. rewrite contains_app. cbn [Str.contains].
    rewrite Ascii.eqb_refl. cbn [orb]. rewrite orb_true_r. exact IH.
Qed.

Lemma split_no_sep s : Str.contains "/" s = false -> Str.split "/" s = [s].
Proof.
  induction s as [|c s IH]; [reflexivity|].
  cbn [Str.contains Str.split]. intros H.
  apply orb_false_elim in H as [Hc Hs]. now rewrite Hc, (IH Hs).
Qed.

Lemma startswith_no_sep s :
  Str.contains "/" s = false -> Str.startswith "/" s = false.
Proof.
  destruct s as [|c s]; [reflexivity|]. cbn [Str.contains]. intros H.
  apply orb_false_elim in H as [Hc _]. unfold Str.startswith.
  cbn [String.prefix].
  destruct (ascii_dec "/" c) as [<-|_]; [discriminate|reflexivity].
Qed.

(** A right operand that is one component. *)
Lemma path_join_component a c :
  Str.contains "/" c = false -> is_blank c = false ->
  path_join a c = join1 a c.
Proof.
  intros Hc Hb. unfold path_join.
  now rewrite (startswith_no_sep _ Hc), (split_no_sep _ Hc); cbn; rewrite Hb.
Qed.

(** A blank right operand. *)
Lemma path_join_blank a c : is_blank c = true -> path_join a c = a.
Proof.
  unfold is_blank. intros H. apply orb_prop in H as [H|H];
    apply String.eqb_eq in H; now subst c.
Qed.

Lemma yaml_not_blank name : is_blank (name +:+ ".yaml") = false.
Proof.
  unfold is_blank. destruct name as [|c name]; [reflexivity|].
  change (String c name +:+ ".yaml") with (String c (name +:+ ".yaml")).
  cbn [String.eqb orb]. destruct name; cbn [String.append String.eqb];
    apply andb_false_r.
Qed.

Lemma yaml_no_sep name :
  Str.contains "/" name = false -> Str.contains "/" (name +:+ ".yaml") = false.
Proof. intros H. now rewrite contains_app, H. Qed.

Lemma path_join_yaml dir name :
  Str.contains "/" name = false ->
  path_join dir (name +:+ ".yaml") = join1 dir (name +:+ ".yaml").
Proof.
  intros H. apply path_join_component; [now apply yaml_no_sep|apply yaml_not_blank].
Qed.

Lemma endswith_sep a :
  Str.endswith "/" a = true -> exists d, a = d +:+ "/".
Proof.
  unfold Str.endswith, String.rev. cbn [String.rev_app].
  assert (Hhead : forall c acc, String.prefix "/" (String c acc) = true ->
                                c = "/"%char).
  { intros c acc. cbn [String.prefix].
    destruct (ascii_dec "/" c) as [<-|_]; [reflexivity|discriminate]. }
  assert (Hrev : forall s acc,
            String.prefix "/" (String.rev_app s acc) = true ->
            (s = "" /\ String.prefix "/" acc = true) \/
            exists d, s = d +:+ "/").
  { induction s as [|c s IH]; intros acc H; [now left|]. right.
    cbn [String.rev_app] in H. destruct (IH _ H) as [[-> Hc]|[d ->]].
    - apply Hhead in Hc as ->. now exists "".
    - now exists (String c d). }
  intros H. destruct (Hrev _ _ H) as [[_ Hacc]|Hd]; [discriminate|exact Hd].
Qed.

Lemma append_assoc a b c : (a +:+ b) +:+ c = a +:+ (b +:+ c).
Proof.
  induction a as [|x a IH]; [reflexivity|].
  change ((String x a +:+ b) +:+ c) with (String x ((a +:+ b) +:+ c)).
  now rewrite IH.
Qed.

Lemma not_dot_with_sep p : Str.contains "/" p = true -> String.eqb p "." = false.
Proof.
  intros H. apply String.eqb_neq. intros ->. discriminate.
Qed.

Lemma path_name_join1 dir name :
  Str.contains "/" name = false -> is_blank name = false ->
  path_name (join1 dir name) = name.
Proof.
  intros Hn Hb. unfold path_name, join1.
  assert (Hname : after_last "/" name = name).
  { clear Hb. induction name as [|c name IH]; [reflexivity|].
    cbn [Str.contains] in Hn. apply orb_false_elim in Hn as [Hc Hn].
    cbn [after_last]. now rewrite Hn, Hc. }
  destruct (String.eqb dir ".").
  - unfold is_blank in Hb. apply orb_false_elim in Hb as [_ ->].
    now rewrite last_segment_split.
  - destruct (Str.endswith "/" dir) eqn:He.
    + destruct (endswith_sep _ He) as [d ->].
      rewrite append_assoc. change ("/" +:+ name) with (String "/" name).
      rewrite not_dot_with_sep
        by (rewrite contains_app; cbn; now rewrite orb_true_r).
      rewrite last_segment_split. now apply after_last_join.
    + change ("/" +:+ name) with (String "/" name).
      rewrite not_dot_with_sep
        by (rewrite contains_app; cbn; now rewrite orb_true_r).
      rewrite last_segment_split. now apply after_last_join.
Qed.


Lemma is_ascii_after_last sep s :
  Str.is_ascii s = true -> Str.is_ascii (after_last sep s) = true.
Proof.
  induction s as [|c s IH]; [reflexivity|].
  cbn [Str.is_ascii after_last]. intros H. pose proof H as Hall.
  apply andb_prop in H as [_ Hs].
  destruct (Str.contains sep s); [now apply IH|].
  destruct (Ascii.eqb c sep); [exact Hs|exact Hall].
Qed.

Lemma stem_of_ascii env id :
  Str.is_ascii id = true -> stem_of env id = Str.lower (after_last "/" id).
Proof. intros H. apply py_lower_ascii, is_ascii_after_last, H. Qed.

Lemma stem_no_sep env id : Str.contains "/" (stem_of env id) = false.
Proof. unfold stem_of. apply py_lower_sep, after_last_no_sep. Qed.

(** C3: for a record whose [dataset.id] is a non-empty string, the stem
    that both writers compute is the substring of [dataset.id] after its
    last ['/'] (the whole of it when there is none), in lower case: what
    [str.lower] of the interpreter makes of it, which on an ASCII id is
    the id with its letters [A-Z] replaced by [a-z].  The stem holds no
    separator, so [<stem>.yaml] names a file directly in a directory; the
    local writer and the staging writer both write that one file in
    their directory, and the staged file is added under
    [.eval_results/<stem>.yaml]. *)
Theorem artifact_stem (env : Env) (result : pyval) (id : string) :
  dataset_id result = PStr id ->
  id <> EmptyString ->
  let filename := stem_of env id +:+ ".yaml" in
  py_lower env (Str.last_segment (Str.split "/" id)) = stem_of env id /\
  stem_of env id = py_lower env (after_last "/" id) /\
  (Str.is_ascii id = true -> stem_of env id = Str.lower (after_last "/" id)) /\
  (Str.contains "/" (after_last "/" id) = false /\
   (id = after_last "/" id \/
    exists p, id = p +:+ String "/" (after_last "/" id))) /\
  (Str.contains "/" (stem_of env id) = false /\
   forall dir,
     path_join dir filename = join1 dir filename /\
     path_name (path_join dir filename) = filename) /\
  (forall output_folder w written_files,
     let r := write_result env output_folder result (w, written_files) in
     trace r.1.1 =
       trace w ++ [OpenWrite (path_join output_folder filename)
                     (yaml_dump env [result])] /\
     (r.2 = Ok tt ->
      r.1.2 = written_files ++ [path_join output_folder filename])) /\
  (forall temp_dir w l,
     let r := stage_result env temp_dir result (w, l) in
     trace r.1.1 =
       trace w ++ [OpenWrite (path_join temp_dir filename)
                     (yaml_dump env [result])] /\
     (r.2 = Ok tt ->
      temp_files r.1.2 = temp_files l ++ [path_join temp_dir filename] /\
      operations r.1.2 =
        operations l ++
        [{| path_in_repo := ".eval_results/" +:+ filename;
            path_or_fileobj := path_join temp_dir filename |}])).
Proof.
  intros Hid Hne filename.
  destruct (dataset_id_get _ _ Hid) as (dataset & Hd & Hi).
  split; [unfold stem_of; now rewrite last_segment_split|].
  split; [reflexivity|].
  split; [apply stem_of_ascii|].
  split; [split; [apply after_last_no_sep | apply after_last_suffix]|].
  split.
  { split; [apply stem_no_sep|]. intros dir. subst filename.
    rewrite (path_join_yaml _ _ (stem_no_sep env id)).
    split; [reflexivity|].
    apply path_name_join1; [apply yaml_no_sep, stem_no_sep|apply yaml_not_blank]. }
  split.
  - intros output_folder w written_files.
    unfold write_result, bind, lift_outcome, lift_w, write_text, modify_local.
    rewrite Hd, Hi, (truthy_str _ Hne). cbn [negb as_str fst snd].
    rewrite last_segment_split. fold (stem_of env id). fold filename.
    destruct (fs_write_fault env (trace w) _ _);
      [destruct (fs_write_residue env (trace w) _ _)|]; cbn; split;
      (reflexivity || discriminate).
  - intros temp_dir w l.
    unfold stage_result, bind, lift_outcome, lift_w, write_text, modify_local.
    rewrite Hd, Hi, (truthy_str _ Hne). cbn [negb as_str fst snd].
    rewrite last_segment_split. fold (stem_of env id). fold filename.
    destruct (fs_write_fault env (trace w) _ _);
      [destruct (fs_write_residue env (trace w) _ _)|]; cbn; split;
      try reflexivity; try discriminate. intros _. now split.
Qed.

(** ['Idavidrein/gpqa'] gives the stem [gpqa], in whatever case it is
    written, and ['openai/gsm8k'] gives [gsm8k]; both writers write
    [gpqa.yaml].  Under an interpreter that lowers the letters of the
    Latin-1 supplement, the id [org/ÉCOLE-Bench] gives the stem
    [école-bench], and the local writer writes [école-bench.yaml]. *)
Lemma artifact_stem_witness :
  let result := Demo.record "Idavidrein/GPQA" 42 in
  let accented := Demo.record Script.ECOLE 7 in
  (dataset_id result = PStr "Idavidrein/GPQA" /\
   "Idavidrein/GPQA" <> EmptyString) /\
  (dataset_id accented = PStr Script.ECOLE /\ Script.ECOLE <> EmptyString) /\
  (stem_of Demo.hub "Idavidrein/gpqa" = "gpqa" /\
   stem_of Demo.hub "Idavidrein/GPQA" = "gpqa" /\
   stem_of Demo.hub "openai/gsm8k" = "gsm8k") /\
  py_lower Demo.hub (Str.last_segment (Str.split "/" "Idavidrein/GPQA")) =
    "gpqa" /\
  trace (write_result Demo.hub "/app/outputs/acme__model-x" result
           (Demo.w0, [])).1.1 =
    [OpenWrite "/app/outputs/acme__model-x/gpqa.yaml" "<yaml>"] /\
  trace (stage_result Demo.hub "/app/outputs/temp_acme_model-x" result
           (Demo.w0, no_locals)).1.1 =
    [OpenWrite "/app/outputs/temp_acme_model-x/gpqa.yaml" "<yaml>"] /\
  stem_of Script.latin1 Script.ECOLE = Script.e_acute +:+ "cole-bench" /\
  trace (write_result Script.latin1 "/app/outputs/acme__model-x" accented
           (Demo.w0, [])).1.1 =
    [OpenWrite ("/app/outputs/acme__model-x/" +:+ Script.e_acute +:+
                "cole-bench.yaml") "<yaml>"].
Proof.
  intros result accented.
  assert (Hid : dataset_id result = PStr "Idavidrein/GPQA") by reflexivity.
  assert (Hne : "Idavidrein/GPQA" <> EmptyString) by discriminate.
  assert (Hid' : dataset_id accented = PStr Script.ECOLE) by reflexivity.
  assert (Hne' : Script.ECOLE <> EmptyString) by discriminate.
  split; [now split|]. split; [now split|]. split; [now repeat split|].
  destruct (artifact_stem Demo.hub result "Idavidrein/GPQA" Hid Hne)
    as (Hstem & _ & _ & _ & _ & Hlocal & Hstage).
  destruct (artifact_stem Script.latin1 accented Script.ECOLE Hid' Hne')
    as (_ & Hstem' & _ & _ & _ & Hlocal' & _).
  split; [exact Hstem|]. split; [|split; [|split]].
  - exact (proj1 (Hlocal "/app/outputs/acme__model-x" Demo.w0 [])).
  - exact (proj1 (Hstage "/app/outputs/temp_acme_model-x" Demo.w0 no_locals)).
  - rewrite Hstem'. reflexivity.
  - exact (proj1 (Hlocal' "/app/outputs/acme__model-x" Demo.w0 [])).
Defined.

(** ** Cleanup of the staging area *)

Lemma remove_quietly_run env temp_path w l :
  exists w',
    remove_quietly env temp_path (w, l) = ((w', l), Ok tt) /\
    trace w' = trace w ++ [Remove temp_path].
Proof.
  unfold remove_quietly, try_except_when, lift_w, os_remove. cbn [fst snd].
  destruct (fs_remove_fault env (trace w) temp_path) as [msg|].
  - cbn. eexists. split; reflexivity.
  - destruct (files w !! temp_path); cbn; eexists; split; reflexivity.
Qed.

Lemma remove_loop_run env paths w l :
  exists w',
    for_each (remove_quietly env) paths (w, l) = ((w', l), Ok tt) /\
    trace w' = trace w ++ map Remove paths.
Proof.
  revert w. induction paths as [|p paths IH]; intros w.
  - exists w. split; [reflexivity|]. cbn. now rewrite app_nil_r.
  - destruct (remove_quietly_run env p w l) as (w1 & Hrun & Htr).
    destruct (IH w1) as (w2 & Hloop & Htr2).
    exists w2. split.
    + cbn [for_each]. now rewrite (bind_ok _ _ _ _ _ Hrun).
    + rewrite Htr2, Htr. cbn. now rewrite <- app_assoc.
Qed.

(** The [finally] clause cannot raise, leaves the local variables as they
    are, and attempts every removal. *)
Lemma cleanup_run env temp_dir w l :
  exists w',
    cleanup env temp_dir (w, l) = ((w', l), Ok tt) /\
    trace w' = trace w ++ map Remove (temp_files l) ++ [Rmdir temp_dir].
Proof.
  destruct (remove_loop_run env (temp_files l) w l) as (w1 & Hloop & Htr).
  unfold cleanup. unfold bind at 1. cbn [get_local snd fst].
  rewrite (bind_ok _ _ _ _ _ Hloop).
  unfold try_except_when, lift_w, os_rmdir. cbn [fst snd].
  destruct (fs_rmdir_fault env (trace w1) temp_dir); cbn;
    eexists; (split; [reflexivity|]); cbn; now rewrite Htr, <- app_assoc.
Qed.

(** *** What the staging loop records *)

Lemma writes_staged_log env before ev w l :
  is_file_write ev = false ->
  writes_staged env before (w, l) -> writes_staged env before (log ev w, l).
Proof.
  intros Hev H pre p c post Htr Hlen Hf. cbn in Htr.
  apply snoc_split in Htr as [(_ & _ & Heq)|(post' & _ & Htr)].
  - subst ev. discriminate.
  - eapply H; eassumption.
Qed.

Lemma writes_staged_print env before line :
  steps (keeps (writes_staged env before)) (lift_w (print line)).
Proof. intros [w l] H. now apply writes_staged_log. Qed.

Lemma writes_staged_commit env before repo_id ops msg descr pr repo_type :
  steps (keeps (writes_staged env before))
    (lift_w (create_commit env repo_id ops msg descr pr repo_type)).
Proof. intros [w l] H. now apply writes_staged_log. Qed.

Lemma writes_staged_stage env before temp_dir result :
  steps (keeps (writes_staged env before)) (stage_result env temp_dir result).
Proof.
  intros [w l] H.
  unfold stage_result, bind, lift_outcome, lift_w, write_text, modify_local.
  destruct (py_get result "dataset" (PDict [])) as [dataset|e]; [|exact H].
  destruct (py_get dataset "id" (PStr "")) as [dataset_id|e]; [|exact H].
  destruct (truthy dataset_id); cbn [negb fst snd].
  2:{ now apply writes_staged_log. }
  destruct (as_str dataset_id "split") as [id|e]; [|exact H].
  cbn [fst snd].
  destruct (fs_write_fault env (trace w) _ _) as [e|] eqn:Hfault; cbn [fst snd].
  - destruct (fs_write_residue env (trace w) _ _); cbn [fst snd];
      intros pre p c post Htr Hlen Hf; cbn in Htr;
      apply snoc_split in Htr as [(_ & -> & [= -> ->])|(post' & _ & Htr)];
      (congruence || (eapply H; eassumption)).
  - intros pre p c post Htr Hlen Hf. cbn in Htr |- *.
    apply elem_of_app.
    apply snoc_split in Htr as [(_ & -> & [= -> ->])|(post' & _ & Htr)].
    + right. apply list_elem_of_singleton. reflexivity.
    + left. eapply (H pre p c post'); eassumption.
Qed.

Lemma writes_staged_body env before repo_id repo_type temp_dir results :
  steps (keeps (writes_staged env before))
    (submit_body env repo_id repo_type temp_dir results).
Proof.
  unfold submit_body. walk_steps;
    try apply writes_staged_print; try apply writes_staged_commit;
    try apply writes_staged_stage.
  all: intros s H; exact H.
Qed.

(** Once the staging directory exists: the outcome is the body's, every
    staged file and the directory are removed or at least tried, and what
    was written is staged. *)
Lemma stage_and_submit_cleaned_up env repo_id repo_type temp_dir results w :
  cleaned_up env repo_id repo_type temp_dir results w
    (stage_and_submit env repo_id repo_type temp_dir results w).
Proof.
  unfold cleaned_up.
  set (body := submit_body env repo_id repo_type temp_dir results (w, no_locals)).
  assert (Hstaged : writes_staged env (trace w) body.1).
  { apply (writes_staged_body env (trace w) repo_id repo_type temp_dir results
             (w, no_locals)).
    intros pre p c post Htr Hlen _. cbn in Htr. exfalso.
    apply (f_equal length) in Htr. rewrite length_app in Htr. cbn in Htr. lia. }
  unfold stage_and_submit, with_locals, try_finally. fold body.
  destruct body as [[w1 l1] o]. cbn [fst snd] in *.
  destruct (cleanup_run env temp_dir w1 l1) as (w2 & Hrun & Htr).
  rewrite Hrun. cbn [fst snd]. split; [reflexivity|]. split; [exact Htr|].
  exact Hstaged.
Qed.

(** *** What happens before the staging directory is created *)

Lemma skip_existing_results_looks env repo_id repo_type results :
  steps only_looks (skip_existing_results env repo_id repo_type results).
Proof.
  unfold skip_existing_results, print_existing, reconcile, not_in_existing.
  walk_steps. apply get_existing_eval_results_looks.
Qed.

(** The three ways a run of [create_eval_results_pr] can go: it ends
    before the staging directory is created, having only printed and
    read; the creation of the directory raises; or the directory exists
    and the rest of the run is [stage_and_submit]. *)
Lemma create_eval_results_pr_cases
    env repo_id evaluation_results repo_type skip_existing w :
  let temp_dir := staging_dir env repo_id in
  let r := create_eval_results_pr env repo_id evaluation_results repo_type
             skip_existing w in
  exists w1,
    only_looks w w1 /\
    (r.1 = w1 \/
     (exists e, fs_makedirs_fault env (trace w1) temp_dir = Some e /\
                r = (log (Makedirs temp_dir) w1, Raise e)) \/
     (exists results,
        fs_makedirs_fault env (trace w1) temp_dir = None /\
        r = stage_and_submit env repo_id repo_type temp_dir results
              (log (Makedirs temp_dir) w1))).
Proof.
  intros temp_dir r. subst r. unfold create_eval_results_pr.
  fold temp_dir. unfold bind, lift_outcome, os_makedirs.
  destruct (py_get evaluation_results "evaluation_results" (PList []))
    as [results|e].
  2:{ exists w. split; [reflexivity | now left]. }
  destruct (truthy results); cbn [negb].
  2:{ eexists. split; [|left; reflexivity]. cbn. now apply only_looks_log. }
  assert (Hpre : exists w1 o,
            only_looks w w1 /\
            (if skip_existing
             then skip_existing_results env repo_id repo_type results
             else ret (inr results)) w = (w1, o)).
  { destruct skip_existing.
    - pose proof (skip_existing_results_looks env repo_id repo_type results w) as H.
      destruct (skip_existing_results _ _ _ _ w) as [w1 o]. now exists w1, o.
    - exists w, (Ok (inr results)). split; reflexivity. }
  destruct Hpre as (w1 & o & Hlooks & Hrun). exists w1. split; [exact Hlooks|].
  rewrite Hrun.
  destruct o as [[v|results']|e]; [now left| |now left].
  destruct (fs_makedirs_fault env (trace w1) temp_dir) as [e|] eqn:Hf.
  - right. left. exists e. split; reflexivity.
  - right. right. exists results'. split; reflexivity.
Qed.

(** C5: a run of [create_eval_results_pr] either ends before the staging
    directory is created (it has only printed and read), or fails to
    create it, or creates it; in the last case, whatever the body of the
    [try] does (it returns a URL, returns [None] early, or raises), the
    [finally] clause attempts to remove every staged file, in the order
    they were staged, and then the directory; every file whose write
    succeeded is among the staged ones; and the outcome of the routine is
    the outcome of the body, whether the removals fail or not. *)
Theorem cleanup_always_attempted
    (env : Env) (repo_id : string) (evaluation_results : pyval)
    (repo_type : string) (skip_existing : bool) (w : world) :
  let temp_dir := staging_dir env repo_id in
  let r := create_eval_results_pr env repo_id evaluation_results repo_type
             skip_existing w in
  exists w1,
    only_looks w w1 /\
    (r.1 = w1 \/
     (exists e, fs_makedirs_fault env (trace w1) temp_dir = Some e /\
                r = (log (Makedirs temp_dir) w1, Raise e)) \/
     (exists results,
        fs_makedirs_fault env (trace w1) temp_dir = None /\
        cleaned_up env repo_id repo_type temp_dir results
          (log (Makedirs temp_dir) w1) r)).
Proof.
  intros temp_dir r.
  destruct (create_eval_results_pr_cases env repo_id evaluation_results
              repo_type skip_existing w) as (w1 & Hlooks & Hcases).
  fold temp_dir r in Hcases. exists w1. split; [exact Hlooks|].
  destruct Hcases as [H|[H|(results & Hf & Hr)]]; [now left | now right; left|].
  right. right. exists results. split; [exact Hf|]. rewrite Hr.
  apply stage_and_submit_cleaned_up.
Qed.

(** A run on the demonstration repository: [cais/hle] is skipped, the two
    other candidates are staged, the commit is created, and both staged
    files and the directory are removed. *)
Lemma cleanup_always_attempted_witness :
  let candidates :=
    PDict [("evaluation_results",
            PList [Demo.record "cais/hle" 42; Demo.record "openai/gsm8k" 3;
                   Demo.record "TIGER-Lab/MMLU-Pro" 5])] in
  let r := create_eval_results_pr Demo.hub "acme/model-x" candidates "model"
             true Demo.w0 in
  r.2 = Ok (Some "https://hub/acme/model-x/discussions/11") /\
  drop (length (trace r.1) - 3)%nat (trace r.1) =
    [Remove "/app/outputs/temp_acme_model-x/gsm8k.yaml";
     Remove "/app/outputs/temp_acme_model-x/mmlu-pro.yaml";
     Rmdir "/app/outputs/temp_acme_model-x"] /\
  exists w1,
    only_looks Demo.w0 w1 /\
    (r.1 = w1 \/
     (exists e, fs_makedirs_fault Demo.hub (trace w1)
                  (staging_dir Demo.hub "acme/model-x") = Some e /\
                r = (log (Makedirs (staging_dir Demo.hub "acme/model-x")) w1,
                     Raise e)) \/
     (exists results,
        fs_makedirs_fault Demo.hub (trace w1)
          (staging_dir Demo.hub "acme/model-x") = None /\
        cleaned_up Demo.hub "acme/model-x" "model"
          (staging_dir Demo.hub "acme/model-x") results
          (log (Makedirs (staging_dir Demo.hub "acme/model-x")) w1) r)).
Proof.
  intros candidates r. split; [vm_compute; reflexivity|]. split.
  - vm_compute. reflexivity.
  - exact (cleanup_always_attempted Demo.hub "acme/model-x" candidates "model"
             true Demo.w0).
Defined.

(** ** Empty input *)

(** C8: when the candidates are empty, [create_eval_results_pr] prints
    one line and returns [None]; nothing else happens, so no call reaches
    the Hub (no index is built, no file is listed, no commit is
    created) and no file is touched. *)
Theorem empty_candidates_no_remote_call
    (env : Env) (repo_id : string) (evaluation_results : pyval)
    (repo_type : string) (skip_existing : bool) (w : world) (results : pyval) :
  py_get evaluation_results "evaluation_results" (PList []) = Ok results ->
  truthy results = false ->
  let r := create_eval_results_pr env repo_id evaluation_results repo_type
             skip_existing w in
  r.2 = Ok None /\
  trace r.1 = trace w ++ [Print ("No evaluation results to submit for " +:+ repo_id)] /\
  files r.1 = files w /\
  Forall (fun ev => is_remote ev = false) (drop (length (trace w)) (trace r.1)).
Proof.
  intros Hget Hempty r. subst r.
  unfold create_eval_results_pr, bind, lift_outcome.
  rewrite Hget, Hempty. cbn. repeat split.
  rewrite drop_new_events. now constructor.
Qed.

Lemma empty_candidates_no_remote_call_witness :
  let candidates := PDict [("evaluation_results", PList [])] in
  let r := create_eval_results_pr Demo.hub "acme/model-x" candidates "model"
             true Demo.w0 in
  (py_get candidates "evaluation_results" (PList []) = Ok (PList []) /\
   truthy (PList []) = false) /\
  r.2 = Ok None /\
  trace r.1 = trace Demo.w0 ++
              [Print ("No evaluation results to submit for " +:+ "acme/model-x")] /\
  files r.1 = files Demo.w0 /\
  Forall (fun ev => is_remote ev = false)
    (drop (length (trace Demo.w0)) (trace r.1)).
Proof.
  intros candidates r. split; [now split|].
  apply (empty_candidates_no_remote_call Demo.hub "acme/model-x" candidates
           "model" true Demo.w0 (PList [])); reflexivity.
Defined.

(** C9: when the result set is empty, [write_output] writes no file; it
    creates the output folder, and once the folder exists it prints
    "No evaluation results to write for <repo_id>" and returns. *)
Theorem write_output_nothing_to_write
    (env : Env) (repo_id : string) (evaluation_results : pyval) (w : world)
    (results : pyval) :
  py_get evaluation_results "evaluation_results" (PList []) = Ok results ->
  truthy results = false ->
  let r := write_output env repo_id evaluation_results w in
  (files r.1 = files w /\
   Forall (fun ev => is_file_write ev = false)
     (drop (length (trace w)) (trace r.1))) /\
  (fs_makedirs_fault env (trace w) (output_dir env repo_id) = None ->
   r.2 = Ok tt /\
   trace r.1 =
     trace w ++ [Makedirs (output_dir env repo_id);
                 Print (Str.nl +:+ "No evaluation results to write for " +:+
                        repo_id)]).
Proof.
  intros Hget Hempty r. subst r.
  unfold write_output, bind, lift_outcome, os_makedirs.
  destruct (fs_makedirs_fault env (trace w) (output_dir env repo_id)) as [e|].
  - cbn. split; [|discriminate]. split; [reflexivity|].
    rewrite drop_new_events. now repeat constructor.
  - rewrite Hget, Hempty. cbn. rewrite <- app_assoc. cbn. split.
    + split; [reflexivity|]. rewrite drop_new_events. now repeat constructor.
    + now intros _.
Qed.

Lemma write_output_nothing_to_write_witness :
  let candidates := PDict [("evaluation_results", PList [])] in
  let r := write_output Demo.hub "acme/model-x" candidates Demo.w0 in
  (py_get candidates "evaluation_results" (PList []) = Ok (PList []) /\
   truthy (PList []) = false /\
   fs_makedirs_fault Demo.hub (trace Demo.w0)
     (output_dir Demo.hub "acme/model-x") = None) /\
  files r.1 = files Demo.w0 /\
  r.2 = Ok tt /\
  trace r.1 =
    [Makedirs "/app/outputs/acme__model-x";
     Print (Str.nl +:+ "No evaluation results to write for acme/model-x")].
Proof.
  intros candidates r. split; [now repeat split|].
  destruct (write_output_nothing_to_write Demo.hub "acme/model-x" candidates
              Demo.w0 (PList []) eq_refl eq_refl) as [[Hfiles _] Hlog].
  destruct (Hlog eq_refl) as [Hret Htrace].
  split; [exact Hfiles|]. split; [exact Hret|]. exact Htrace.
Defined.

(** ** The document fetcher *)

(** C7, the claim refuted: for a missing [README.md] (HTTP 404) and for
    an unavailable Hub (HTTP 503) the caller gets the same [None]. *)
Lemma absence_looks_like_failure :
  (fetch_huggingface_readme (Demo.hub_failing Demo.not_found)
     "acme/model-x" "model" Demo.w0).2 = Ok None /\
  (fetch_huggingface_readme (Demo.hub_failing Demo.unavailable)
     "acme/model-x" "model" Demo.w0).2 = Ok None /\
  ~ absence_is_distinct.
Proof.
  split; [reflexivity|]. split; [reflexivity|]. intros H.
  apply (H (Demo.hub_failing Demo.not_found) (Demo.hub_failing Demo.unavailable)
           "acme/model-x" "model" Demo.w0 "404 Client Error: Not Found"
           Demo.unavailable).
  - reflexivity.
  - reflexivity.
  - intros msg'. discriminate.
  - reflexivity.
Qed.

(** C7, as amended: when the download of [README.md] fails, the fetcher
    returns [None] whatever the failure, after one download and one
    printed line; the line alone tells a missing file from another
    failure: it starts with "README.md not found for " exactly when the
    failure is an HTTP 404. *)
Theorem fetch_failure_is_none
    (env : Env) (repo_id repo_type : string) (w : world) (e : exn) :
  hub_download env repo_id "README.md" repo_type None = Raise e ->
  let r := fetch_huggingface_readme env repo_id repo_type w in
  r.2 = Ok None /\
  exists line,
    trace r.1 =
      trace w ++ [HfHubDownload repo_id "README.md" repo_type None; Print line] /\
    (Str.startswith "README.md not found for " line = true <->
     exists msg, e = HfHubHTTPError 404 msg).
Proof.
  intros Hdl r. subst r.
  unfold fetch_huggingface_readme, bind, try_except, hf_hub_download, ret.
  rewrite Hdl.
  destruct e as [status_code msg|msg|msg|msg|msg];
    try (cbn; split; [reflexivity|]; eexists;
         split; [now rewrite <- app_assoc|];
         split; [discriminate | intros [m Hm]; discriminate]).
  destruct (status_code =? 404) eqn:Hs; cbn; (split; [reflexivity|]); eexists;
    (split; [now rewrite <- app_assoc|]).
  - apply Z.eqb_eq in Hs. subst. split; [eauto | intros _; apply startswith_append].
  - apply Z.eqb_neq in Hs. split; [discriminate|].
    intros [m [= Hm _]]. contradiction.
Qed.

Lemma fetch_failure_is_none_witness :
  let env := Demo.hub_failing Demo.not_found in
  let r := fetch_huggingface_readme env "acme/model-x" "model" Demo.w0 in
  hub_download env "acme/model-x" "README.md" "model" None = Raise Demo.not_found /\
  r.2 = Ok None /\
  exists line,
    trace r.1 =
      trace Demo.w0 ++ [HfHubDownload "acme/model-x" "README.md" "model" None;
                        Print line] /\
    (Str.startswith "README.md not found for " line = true <->
     exists msg, Demo.not_found = HfHubHTTPError 404 msg).
Proof.
  intros env r. split; [reflexivity|].
  apply (fetch_failure_is_none env "acme/model-x" "model" Demo.w0 Demo.not_found).
  reflexivity.
Defined.

(** ** Two identities, one file *)

Lemma write_result_ok env output_folder result id w written_files :
  dataset_id result = PStr id ->
  id <> EmptyString ->
  let output_path := path_join output_folder (stem_of env id +:+ ".yaml") in
  let yaml_content := yaml_dump env [result] in
  fs_write_fault env (trace w) output_path yaml_content = None ->
  write_result env output_folder result (w, written_files) =
    ((set_files (<[output_path := yaml_content]> (files w))
        (log (OpenWrite output_path yaml_content) w),
      written_files ++ [output_path]), Ok tt).
Proof.
  intros Hid Hne output_path yaml_content Hfault.
  destruct (dataset_id_get _ _ Hid) as (dataset & Hd & Hi).
  unfold write_result, bind, lift_outcome, lift_w, write_text, modify_local.
  rewrite Hd, Hi, (truthy_str _ Hne). cbn [negb as_str fst snd].
  rewrite last_segment_split. fold (stem_of env id). fold output_path yaml_content.
  now rewrite Hfault.
Qed.

Lemma stage_result_ok env temp_dir result id w l :
  dataset_id result = PStr id ->
  id <> EmptyString ->
  let filename := stem_of env id +:+ ".yaml" in
  let temp_path := path_join temp_dir filename in
  let yaml_content := yaml_dump env [result] in
  fs_write_fault env (trace w) temp_path yaml_content = None ->
  stage_result env temp_dir result (w, l) =
    ((set_files (<[temp_path := yaml_content]> (files w))
        (log (OpenWrite temp_path yaml_content) w),
      {| temp_files := temp_files l ++ [temp_path];
         operations := operations l ++
           [{| path_in_repo := ".eval_results/" +:+ filename;
               path_or_fileobj := temp_path |}];
         benchmark_names := benchmark_names l ++ [py_upper env (stem_of env id)];
         benchmark_ids := benchmark_ids l ++ [id] |}), Ok tt).
Proof.
  intros Hid Hne filename temp_path yaml_content Hfault.
  destruct (dataset_id_get _ _ Hid) as (dataset & Hd & Hi).
  unfold stage_result, bind, lift_outcome, lift_w, write_text, modify_local.
  rewrite Hd, Hi, (truthy_str _ Hne). cbn [negb as_str fst snd].
  rewrite last_segment_split. fold (stem_of env id). fold filename.
  fold temp_path yaml_content. now rewrite Hfault.
Qed.

Section Collision.
Context (env : Env) (repo_id repo_type : string) (w : world) (v1 v2 : pyval).
Hypothesis makedirs_ok : forall tr p, fs_makedirs_fault env tr p = None.
Hypothesis write_ok : forall tr p c, fs_write_fault env tr p c = None.

Let r1 := result_record "a/gsm8k" v1.
Let r2 := result_record "b/GSM8K" v2.
Let candidates := PDict [("evaluation_results", PList [r1; r2])].

Lemma write_output_collision :
  let output_path := path_join (output_dir env repo_id) "gsm8k.yaml" in
  exists w',
    write_output env repo_id candidates w = (w', Ok tt) /\
    files w' = <[output_path := yaml_dump env [r2]]>
                 (<[output_path := yaml_dump env [r1]]> (files w)) /\
    exists printed,
      trace w' =
        trace w ++ [Makedirs (output_dir env repo_id);
                    OpenWrite output_path (yaml_dump env [r1]);
                    OpenWrite output_path (yaml_dump env [r2])] ++ printed.
Proof.
  intros output_path. unfold write_output.
  erewrite bind_ok; [|unfold os_makedirs; rewrite makedirs_ok; reflexivity].
  erewrite bind_ok; [|reflexivity].
  cbn [candidates py_get assoc String.eqb Ascii.eqb Bool.eqb default id truthy negb].
  unfold with_locals.
  erewrite bind_ok; [|reflexivity]. cbn [for_each].
  erewrite bind_ok.
  2:{ erewrite bind_ok.
      2:{ apply (write_result_ok env _ r1 "a/gsm8k");
            [reflexivity | discriminate | apply write_ok]. }
      erewrite bind_ok.
      2:{ apply (write_result_ok env _ r2 "b/GSM8K");
            [reflexivity | discriminate | apply write_ok]. }
      reflexivity. }
  rewrite (stem_of_ascii env "a/gsm8k" eq_refl),
    (stem_of_ascii env "b/GSM8K" eq_refl).
  change (Str.lower (after_last "/" "a/gsm8k") +:+ ".yaml") with "gsm8k.yaml".
  change (Str.lower (after_last "/" "b/GSM8K") +:+ ".yaml") with "gsm8k.yaml".
  fold output_path.
  cbn. eexists. split; [reflexivity|]. cbn. split; [reflexivity|].
  eexists. rewrite <- !app_assoc. cbn. reflexivity.
Qed.

Lemma submit_collision :
  let temp_path := path_join (staging_dir env repo_id) "gsm8k.yaml" in
  let op := {| path_in_repo := ".eval_results/gsm8k.yaml";
               path_or_fileobj := temp_path |} in
  exists title description,
    CreateCommit repo_id [op; op] title description true repo_type
      ∈ trace (create_eval_results_pr env repo_id candidates repo_type false w).1.
Proof.
  intros temp_path op.
  pose (w1 := log (Makedirs (staging_dir env repo_id)) w).
  assert (Hsub : create_eval_results_pr env repo_id candidates repo_type false w =
                 stage_and_submit env repo_id repo_type
                   (staging_dir env repo_id) (PList [r1; r2]) w1).
  { unfold create_eval_results_pr.
    erewrite bind_ok; [|reflexivity].
    cbn [candidates py_get assoc String.eqb Ascii.eqb Bool.eqb default id
           truthy negb].
    erewrite bind_ok; [|reflexivity]. cbv iota.
    erewrite bind_ok; [|unfold os_makedirs; rewrite makedirs_ok; reflexivity].
    reflexivity. }
  destruct (stage_and_submit_cleaned_up env repo_id repo_type
              (staging_dir env repo_id) (PList [r1; r2]) w1) as (_ & Htr & _).
  rewrite Hsub, Htr. clear Htr Hsub.
  eexists _, _. apply elem_of_app. left.
  unfold submit_body, try_except.
  erewrite bind_ok; [|reflexivity]. cbn [for_each].
  erewrite bind_ok.
  2:{ erewrite bind_ok.
      2:{ apply (stage_result_ok env _ r1 "a/gsm8k");
            [reflexivity | discriminate | apply write_ok]. }
      erewrite bind_ok.
      2:{ apply (stage_result_ok env _ r2 "b/GSM8K");
            [reflexivity | discriminate | apply write_ok]. }
      reflexivity. }
  rewrite (stem_of_ascii env "a/gsm8k" eq_refl),
    (stem_of_ascii env "b/GSM8K" eq_refl).
  change (Str.lower (after_last "/" "a/gsm8k") +:+ ".yaml") with "gsm8k.yaml".
  change (Str.lower (after_last "/" "b/GSM8K") +:+ ".yaml") with "gsm8k.yaml".
  change (".eval_results/" +:+ "gsm8k.yaml") with ".eval_results/gsm8k.yaml".
  fold temp_path. cbn [no_locals temp_files operations benchmark_names
                         benchmark_ids app].
  fold op.
  erewrite bind_ok; [|reflexivity]. cbn [snd operations].
  unfold bind at 1. unfold lift_w at 1. unfold create_commit at 1.
  cbn [fst snd].
  destruct (hub_create_commit env repo_id [op; op] _ _ true repo_type);
    cbn; rewrite ?elem_of_app, ?list_elem_of_singleton; tauto.
Qed.

End Collision.

(** C10: the filename is not injective on the identities.  ["a/gsm8k"]
    and ["b/GSM8K"] differ and have the same stem; when no write fails,
    the local writer puts both records in the same file, which ends up
    holding the later one, and the submitter passes to [create_commit] two
    add-file operations with the same path in the repository. *)
Theorem artifact_name_collision
    (env : Env) (repo_id repo_type : string) (w : world) (v1 v2 : pyval) :
  (forall tr p, fs_makedirs_fault env tr p = None) ->
  (forall tr p c, fs_write_fault env tr p c = None) ->
  let r1 := result_record "a/gsm8k" v1 in
  let r2 := result_record "b/GSM8K" v2 in
  let candidates := PDict [("evaluation_results", PList [r1; r2])] in
  "a/gsm8k" <> "b/GSM8K" /\
  stem_of env "a/gsm8k" = "gsm8k" /\ stem_of env "b/GSM8K" = "gsm8k" /\
  (let out := write_output env repo_id candidates w in
   let output_path := path_join (output_dir env repo_id) "gsm8k.yaml" in
   out.2 = Ok tt /\
   files out.1 !! output_path = Some (yaml_dump env [r2]) /\
   exists printed,
     trace out.1 =
       trace w ++ [Makedirs (output_dir env repo_id);
                   OpenWrite output_path (yaml_dump env [r1]);
                   OpenWrite output_path (yaml_dump env [r2])] ++ printed) /\
  (let sub := create_eval_results_pr env repo_id candidates repo_type false w in
   let op := {| path_in_repo := ".eval_results/gsm8k.yaml";
                path_or_fileobj :=
                  path_join (staging_dir env repo_id) "gsm8k.yaml" |} in
   exists title description,
     CreateCommit repo_id [op; op] title description true repo_type
       ∈ trace sub.1).
Proof.
  intros Hmk Hwr r1 r2 candidates.
  split; [discriminate|].
  split; [now rewrite stem_of_ascii|]. split; [now rewrite stem_of_ascii|]. split.
  - intros out output_path. subst out.
    destruct (write_output_collision env repo_id w v1 v2 Hmk Hwr)
      as (w' & Hrun & Hfiles & Htrace).
    fold r1 r2 candidates in Hrun, Hfiles, Htrace. rewrite Hrun. cbn [fst snd].
    split; [reflexivity|]. split; [|exact Htrace].
    rewrite Hfiles. apply lookup_insert_eq.
  - intros sub op. apply submit_collision; assumption.
Qed.

Lemma artifact_name_collision_witness :
  let r1 := result_record "a/gsm8k" (PInt 1) in
  let r2 := result_record "b/GSM8K" (PInt 2) in
  let candidates := PDict [("evaluation_results", PList [r1; r2])] in
  ((forall tr p, fs_makedirs_fault Demo.hub tr p = None) /\
   (forall tr p c, fs_write_fault Demo.hub tr p c = None)) /\
  "a/gsm8k" <> "b/GSM8K" /\
  stem_of Demo.hub "a/gsm8k" = "gsm8k" /\ stem_of Demo.hub "b/GSM8K" = "gsm8k" /\
  (let out := write_output Demo.hub "acme/model-x" candidates Demo.w0 in
   let output_path := path_join (output_dir Demo.hub "acme/model-x") "gsm8k.yaml" in
   out.2 = Ok tt /\
   files out.1 !! output_path = Some (yaml_dump Demo.hub [r2]) /\
   exists printed,
     trace out.1 =
       trace Demo.w0 ++ [Makedirs (output_dir Demo.hub "acme/model-x");
                         OpenWrite output_path (yaml_dump Demo.hub [r1]);
                         OpenWrite output_path (yaml_dump Demo.hub [r2])] ++
       printed) /\
  (let sub := create_eval_results_pr Demo.hub "acme/model-x" candidates "model"
                false Demo.w0 in
   let op := {| path_in_repo := ".eval_results/gsm8k.yaml";
                path_or_fileobj :=
                  path_join (staging_dir Demo.hub "acme/model-x") "gsm8k.yaml" |} in
   exists title description,
     CreateCommit "acme/model-x" [op; op] title description true "model"
       ∈ trace sub.1).
Proof.
  intros r1 r2 candidates. split; [split; intros; reflexivity|].
  apply (artifact_name_collision Demo.hub "acme/model-x" "model" Demo.w0
           (PInt 1) (PInt 2)); intros; reflexivity.
Defined.

(** * Further properties *)

(** ** Tools *)

#[local] Instance emits_preorder Q : PreOrder (emits Q).
Proof.
  split.
  - intros w. exists []. split; [now rewrite app_nil_r | constructor].
  - intros w1 w2 w3 (evs1 & Ht12 & Hq1) (evs2 & Ht23 & Hq2).
    exists (evs1 ++ evs2).
    split; [now rewrite Ht23, Ht12, app_assoc | now apply Forall_app].
Qed.

Lemma emits_log (Q : event -> Prop) ev w : Q ev -> emits Q w (log ev w).
Proof. intros H. exists [ev]. split; [reflexivity | now constructor]. Qed.

Lemma emits_weaken (Q Q' : event -> Prop) w w' :
  (forall ev, Q ev -> Q' ev) -> emits Q w w' -> emits Q' w w'.
Proof.
  intros HQ (evs & Ht & Hq). exists evs. split; [exact Ht|].
  eapply Forall_impl; eassumption.
Qed.

Lemma emits_new_events Q w w' :
  emits Q w w' -> Forall Q (new_events w w').
Proof.
  intros (evs & Ht & Hq). unfold new_events. now rewrite Ht, drop_new_events.
Qed.

Lemma only_looks_emits w w' :
  only_looks w w' -> emits (fun ev => is_lookup ev = true) w w'.
Proof. intros [_ H]. exact H. Qed.

Lemma steps_for_each_in {S A} (R : S -> S -> Prop) `{!PreOrder R}
    (body : A -> M S unit) l :
  (forall x, x ∈ l -> steps R (body x)) -> steps R (for_each body l).
Proof.
  induction l as [|x l IH]; intros Hb; [now apply steps_ret|].
  cbn [for_each]. apply steps_bind; [assumption| |intros _].
  - apply Hb. now left.
  - apply IH. intros y Hy. apply Hb. now right.
Qed.

(** Like [steps_bind], keeping that the value comes from [m]. *)
Lemma steps_bind_ok {S A B} (R : S -> S -> Prop) `{!PreOrder R}
    (m : M S A) (k : A -> M S B) :
  steps R m ->
  (forall a, (exists s, (m s).2 = Ok a) -> steps R (k a)) ->
  steps R (bind m k).
Proof.
  intros Hm Hk s. unfold bind. specialize (Hm s).
  destruct (m s) as [s' [a|e]] eqn:Hms; cbn in *; [|assumption].
  etransitivity; [exact Hm|]. apply Hk. exists s. now rewrite Hms.
Qed.

Lemma filter_elem_of {A} (f : A -> bool) (l : list A) x :
  x ∈ List.filter f l <-> x ∈ l /\ f x = true.
Proof. rewrite !list_elem_of_In. apply filter_In. Qed.

(** ** More on the index builder *)

Section IndexEffects.
Context (env : Env) (repo_id repo_type : string).

Let Q := index_lookup env repo_id repo_type.
Let paired := reads_downloaded env repo_id repo_type.

Lemma paired_nil : paired [].
Proof. intros [|? ?] p post H; discriminate. Qed.

Lemma paired_one ev : (forall p, ev <> OpenRead p) -> paired [ev].
Proof.
  intros Hev [|x [|y pre]] p post H; try discriminate.
  cbn in H. injection H as H _. now apply Hev in H.
Qed.

Lemma paired_read f revision p :
  hub_download env repo_id f repo_type revision = Ok p ->
  paired [HfHubDownload repo_id f repo_type revision; OpenRead p].
Proof.
  intros Hdl [|x [|y [|z pre]]] q post H; try discriminate.
  cbn in H. injection H as <- <- _.
  exists [], f, revision. now split.
Qed.

Lemma paired_app evs1 evs2 : paired evs1 -> paired evs2 -> paired (evs1 ++ evs2).
Proof.
  intros H1 H2 pre p post H.
  apply List.app_eq_app in H as [l [[He Hl]|[He Hl]]].
  - destruct l as [|x l].
    + cbn in Hl. symmetry in Hl. destruct (H2 [] p post Hl) as (pre' & f & r & Hp & _).
      now destruct pre'.
    + injection Hl as <- Hpost. apply (H1 pre p l). exact He.
  - destruct (H2 l p post Hl) as (pre' & f & r & -> & Hdl).
    exists (evs1 ++ pre'), f, r. split; [|exact Hdl].
    rewrite He. now rewrite app_assoc.
Qed.

#[local] Instance scans_preorder : PreOrder (scans env repo_id repo_type).
Proof.
  split.
  - intros w. exists []. split; [now rewrite app_nil_r|].
    split; [constructor|apply paired_nil].
  - intros w1 w2 w3 (evs1 & Ht12 & Hq1 & Hp1) (evs2 & Ht23 & Hq2 & Hp2).
    exists (evs1 ++ evs2). split; [now rewrite Ht23, Ht12, app_assoc|].
    split; [now apply Forall_app|now apply paired_app].
Qed.

Lemma scans_log ev w :
  Q ev -> (forall p, ev <> OpenRead p) -> scans env repo_id repo_type w (log ev w).
Proof.
  intros Hq Hev. exists [ev]. split; [reflexivity|].
  split; [now constructor|now apply paired_one].
Qed.

Lemma scans_emits w w' : scans env repo_id repo_type w w' -> emits Q w w'.
Proof. intros (evs & Ht & Hq & _). now exists evs. Qed.

Lemma steps_scans_emits {L A} (m : M (world * L) A) :
  steps (on_world (scans env repo_id repo_type)) m ->
  steps (on_world (emits Q)) m.
Proof. intros H s. apply scans_emits, H. Qed.

Lemma lift_scans {L A} (m : M world A) ev o :
  (forall w, m w = (log ev w, o)) -> Q ev -> (forall p, ev <> OpenRead p) ->
  steps (@on_world L (scans env repo_id repo_type)) (lift_w m).
Proof.
  intros Hm Hq Hev. apply steps_on_world. intros w. rewrite Hm. cbn.
  now apply scans_log.
Qed.

Lemma print_scans {L} line :
  steps (@on_world L (scans env repo_id repo_type)) (lift_w (print line)).
Proof.
  apply (lift_scans _ (Print line) (Ok tt)); [reflexivity|exact I|discriminate].
Qed.

Lemma record_main_silent f r :
  steps (on_world (scans env repo_id repo_type)) (record_main f r).
Proof. unfold record_main. walk_steps. Qed.

Lemma record_pr_silent pr f r :
  steps (on_world (scans env repo_id repo_type)) (record_pr pr f r).
Proof. unfold record_pr. walk_steps. Qed.

(** One file of a scanned revision, whichever branch it is on: the
    download, and the read of what it answered right after it. *)
Lemma scan_file_scans revision files f (body : pyval -> M (world * index) unit)
    handler :
  scanned_revision env repo_id repo_type revision ->
  hub_list_repo_files env repo_id repo_type revision = Ok files ->
  f ∈ List.filter is_eval_file files ->
  (forall r, steps (on_world (scans env repo_id repo_type)) (body r)) ->
  (forall e, exists line, handler e = lift_w (print line)) ->
  steps (on_world (scans env repo_id repo_type))
    (try_except
       (let* file_path := lift_w (hf_hub_download env repo_id f repo_type revision) in
        let* content := lift_w (read_yaml env file_path) in
        if is_list content && truthy content then
          let* items := lift_outcome (py_iter content) in
          for_each body items
        else ret tt)
       handler).
Proof.
  intros Hrev Hfiles Hf Hbody Hh. apply filter_elem_of in Hf as [Hf Heval].
  assert (Hdownload : Q (HfHubDownload repo_id f repo_type revision)).
  { cbn. repeat split; eauto. }
  apply steps_try_except; [apply _| |].
  - intros [w idx]. unfold on_world.
    unfold bind at 1, lift_w at 1, hf_hub_download at 1. cbn [fst snd].
    destruct (hub_download env repo_id f repo_type revision) as [path|e] eqn:Hdl.
    2:{ cbn. apply scans_log; [exact Hdownload|discriminate]. }
    unfold bind at 1, lift_w at 1, read_yaml at 1. cbn [fst snd].
    set (w2 := log (OpenRead path)
                 (log (HfHubDownload repo_id f repo_type revision) w)).
    assert (Hread : scans env repo_id repo_type w w2).
    { exists [HfHubDownload repo_id f repo_type revision; OpenRead path].
      split; [subst w2; cbn; now rewrite <- app_assoc|]. split; [|now apply paired_read].
      constructor; [exact Hdownload|]. constructor; [|constructor].
      cbn. exists f, revision, files. now repeat split. }
    destruct (fs_read_yaml env path) as [content|e]; [|exact Hread].
    etransitivity; [exact Hread|].
    assert (Hrest : steps (on_world (scans env repo_id repo_type))
              (if is_list content && truthy content
               then let* items := lift_outcome (py_iter content) in
                    for_each body items
               else ret tt)).
    { walk_steps. apply Hbody. }
    apply (Hrest (w2, idx)).
  - intros e. destruct (Hh e) as [line ->]. apply print_scans.
Qed.

Lemma scan_main_scans :
  steps (on_world (scans env repo_id repo_type)) (scan_main env repo_id repo_type).
Proof.
  unfold scan_main.
  apply steps_try_except; [apply _| |intros e; apply print_scans].
  apply steps_bind_ok; [apply _| |].
  - apply (lift_scans _ (ListRepoFiles repo_id repo_type None)
             (hub_list_repo_files env repo_id repo_type None));
      [reflexivity| |discriminate]. cbn. repeat split. now left.
  - intros files [[w idx] Hfiles]. cbn in Hfiles.
    apply steps_for_each_in; [apply _|]. intros f Hf.
    apply (scan_file_scans None files); eauto.
    + now left.
    + apply record_main_silent.
Qed.

Lemma scan_pr_scans pr :
  pr ∈ open_prs env repo_id repo_type ->
  steps (on_world (scans env repo_id repo_type)) (scan_pr env repo_id repo_type pr).
Proof.
  intros Hpr. unfold scan_pr.
  assert (Hrev : scanned_revision env repo_id repo_type (Some (pr_revision pr))).
  { right. eauto. }
  apply steps_try_except; [apply _| |intros e; apply print_scans].
  apply steps_bind_ok; [apply _| |].
  - apply (lift_scans _ (ListRepoFiles repo_id repo_type (Some (pr_revision pr)))
             (hub_list_repo_files env repo_id repo_type (Some (pr_revision pr))));
      [reflexivity| |discriminate]. cbn. now repeat split.
  - intros files [[w idx] Hfiles]. cbn in Hfiles.
    apply steps_for_each_in; [apply _|]. intros f Hf.
    apply (scan_file_scans (Some (pr_revision pr)) files); eauto.
    apply record_pr_silent.
Qed.

Lemma scan_prs_scans :
  steps (on_world (scans env repo_id repo_type)) (scan_prs env repo_id repo_type).
Proof.
  unfold scan_prs.
  apply steps_try_except; [apply _| |intros e; apply print_scans].
  apply steps_bind_ok; [apply _| |].
  - apply (lift_scans _ (GetRepoDiscussions repo_id repo_type)
             (hub_discussions env repo_id repo_type));
      [reflexivity| |discriminate].
    cbn. now split.
  - intros discussions [[w idx] Hd]. cbn in Hd.
    apply steps_for_each_in; [apply _|]. intros pr Hpr.
    apply scan_pr_scans. unfold open_prs. now rewrite Hd.
Qed.

Lemma get_existing_eval_results_scans w :
  scans env repo_id repo_type w
    (get_existing_eval_results env repo_id repo_type w).1.
Proof.
  unfold get_existing_eval_results.
  assert (H : steps (on_world (scans env repo_id repo_type))
                (scan_main env repo_id repo_type ;;;
                 scan_prs env repo_id repo_type)).
  { apply steps_bind; [apply _|apply scan_main_scans|intros _].
    apply scan_prs_scans. }
  specialize (H (w, [])). unfold on_world in H.
  now destruct ((_ ;;; _) (w, [])) as [s [[]|e]].
Qed.

Lemma scan_main_emits :
  steps (on_world (emits Q)) (scan_main env repo_id repo_type).
Proof. apply steps_scans_emits, scan_main_scans. Qed.

Lemma scan_prs_emits :
  steps (on_world (emits Q)) (scan_prs env repo_id repo_type).
Proof. apply steps_scans_emits, scan_prs_scans. Qed.

End IndexEffects.

(** X1: the index builder only looks, and only where it should: it lists
    the files of the main branch and of the open pull requests, and
    downloads nothing but [.eval_results/*.yaml] files that these
    listings hold; every file it reads is the file that the download
    just before answered, a listed result file of a scanned revision;
    closed pull requests and plain discussions are never listed, and
    nothing of theirs is downloaded or read. *)
Theorem index_builder_scans_result_files_only
    (env : Env) (repo_id repo_type : string) (w : world) :
  let r := get_existing_eval_results env repo_id repo_type w in
  files r.1 = files w /\
  Forall (index_lookup env repo_id repo_type) (new_events w r.1) /\
  reads_downloaded env repo_id repo_type (new_events w r.1).
Proof.
  intros r.
  split; [apply (get_existing_eval_results_looks env repo_id repo_type w)|].
  destruct (get_existing_eval_results_scans env repo_id repo_type w)
    as (evs & Ht & Hq & Hp).
  fold r in Ht. unfold new_events. now rewrite Ht, drop_new_events.
Qed.

Section IndexEntries.
Context (env : Env) (repo_id repo_type : string).

Let P (s : world * index) : Prop := sound_index s.2.

Ltac walk_keeps :=
  repeat match goal with
         | |- PreOrder _ => apply _
         | |- steps _ (bind _ _) => apply steps_bind
         | |- steps _ (try_except _ _) => apply steps_try_except
         | |- steps _ (if _ then _ else _) => apply steps_if
         | |- steps _ (ret _) => apply steps_ret
         | |- steps _ (lift_outcome _) => apply steps_lift_outcome
         | |- steps (keeps _) (lift_w _) =>
             apply steps_lift_w; intros ? ? ? H; exact H
         | |- forall _, _ => intro
         end.

Lemma sound_index_set k o info idx :
  hash_key o = Ok k ->
  sound_entry k info -> sound_index idx -> sound_index (dict_set k o info idx).
Proof.
  intros Hk Hnew Hidx k' info'. destruct (decide (k = k')) as [<-|Hne].
  - rewrite dict_lookup_set_eq by assumption. now intros [= <-].
  - rewrite dict_lookup_set_ne by assumption. apply Hidx.
Qed.

Lemma record_main_sound f r :
  is_eval_file f = true -> steps (keeps P) (record_main f r).
Proof.
  intros Hf [w idx] H. unfold P in *. cbn [snd] in H.
  unfold record_main, bind, lift_outcome, modify_local, ret.
  destruct (py_get r "dataset" (PDict [])) as [dataset|e]; [|exact H].
  destruct (py_get dataset "id" PNone) as [dataset_id|e]; [|exact H].
  destruct (truthy dataset_id) eqn:Ht; [|exact H].
  destruct (py_get r "value" PNone) as [v|e]; [|exact H].
  destruct (hash_key dataset_id) as [k|e] eqn:Hk; [|exact H].
  cbn. apply sound_index_set; [exact Hk| |exact H]. split; [eauto | exact Hf].
Qed.

Lemma record_pr_sound pr f r :
  is_eval_file f = true -> steps (keeps P) (record_pr pr f r).
Proof.
  intros Hf [w idx] H. unfold P in *. cbn [snd] in H.
  unfold record_pr, bind, lift_outcome, modify_local, get_local, ret.
  destruct (py_get r "dataset" (PDict [])) as [dataset|e]; [|exact H].
  destruct (py_get dataset "id" PNone) as [dataset_id|e]; [|exact H].
  destruct (truthy dataset_id) eqn:Ht; cbn [fst snd]; [|exact H].
  destruct (hash_key dataset_id) as [k|e] eqn:Hk; cbn [fst snd]; [|exact H].
  destruct (negb (dict_mem k idx)); [|exact H].
  destruct (py_get r "value" PNone) as [v|e]; [|exact H].
  cbn. apply sound_index_set; [exact Hk| |exact H]. split; [eauto | exact Hf].
Qed.

Lemma scan_main_sound : steps (keeps P) (scan_main env repo_id repo_type).
Proof.
  unfold scan_main. walk_keeps.
  apply steps_for_each_in; [apply _|]. intros f Hf.
  apply filter_elem_of in Hf as [_ Hf]. unfold scan_main_file. walk_keeps.
  apply steps_for_each; [apply _|]. intros r. now apply record_main_sound.
Qed.

Lemma scan_prs_sound : steps (keeps P) (scan_prs env repo_id repo_type).
Proof.
  unfold scan_prs. walk_keeps.
  apply steps_for_each; [apply _|]. intros pr. unfold scan_pr. walk_keeps.
  apply steps_for_each_in; [apply _|]. intros f Hf.
  apply filter_elem_of in Hf as [_ Hf]. unfold scan_pr_file. walk_keeps.
  apply steps_for_each; [apply _|]. intros r. now apply record_pr_sound.
Qed.

Lemma built_index_sound w w' idx :
  get_existing_eval_results env repo_id repo_type w = (w', Ok idx) ->
  sound_index idx.
Proof.
  destruct (get_existing_eval_results_run env repo_id repo_type w) as [w1 Hrun].
  rewrite Hrun. intros [= _ <-].
  apply (scan_prs_sound (scan_main env repo_id repo_type (w, [])).1).
  apply (scan_main_sound (w, [])). intros k info. discriminate.
Qed.

End IndexEntries.

Lemma truthy_key_not_empty v k :
  truthy v = true -> hash_key v = Ok k -> k <> KNone /\ k <> KStr EmptyString.
Proof.
  destruct v as [|b|z|m e|s|l|d]; cbn; try discriminate.
  - intros _ [= <-]. unfold norm_num. destruct b; cbn; split; discriminate.
  - intros _ [= <-]. unfold norm_num.
    destruct z as [|p|p]; [split; discriminate| |];
      destruct (strip_twos p 0); split; discriminate.
  - intros _ [= <-]. unfold norm_num.
    destruct m as [|p|p]; [split; discriminate| |];
      destruct (strip_twos p e); split; discriminate.
  - intros Hs [= <-]. split; [discriminate|]. intros [= ->]. discriminate.
Qed.

(** X2: every entry of the index that is built stands for a record with a
    dataset id: its key is the hash of a value that is not empty, and its
    [file_path] is a [.eval_results/*.yaml] file.  So neither [None] nor
    the empty string is ever a key: a candidate without a dataset id is
    never taken as already existing. *)
Theorem built_index_entries_have_ids
    (env : Env) (repo_id repo_type : string) (w : world) :
  exists w' idx,
    get_existing_eval_results env repo_id repo_type w = (w', Ok idx) /\
    sound_index idx /\
    is_key_of PNone idx = false /\
    is_key_of (PStr EmptyString) idx = false.
Proof.
  destruct (get_existing_eval_results_run env repo_id repo_type w) as [w' Hrun].
  eexists _, _. split; [exact Hrun|].
  pose proof (built_index_sound env repo_id repo_type w _ _ Hrun) as Hs.
  split; [exact Hs|].
  split; cbn; apply dict_mem_false;
    match goal with |- dict_lookup ?k ?idx = None =>
      destruct (dict_lookup k idx) as [info|] eqn:Hl; [|reflexivity];
      destruct (Hs _ _ Hl) as [(v & Ht & Hk) _];
      destruct (truthy_key_not_empty v _ Ht Hk); congruence
    end.
Qed.

(** X3: when no revision lists a [.eval_results/*.yaml] file, the index
    is empty. *)
Theorem no_result_file_empty_index
    (env : Env) (repo_id repo_type : string) (w : world) :
  (forall revision files,
     hub_list_repo_files env repo_id repo_type revision = Ok files ->
     List.filter is_eval_file files = []) ->
  exists w', get_existing_eval_results env repo_id repo_type w = (w', Ok []).
Proof.
  intros Hnone.
  destruct (get_existing_eval_results_run env repo_id repo_type w) as [w' Hrun].
  exists w'. rewrite Hrun. do 2 f_equal.
  assert (Hkeep : steps (keeps (fun s : world * index => s.2 = []))
                    (scan_main env repo_id repo_type ;;;
                     scan_prs env repo_id repo_type)).
  { assert (Hlift : forall A (m : M world A),
              steps (keeps (fun s : world * index => s.2 = [])) (lift_w m)).
    { intros A m. apply steps_lift_w. intros ? ? ? H. exact H. }
    apply steps_bind; [apply _| |intros _].
    - unfold scan_main. apply steps_try_except; [apply _| |intros; apply Hlift].
      apply steps_bind_ok; [apply _|apply Hlift|].
      intros files [[w0 idx0] Hf]. cbn in Hf. rewrite (Hnone _ _ Hf).
      apply steps_ret; apply _.
    - unfold scan_prs. apply steps_try_except; [apply _| |intros; apply Hlift].
      apply steps_bind; [apply _|apply Hlift|intros discussions].
      apply steps_for_each; [apply _|]. intros pr. unfold scan_pr.
      apply steps_try_except; [apply _| |intros; apply Hlift].
      apply steps_bind_ok; [apply _|apply Hlift|].
      intros files [[w0 idx0] Hf]. cbn in Hf. rewrite (Hnone _ _ Hf).
      apply steps_ret; apply _. }
  pose proof (Hkeep (w, []) eq_refl) as H. revert H. unfold bind.
  destruct (scan_main_safe env repo_id repo_type (w, [])) as [[] Hm].
  destruct (scan_main env repo_id repo_type (w, [])) as [s1 o1].
  cbn in Hm. subst o1. cbn [fst]. easy.
Qed.

Lemma no_result_file_empty_index_witness :
  exists w',
    get_existing_eval_results Script.bare "acme/model-x" "model" Demo.w0 =
      (w', Ok []).
Proof.
  apply (no_result_file_empty_index Script.bare "acme/model-x" "model" Demo.w0).
  intros revision files [= <-]. reflexivity.
Defined.

(** ** More on the submitter *)

Lemma string_id_get r :
  (exists e, py_get r "dataset" (PDict []) = Raise e /\ string_id r = None) \/
  (exists dataset e,
     py_get r "dataset" (PDict []) = Ok dataset /\
     py_get dataset "id" (PStr "") = Raise e /\ string_id r = None) \/
  (exists dataset v,
     py_get r "dataset" (PDict []) = Ok dataset /\
     py_get dataset "id" (PStr "") = Ok v /\
     (truthy v = false /\ string_id r = None \/
      truthy v = true /\ (forall id, v <> PStr id) /\ string_id r = None \/
      exists id, v = PStr id /\ id <> EmptyString /\
                 dataset_id r = PStr id /\ string_id r = Some id)).
Proof.
  unfold string_id, dataset_id.
  destruct r as [| | | | | |d]; try (left; cbn; eauto; fail).
  cbn [py_get]. destruct (default (PDict []) (assoc "dataset" d))
    as [| | | | | |ds]; try (right; left; cbn; eauto; fail).
  right. right. cbn [py_get]. eexists _, _. split; [reflexivity|].
  split; [reflexivity|].
  destruct (assoc "id" ds) as [v|]; cbn [default from_option id].
  - destruct v as [|b|z|m e|s|l|d']; cbn [truthy].
    + left. now split.
    + destruct b; [right; left; split; [reflexivity|split; [intros id; discriminate|reflexivity]] | left; now split].
    + destruct (negb (z =? 0));
        [right; left; split; [reflexivity|split; [intros id; discriminate|reflexivity]] | left; now split].
    + destruct (negb (m =? 0));
        [right; left; split; [reflexivity|split; [intros id; discriminate|reflexivity]] | left; now split].
    + destruct s as [|c s]; cbn.
      * left. now split.
      * right. right. exists (String c s). repeat split. discriminate.
    + destruct l; [left; now split|].
      right. left. split; [reflexivity|split; [intros id; discriminate|reflexivity]].
    + destruct d'; [left; now split|].
      right. left. split; [reflexivity|split; [intros id; discriminate|reflexivity]].
  - left. now split.
Qed.

(** The three ways one iteration of the staging loop can go. *)
Lemma stage_result_cases env temp_dir r w l :
  (exists e, stage_result env temp_dir r (w, l) = ((w, l), Raise e) /\
             string_id r = None) \/
  (stage_result env temp_dir r (w, l) =
     ((log (Print ("Warning: Skipping result with missing dataset ID: " +:+
                   py_str env r)) w, l), Ok tt) /\
   string_id r = None) \/
  (exists id,
     string_id r = Some id /\ dataset_id r = PStr id /\ id <> EmptyString /\
     stage_result env temp_dir r (w, l) =
       match fs_write_fault env (trace w) (path_for env temp_dir id)
               (yaml_dump env [r]) with
       | Some e =>
           ((failed_write env (path_for env temp_dir id) (yaml_dump env [r]) w, l),
            Raise e)
       | None =>
           ((set_files (<[path_for env temp_dir id := yaml_dump env [r]]> (files w))
               (log (OpenWrite (path_for env temp_dir id) (yaml_dump env [r])) w),
             staged env temp_dir l [id]), Ok tt)
       end).
Proof.
  unfold stage_result, bind, lift_outcome, lift_w, write_text, modify_local.
  destruct (string_id_get r)
    as [(e & He & Hs)|[(dataset & e & Hd & He & Hs)
                       |(dataset & v & Hd & Hv & Hcases)]].
  - left. rewrite He. eauto.
  - left. rewrite Hd, He. eauto.
  - rewrite Hd, Hv.
    destruct Hcases as [[Ht Hs]|[(Ht & Hn & Hs)|(id & -> & Hne & Hid & Hs)]].
    + right. left. rewrite Ht. cbn. now split.
    + left. rewrite Ht. cbn [negb].
      destruct v; cbn; eauto. exfalso. eapply Hn. reflexivity.
    + right. right. exists id. rewrite (truthy_str _ Hne).
      cbn [negb as_str fst snd]. rewrite last_segment_split.
      fold (stem_of env id). fold (path_for env temp_dir id).
      repeat split; try assumption. unfold failed_write.
      destruct (fs_write_fault env (trace w) _ _);
        [destruct (fs_write_residue env (trace w) _ _)|]; reflexivity.
Qed.

Lemma failed_write_trace env path content w :
  trace (failed_write env path content w) = trace w ++ [OpenWrite path content].
Proof.
  unfold failed_write. now destruct (fs_write_residue env (trace w) path content).
Qed.

Lemma emits_failed_write (Q : event -> Prop) env path content w :
  Q (OpenWrite path content) -> emits Q w (failed_write env path content w).
Proof.
  intros H. exists [OpenWrite path content].
  split; [apply failed_write_trace|now constructor].
Qed.

Lemma path_for_yaml_in env dir id : yaml_in dir (path_for env dir id).
Proof.
  exists (stem_of env id). split; [reflexivity|]. apply stem_no_sep.
Qed.

Lemma staged_nil env temp_dir l : staged env temp_dir l [] = l.
Proof. destruct l. unfold staged. cbn. now rewrite !app_nil_r. Qed.

Lemma staged_app env temp_dir l ids1 ids2 :
  staged env temp_dir (staged env temp_dir l ids1) ids2 =
  staged env temp_dir l (ids1 ++ ids2).
Proof. unfold staged. cbn. now rewrite !map_app, !app_assoc. Qed.

Lemma string_ids_cons r items :
  string_ids (r :: items) =
  match string_id r with Some id => id :: string_ids items | None => string_ids items end.
Proof. reflexivity. Qed.

Lemma stage_event_mono env dir (items all : list pyval) ev :
  (forall x, x ∈ items -> x ∈ all) ->
  stage_event env dir items ev -> stage_event env dir all ev.
Proof.
  intros Hall. destruct ev; cbn; try tauto.
  intros (x & id & Hx & H). exists x, id. split; [now apply Hall|exact H].
Qed.

Lemma stage_event_yaml_in env dir items p c :
  stage_event env dir items (OpenWrite p c) -> yaml_in dir p.
Proof. intros (x & id & _ & _ & -> & _). apply path_for_yaml_in. Qed.

(** The staging loop, whatever its outcome: it prints and writes
    [.yaml] files in the staging directory, and [temp_files] grows by
    such files; when it completes, exactly the candidates with a
    non-empty string id are staged, in their order. *)
Lemma stage_loop_run env temp_dir all items w l :
  (forall x, x ∈ items -> x ∈ all) ->
  let r := for_each (stage_result env temp_dir) items (w, l) in
  emits (stage_event env temp_dir all) w r.1.1 /\
  (exists ids, r.1.2 = staged env temp_dir l ids) /\
  (r.2 = Ok tt -> r.1.2 = staged env temp_dir l (string_ids items)).
Proof.
  revert w l. induction items as [|x items IH]; intros w l Hall r; subst r.
  - cbn. split; [reflexivity|]. split; [exists []|intros _];
      now rewrite staged_nil.
  - assert (Hx : x ∈ all) by (apply Hall; now left).
    assert (Hrest : forall y, y ∈ items -> y ∈ all)
      by (intros y Hy; apply Hall; now right).
    cbn [for_each]. unfold bind. rewrite string_ids_cons.
    destruct (stage_result_cases env temp_dir x w l)
      as [(e & -> & Hs)|[[-> Hs]|(id & Hs & Hid & Hne & ->)]].
    + cbn. split; [reflexivity|]. split; [|discriminate].
      exists []. now rewrite staged_nil.
    + rewrite Hs. destruct (IH (log (Print
        ("Warning: Skipping result with missing dataset ID: " +:+ py_str env x)) w) l
        Hrest) as (He & Hl & Hok).
      split; [|split; assumption].
      etransitivity; [|exact He]. now apply emits_log.
    + rewrite Hs.
      assert (Hw : stage_event env temp_dir all
                     (OpenWrite (path_for env temp_dir id) (yaml_dump env [x])))
        by (exists x, id; now repeat split).
      destruct (fs_write_fault env (trace w) (path_for env temp_dir id)
                  (yaml_dump env [x])) as [e|].
      * cbn. split; [|split; [|discriminate]].
        -- now apply emits_failed_write.
        -- exists []. now rewrite staged_nil.
      * match goal with |- context [for_each _ _ (?w1, _)] =>
          destruct (IH w1 (staged env temp_dir l [id]) Hrest)
            as (He & [ids Hl] & Hok)
        end.
        split; [|split].
        -- etransitivity; [|exact He].
           exists [OpenWrite (path_for env temp_dir id) (yaml_dump env [x])].
           split; [reflexivity|]. now constructor.
        -- exists (id :: ids). rewrite Hl. apply (staged_app _ _ _ [id]).
        -- intros H. rewrite (Hok H). apply (staged_app _ _ _ [id]).
Qed.

Lemma submit_body_run env repo_id repo_type temp_dir results s0 :
  submit_body env repo_id repo_type temp_dir results s0 =
  match py_iter results with
  | Raise e => ((log (error_line repo_id e) s0.1, s0.2), Raise e)
  | Ok items =>
      match for_each (stage_result env temp_dir) items s0 with
      | (s1, Raise e) => ((log (error_line repo_id e) s1.1, s1.2), Raise e)
      | (s1, Ok _) =>
          match operations s1.2 with
          | [] =>
              ((log (Print ("No valid evaluation results to submit for " +:+
                            repo_id)) s1.1, s1.2), Ok None)
          | _ =>
              let ev := CreateCommit repo_id (operations s1.2)
                          (pr_title (benchmark_names s1.2))
                          (pr_description (benchmark_names s1.2)
                             (benchmark_ids s1.2)) true repo_type in
              match hub_create_commit env repo_id (operations s1.2)
                      (pr_title (benchmark_names s1.2))
                      (pr_description (benchmark_names s1.2)
                         (benchmark_ids s1.2)) true repo_type with
              | Ok pr_url =>
                  ((log (Print ("PR created successfully at " +:+ repo_id +:+
                                ": " +:+ pr_url)) (log ev s1.1), s1.2),
                   Ok (Some pr_url))
              | Raise e =>
                  ((log (error_line repo_id e) (log ev s1.1), s1.2), Raise e)
              end
          end
      end
  end.
Proof.
  unfold submit_body, try_except, bind, lift_outcome, lift_w, get_local,
    create_commit, print, raise, ret, error_line.
  destruct (py_iter results) as [items|e]; [|reflexivity].
  destruct (for_each (stage_result env temp_dir) items s0) as [s1 [[]|e]];
    [|reflexivity].
  cbn [fst snd]. destruct (operations s1.2); [reflexivity|].
  cbn [fst snd].
  destruct (hub_create_commit env repo_id _ _ _ true repo_type); reflexivity.
Qed.

Lemma new_events_app w w' evs :
  trace w' = trace w ++ evs -> new_events w w' = evs.
Proof. intros H. unfold new_events. now rewrite H, drop_new_events. Qed.

(** The trace of what runs once the staging directory exists: the
    staging loop, then an error line, or the end of the submission, then
    the removals. *)
Lemma stage_and_submit_trace env repo_id repo_type temp_dir results w :
  let r := stage_and_submit env repo_id repo_type temp_dir results w in
  exists loop_events tail paths,
    trace r.1 =
      trace w ++ loop_events ++ tail ++ map Remove paths ++ [Rmdir temp_dir] /\
    Forall (stage_event env temp_dir (iterated results)) loop_events /\
    Forall (yaml_in temp_dir) paths /\
    ((exists e, tail = [error_line repo_id e] /\ r.2 = Raise e) \/
     (exists items,
        py_iter results = Ok items /\
        paths = map (path_for env temp_dir) (string_ids items) /\
        submission env repo_id repo_type temp_dir (string_ids items) tail r.2)).
Proof.
  intros r. subst r.
  destruct (stage_and_submit_cleaned_up env repo_id repo_type temp_dir results w)
    as (Ho & Htr & _).
  set (r := stage_and_submit env repo_id repo_type temp_dir results w) in *.
  rewrite submit_body_run in Ho, Htr. cbn [fst snd] in Ho, Htr.
  unfold iterated. destruct (py_iter results) as [items|e].
  2:{ exists [], [error_line repo_id e], []. cbn in *.
      split; [now rewrite Htr, <- app_assoc|].
      split; [constructor|]. split; [constructor|]. left. eauto. }
  destruct (stage_loop_run env temp_dir items items w no_locals (fun x H => H))
    as ((loop_events & Hloop & Hq) & [ids0 Hl0] & Hok).
  assert (Hpaths : forall ids,
            Forall (yaml_in temp_dir)
              (temp_files (staged env temp_dir no_locals ids))).
  { intros ids. cbn. apply Forall_map, Forall_forall. intros id _.
    apply path_for_yaml_in. }
  destruct (for_each (stage_result env temp_dir) items (w, no_locals))
    as [[w1 l1] [[]|e]]; cbn [fst snd] in *.
  - specialize (Hok eq_refl). clear Hl0. subst l1.
    exists loop_events. cbn [staged no_locals operations temp_files
      benchmark_names benchmark_ids app] in *.
    destruct (string_ids items) as [|id ids] eqn:Hids.
    + exists [Print ("No valid evaluation results to submit for " +:+ repo_id)], [].
      cbn [map] in *. split; [|split; [exact Hq|split; [constructor|]]].
      * rewrite Htr. cbn. rewrite Hloop.
        now rewrite <- !app_assoc.
      * right. exists items. rewrite Hids. now repeat split.
    + cbn [map] in Ho, Htr.
      destruct (hub_create_commit env repo_id _ _ _ true repo_type)
        as [pr_url|e] eqn:Hc.
      * exists [commit_of env repo_id repo_type temp_dir (id :: ids);
                Print ("PR created successfully at " +:+ repo_id +:+ ": " +:+
                       pr_url)],
               (map (path_for env temp_dir) (id :: ids)).
        split; [|split; [exact Hq|split; [apply (Hpaths (id :: ids))|]]].
        -- rewrite Htr. cbn. rewrite Hloop.
           rewrite <- !app_assoc. reflexivity.
        -- right. exists items. rewrite Hids. split; [reflexivity|].
           split; [reflexivity|]. unfold submission. cbn [map].
           rewrite Hc. now split.
      * exists [commit_of env repo_id repo_type temp_dir (id :: ids);
                error_line repo_id e],
               (map (path_for env temp_dir) (id :: ids)).
        split; [|split; [exact Hq|split; [apply (Hpaths (id :: ids))|]]].
        -- rewrite Htr. cbn. rewrite Hloop.
           rewrite <- !app_assoc. reflexivity.
        -- right. exists items. rewrite Hids. split; [reflexivity|].
           split; [reflexivity|]. unfold submission. cbn [map].
           rewrite Hc. now split.
  - subst l1. exists loop_events, [error_line repo_id e],
      (temp_files (staged env temp_dir no_locals ids0)).
    split; [|split; [exact Hq|split; [apply (Hpaths ids0)|]]].
    + rewrite Htr. cbn. rewrite Hloop.
      now rewrite <- !app_assoc.
    + left. eauto.
Qed.

(** *** Before the staging *)

Lemma get_existing_eval_results_emits env repo_id repo_type w :
  emits (index_lookup env repo_id repo_type) w
    (get_existing_eval_results env repo_id repo_type w).1.
Proof.
  unfold get_existing_eval_results.
  assert (H : steps (on_world (emits (index_lookup env repo_id repo_type)))
                (scan_main env repo_id repo_type ;;;
                 scan_prs env repo_id repo_type)).
  { apply steps_bind; [apply _|apply scan_main_emits|intros _].
    apply scan_prs_emits. }
  specialize (H (w, [])). unfold on_world in H.
  now destruct ((_ ;;; _) (w, [])) as [s [[]|e]].
Qed.

Lemma not_in_existing_pure {S} existing r (s : S) :
  not_in_existing existing r s = (s, (not_in_existing existing r tt).2).
Proof.
  unfold not_in_existing, bind, lift_outcome, ret.
  destruct (py_get r "dataset" (PDict [])) as [dataset|e]; [|reflexivity].
  destruct (py_get dataset "id" PNone) as [v|e]; [|reflexivity].
  destruct (hash_key v); reflexivity.
Qed.

(** The comprehension has no effect, and its outcome does not depend on
    the state. *)
Lemma reconcile_pure {S} candidates existing (s : S) :
  reconcile candidates existing s = (s, (reconcile candidates existing tt).2).
Proof.
  unfold reconcile. induction candidates as [|r l IH]; [reflexivity|].
  cbn [filter_m]. unfold bind. rewrite (not_in_existing_pure existing r s).
  destruct (not_in_existing existing r tt) as [[] [keep|e]]; cbn [snd];
    [|reflexivity].
  rewrite IH. destruct (filter_m _ l tt) as [[] [rest|e]]; reflexivity.
Qed.

Lemma reconcile_sublist candidates existing kept :
  (reconcile candidates existing tt).2 = Ok kept -> kept `sublist_of` candidates.
Proof.
  unfold reconcile. revert kept.
  induction candidates as [|r l IH]; intros kept; cbn [filter_m].
  - intros [= <-]. constructor.
  - unfold bind. destruct (not_in_existing existing r tt) as [[] [keep|e]];
      [|discriminate].
    destruct (filter_m _ l tt) as [[] [rest|e]]; [|discriminate].
    cbn. intros [= <-]. specialize (IH rest eq_refl).
    destruct keep; now constructor.
Qed.

Lemma print_report_run env repo_id (idx : index) w :
  exists w',
    (match idx with
     | [] => ret tt
     | _ =>
         print ("Found existing evaluation results for " +:+ repo_id +:+ ":") ;;;
         for_each (print_existing env) idx
     end) w = (w', Ok tt) /\
    files w' = files w /\
    emits (fun ev => exists line, ev = Print line) w w'.
Proof.
  assert (Hloop : forall l w0, exists w',
            for_each (print_existing env) l w0 = (w', Ok tt) /\
            files w' = files w0 /\
            emits (fun ev => exists line, ev = Print line) w0 w').
  { induction l as [|x l IH]; intros w0.
    - exists w0. repeat split. reflexivity.
    - cbn [for_each]. unfold bind, print_existing at 1, print.
      destruct (IH (log (Print ("  - " +:+ py_str env x.1 +:+
                  ": " +:+ py_str env (value x.2) +:+ " (" +:+
                  (if String.eqb (source x.2) "main" then "main branch"
                   else "open PR #" +:+ match pr_num x.2 with
                                        | Some n => pretty n
                                        | None => "None"
                                        end) +:+ ")")) w0))
        as (w' & Hrun & Hf & He).
      exists w'. split; [exact Hrun|]. split; [exact Hf|].
      etransitivity; [|exact He]. apply emits_log. eauto. }
  destruct idx as [|x idx].
  - exists w. repeat split. reflexivity.
  - unfold bind, print.
    destruct (Hloop (x :: idx) (log (Print ("Found existing evaluation results for "
                +:+ repo_id +:+ ":")) w)) as (w' & Hrun & Hf & He).
    exists w'. split; [exact Hrun|]. split; [exact Hf|].
    etransitivity; [|exact He]. apply emits_log. eauto.
Qed.

(** The part of [create_eval_results_pr] that consults the index: it
    looks as the index builder does and prints; it returns early with
    [None], raises, or goes on with the candidates that the comprehension
    kept. *)
Lemma skip_existing_results_run env repo_id repo_type results w :
  let r := skip_existing_results env repo_id repo_type results w in
  files r.1 = files w /\
  emits (index_lookup env repo_id repo_type) w r.1 /\
  match r.2 with
  | Ok (inl v) => v = None
  | Ok (inr kept_value) =>
      exists candidates w1 idx kept,
        py_iter results = Ok candidates /\
        get_existing_eval_results env repo_id repo_type w = (w1, Ok idx) /\
        (reconcile candidates idx tt).2 = Ok kept /\
        kept_value = PList kept
  | Raise _ => True
  end.
Proof.
  cbv zeta. pattern (skip_existing_results env repo_id repo_type results w).
  match goal with |- ?P _ => set (Q := P) end.
  unfold skip_existing_results.
  destruct (get_existing_eval_results_run env repo_id repo_type w) as [w1 Hrun].
  pose proof (get_existing_eval_results_emits env repo_id repo_type w) as He1.
  pose proof (get_existing_eval_results_looks env repo_id repo_type w) as [Hf1 _].
  rewrite Hrun in He1, Hf1. cbn [fst] in He1, Hf1.
  rewrite (bind_ok _ _ _ _ _ Hrun).
  set (idx := (scan_prs env repo_id repo_type
                 (scan_main env repo_id repo_type (w, [])).1).1.2) in *.
  destruct (print_report_run env repo_id idx w1) as (w2 & Hrep & Hf2 & He2).
  rewrite (bind_ok _ _ _ _ _ Hrep).
  assert (He : emits (index_lookup env repo_id repo_type) w w2).
  { etransitivity; [exact He1|]. eapply emits_weaken; [|exact He2].
    intros ev [line ->]. exact I. }
  assert (Hf : files w2 = files w) by congruence.
  unfold bind at 1, lift_outcome at 1.
  destruct (py_len results) as [n|e]; [|subst Q; cbn; now repeat split].
  unfold bind at 1, lift_outcome at 1.
  destruct (py_iter results) as [candidates|e] eqn:Hiter;
    [|subst Q; cbn; now repeat split].
  unfold bind at 1. rewrite (reconcile_pure candidates idx w2).
  destruct (reconcile candidates idx tt).2 as [kept|e] eqn:Hk;
    [|subst Q; cbn; now repeat split].
  subst Q. cbv beta. unfold bind, print, ret.
  assert (Hprint : forall line, emits (index_lookup env repo_id repo_type) w
                                  (log (Print line) w2)).
  { intros line. etransitivity; [exact He|]. now apply emits_log. }
  destruct (0 <? n - Z.of_nat (length kept)); destruct kept as [|x kept];
    cbn [fst snd]; repeat split; try assumption; try apply Hprint;
    try (etransitivity; [apply Hprint|]; now apply emits_log);
    try (exists candidates, w1, idx, (x :: kept); now repeat split).
Qed.

(** The trace of a run of [create_eval_results_pr]: lookups; then, if
    the run gets that far, the creation of the staging directory, the
    staging loop, an error line or the end of the submission, and the
    removals. *)
Lemma create_eval_results_pr_trace
    env repo_id evaluation_results repo_type skip_existing w :
  let temp_dir := staging_dir env repo_id in
  let r := create_eval_results_pr env repo_id evaluation_results repo_type
             skip_existing w in
  exists pre,
    Forall (index_lookup env repo_id repo_type) pre /\
    ((trace r.1 = trace w ++ pre /\ files r.1 = files w /\
      (r.2 = Ok None \/ exists e, r.2 = Raise e)) \/
     (exists e, trace r.1 = trace w ++ pre ++ [Makedirs temp_dir] /\
                files r.1 = files w /\ r.2 = Raise e) \/
     (exists loop_events tail paths,
        trace r.1 = trace w ++ pre ++ [Makedirs temp_dir] ++ loop_events ++
                    tail ++ map Remove paths ++ [Rmdir temp_dir] /\
        Forall (stage_event env temp_dir (candidates_of evaluation_results))
          loop_events /\
        Forall (yaml_in temp_dir) paths /\
        ((exists e, tail = [error_line repo_id e] /\ r.2 = Raise e) \/
         (exists items,
            items `sublist_of` candidates_of evaluation_results /\
            selected env repo_id repo_type skip_existing w
              (candidates_of evaluation_results) items /\
            paths = map (path_for env temp_dir) (string_ids items) /\
            submission env repo_id repo_type temp_dir (string_ids items)
              tail r.2)))).
Proof.
  intros temp_dir. cbv zeta.
  pattern (create_eval_results_pr env repo_id evaluation_results repo_type
             skip_existing w).
  match goal with |- ?P _ => set (Q := P) end.
  unfold create_eval_results_pr. fold temp_dir.
  unfold bind at 1, lift_outcome at 1. unfold candidates_of, iterated in Q.
  destruct (py_get evaluation_results "evaluation_results" (PList []))
    as [results|e].
  2:{ subst Q; cbv beta. exists []. split; [constructor|]. apply or_introl. cbn.
      rewrite app_nil_r. eauto. }
  destruct (truthy results); cbn [negb].
  2:{ subst Q; cbv beta.
      exists [Print ("No evaluation results to submit for " +:+ repo_id)].
      split; [repeat constructor|]. apply or_introl. cbn. eauto. }
  assert (Hpre : exists w1 pre o,
            (if skip_existing
             then skip_existing_results env repo_id repo_type results
             else ret (inr results)) w = (w1, o) /\
            trace w1 = trace w ++ pre /\ files w1 = files w /\
            Forall (index_lookup env repo_id repo_type) pre /\
            match o with
            | Ok (inl v) => v = None
            | Ok (inr results') =>
                forall items, py_iter results' = Ok items ->
                  exists candidates, py_iter results = Ok candidates /\
                    items `sublist_of` candidates /\
                    selected env repo_id repo_type skip_existing w
                      candidates items
            | Raise _ => True
            end).
  { destruct skip_existing.
    - pose proof (skip_existing_results_run env repo_id repo_type results w)
        as (Hf & (pre & Ht & Hq) & Ho).
      destruct (skip_existing_results _ _ _ _ w) as [w1 o].
      exists w1, pre, o. cbn [fst snd] in *. repeat split; try assumption.
      destruct o as [[v|results']|e]; try assumption.
      destruct Ho as (candidates & w' & idx & kept & Hi & Hidx & Hk & ->).
      intros items [= <-]. exists candidates. split; [exact Hi|].
      split; [eapply reconcile_sublist, Hk|]. exists w', idx. now split.
    - exists w, [], (Ok (inr results)). rewrite app_nil_r.
      repeat split; [constructor|]. intros items Hi. exists items.
      split; [exact Hi|]. split; reflexivity. }
  destruct Hpre as (w1 & pre & o & Hrun & Ht & Hf & Hq & Ho).
  unfold bind at 1. rewrite Hrun.
  destruct o as [[v|results']|e].
  - subst Q v; cbv beta. exists pre. split; [exact Hq|]. apply or_introl. cbn. eauto.
  - unfold bind, os_makedirs.
    destruct (fs_makedirs_fault env (trace w1) temp_dir) as [e|].
    + subst Q; cbv beta. exists pre. split; [exact Hq|]. apply or_intror. apply or_introl. exists e. cbn.
      rewrite Ht, <- app_assoc. eauto.
    + pose proof (stage_and_submit_trace env repo_id repo_type temp_dir results'
                    (log (Makedirs temp_dir) w1))
        as (loop_events & tail & paths & Htr & Hl & Hp & Hcase).
      pose proof (stage_and_submit_cleaned_up env repo_id repo_type temp_dir
                    results' (log (Makedirs temp_dir) w1)) as _.
      subst Q; cbv beta. exists pre. split; [exact Hq|]. apply or_intror. apply or_intror.
      exists loop_events, tail, paths. cbv zeta in Htr, Hcase.
      split; [|split; [|split; [exact Hp|]]]; [|clear Hcase|].
      * rewrite Htr. cbn [log trace]. rewrite Ht. now rewrite <- !app_assoc.
      * eapply Forall_impl; [exact Hl|]. intros ev.
        apply stage_event_mono. intros x Hx. unfold iterated in Hx.
        destruct (py_iter results') as [items|e] eqn:Hi; [|inversion Hx].
        destruct (Ho items eq_refl) as (candidates & -> & Hs & _).
        eapply elem_of_sublist; eassumption.
      * destruct Hcase as [Herr|(items & Hi & -> & Hsub)]; [now apply or_introl|apply or_intror].
        destruct (Ho items Hi) as (candidates & -> & Hs & Heq).
        exists items. repeat split; assumption.
  - subst Q; cbv beta. exists pre. split; [exact Hq|]. apply or_introl. cbn. eauto.
Qed.

(** *** What a run of the submitter shows *)

(** Equations between traces, up to the association of [++]. *)
Ltac trace_eq :=
  repeat (progress (rewrite <- ?app_assoc; cbn [app])); reflexivity.

Lemma index_lookup_submitter env repo_id repo_type ev :
  index_lookup env repo_id repo_type ev ->
  submitter_event env repo_id repo_type ev.
Proof. destruct ev; cbn; tauto. Qed.

Lemma stage_event_submitter env repo_id repo_type items ev :
  stage_event env (staging_dir env repo_id) items ev ->
  submitter_event env repo_id repo_type ev.
Proof.
  destruct ev; try (cbn; tauto). intros H. cbn.
  eapply stage_event_yaml_in, H.
Qed.

Lemma index_lookup_no_commit env repo_id repo_type ev :
  index_lookup env repo_id repo_type ev -> no_commit ev.
Proof. destruct ev; cbn; solve [reflexivity | tauto]. Qed.

Lemma stage_event_no_commit env temp_dir items ev :
  stage_event env temp_dir items ev -> no_commit ev.
Proof. destruct ev; cbn; solve [reflexivity | tauto]. Qed.

Lemma removes_no_commit paths : Forall no_commit (map Remove paths).
Proof. induction paths; constructor; [reflexivity | assumption]. Qed.

Lemma filter_no_commit evs : Forall no_commit evs -> List.filter is_commit evs = [].
Proof.
  induction 1 as [|ev evs Hev _ IH]; [reflexivity|].
  cbn [List.filter]. unfold no_commit in Hev. now rewrite Hev.
Qed.

Lemma submission_cases env repo_id repo_type temp_dir ids tail o :
  submission env repo_id repo_type temp_dir ids tail o ->
  (ids = [] /\
   tail = [Print ("No valid evaluation results to submit for " +:+ repo_id)] /\
   o = Ok None) \/
  (ids <> [] /\
   ((exists pr_url,
       commit_answer env repo_id repo_type temp_dir ids = Ok pr_url /\
       tail = [commit_of env repo_id repo_type temp_dir ids;
               Print ("PR created successfully at " +:+ repo_id +:+ ": " +:+
                      pr_url)] /\
       o = Ok (Some pr_url)) \/
    (exists e,
       commit_answer env repo_id repo_type temp_dir ids = Raise e /\
       tail = [commit_of env repo_id repo_type temp_dir ids; error_line repo_id e] /\
       o = Raise e))).
Proof.
  unfold submission, commit_answer. destruct ids as [|id ids].
  - intros [-> ->]. now left.
  - intros H. right. split; [discriminate|].
    destruct (hub_create_commit _ _ _ _ _ _ _) as [pr_url|e];
      destruct H as [-> ->]; [left|right]; eauto.
Qed.

(** The events of a run of [create_eval_results_pr]. *)
Lemma create_eval_results_pr_events
    env repo_id evaluation_results repo_type skip_existing w :
  emits (submitter_event env repo_id repo_type) w
    (create_eval_results_pr env repo_id evaluation_results repo_type
       skip_existing w).1.
Proof.
  destruct (create_eval_results_pr_trace env repo_id evaluation_results
              repo_type skip_existing w) as (pre & Hq & Hcase).
  cbv zeta in Hcase.
  set (r := create_eval_results_pr env repo_id evaluation_results repo_type
              skip_existing w) in *.
  set (temp_dir := staging_dir env repo_id) in *.
  assert (Hpre : Forall (submitter_event env repo_id repo_type) pre).
  { eapply Forall_impl; [exact Hq|]. apply index_lookup_submitter. }
  destruct Hcase as [(Ht & _)|[(e & Ht & _)
                    |(loop_events & tail & paths & Ht & Hl & Hp & Hc)]];
    (eexists; split; [exact Ht|]).
  - exact Hpre.
  - apply Forall_app. split; [exact Hpre|]. now repeat constructor.
  - assert (Htail : Forall (submitter_event env repo_id repo_type) tail).
    { destruct Hc as [(e & -> & _)|(items & _ & _ & _ & Hsub)].
      - now repeat constructor.
      - apply submission_cases in Hsub.
        destruct Hsub as [(_ & -> & _)|[_ [(u & _ & -> & _)|(e & _ & -> & _)]]];
          now repeat constructor. }
    repeat (apply Forall_app; split); try assumption.
    + now repeat constructor.
    + eapply Forall_impl; [exact Hl|]. apply stage_event_submitter.
    + apply Forall_map. eapply Forall_impl; [exact Hp|]. intros p Hy. exact Hy.
    + now repeat constructor.
Qed.

(** X4: whatever its arguments and the state of the Hub and of the file
    system, [create_eval_results_pr] looks only as the index builder
    does, creates and removes no directory but its staging directory,
    writes and removes only [.yaml] files directly in it, and commits to
    the given repository only as a pull request. *)
Theorem submitter_stays_in_its_staging_directory
    env repo_id evaluation_results repo_type skip_existing w :
  Forall (submitter_event env repo_id repo_type)
    (new_events w
       (create_eval_results_pr env repo_id evaluation_results repo_type
          skip_existing w).1).
Proof. apply emits_new_events, create_eval_results_pr_events. Qed.

(** The commits of a run: none, and then the routine returns [None] or
    raises; or exactly one, of the candidates with a non-empty string id
    that the staging loop was given, and the outcome of the routine is
    the Hub's answer to it. *)
Lemma create_eval_results_pr_commits
    env repo_id evaluation_results repo_type skip_existing w :
  let temp_dir := staging_dir env repo_id in
  let r := create_eval_results_pr env repo_id evaluation_results repo_type
             skip_existing w in
  exists before after,
    Forall no_commit before /\ Forall no_commit after /\
    ((trace r.1 = trace w ++ before ++ after /\
      (r.2 = Ok None \/ exists e, r.2 = Raise e)) \/
     (exists items,
        items `sublist_of` candidates_of evaluation_results /\
        selected env repo_id repo_type skip_existing w
          (candidates_of evaluation_results) items /\
        string_ids items <> [] /\
        trace r.1 =
          trace w ++ before ++
          commit_of env repo_id repo_type temp_dir (string_ids items) :: after /\
        r.2 = match commit_answer env repo_id repo_type temp_dir
                      (string_ids items) with
              | Ok pr_url => Ok (Some pr_url)
              | Raise e => Raise e
              end)).
Proof.
  intros temp_dir r.
  destruct (create_eval_results_pr_trace env repo_id evaluation_results
              repo_type skip_existing w) as (pre & Hq & Hcase).
  cbv zeta in Hcase. fold temp_dir r in Hcase.
  assert (Hpre : Forall no_commit pre).
  { eapply Forall_impl; [exact Hq|]. apply index_lookup_no_commit. }
  destruct Hcase as [(Ht & _ & Ho)|[(e & Ht & _ & Ho)
                    |(loop_events & tail & paths & Ht & Hl & Hp & Hc)]].
  - exists pre, []. split; [exact Hpre|]. split; [constructor|]. left.
    split; [|exact Ho]. now rewrite app_nil_r.
  - exists (pre ++ [Makedirs temp_dir]), [].
    split; [apply Forall_app; split; [exact Hpre|now repeat constructor]|].
    split; [constructor|]. left. split; [|eauto].
    rewrite app_nil_r. rewrite Ht. trace_eq.
  - assert (Hloop : Forall no_commit loop_events).
    { eapply Forall_impl; [exact Hl|]. apply stage_event_no_commit. }
    pose proof (removes_no_commit paths) as Hrm.
    assert (Hend : Forall no_commit (map Remove paths ++ [Rmdir temp_dir])).
    { apply Forall_app. split; [exact Hrm|now repeat constructor]. }
    assert (Hquiet : forall line,
              tail = [Print line] ->
              exists before after,
                Forall no_commit before /\ Forall no_commit after /\
                trace r.1 = trace w ++ before ++ after).
    { intros line ->.
      exists (pre ++ [Makedirs temp_dir] ++ loop_events ++ [Print line]),
             (map Remove paths ++ [Rmdir temp_dir]).
      split; [|split; [exact Hend|]].
      - repeat (apply Forall_app; split); try assumption; now repeat constructor.
      - rewrite Ht. trace_eq. }
    assert (Hcommit : forall ids line,
              tail = [commit_of env repo_id repo_type temp_dir ids; Print line] ->
              exists before after,
                Forall no_commit before /\ Forall no_commit after /\
                trace r.1 =
                  trace w ++ before ++
                  commit_of env repo_id repo_type temp_dir ids :: after).
    { intros ids line ->.
      exists (pre ++ [Makedirs temp_dir] ++ loop_events),
             (Print line :: map Remove paths ++ [Rmdir temp_dir]).
      split; [|split].
      - repeat (apply Forall_app; split); try assumption; now repeat constructor.
      - constructor; [reflexivity|exact Hend].
      - rewrite Ht. trace_eq. }
    destruct Hc as [(e & He & Ho)|(items & Hs & Heq & -> & Hsub)].
    + destruct (Hquiet _ He) as (before & after & Hb & Ha & Hev).
      exists before, after. split; [exact Hb|]. split; [exact Ha|]. left. eauto.
    + apply submission_cases in Hsub.
      destruct Hsub as [(_ & Htail & Ho)
                       |[Hne [(u & Hans & Htail & Ho)|(e & Hans & Htail & Ho)]]].
      * destruct (Hquiet _ Htail) as (before & after & Hb & Ha & Hev).
        exists before, after. split; [exact Hb|]. split; [exact Ha|]. left. eauto.
      * destruct (Hcommit _ _ Htail) as (before & after & Hb & Ha & Hev).
        exists before, after. split; [exact Hb|]. split; [exact Ha|]. right.
        exists items. rewrite Hans. now repeat split.
      * destruct (Hcommit _ _ Htail) as (before & after & Hb & Ha & Hev).
        exists before, after. split; [exact Hb|]. split; [exact Ha|]. right.
        exists items. rewrite Hans. now repeat split.
Qed.

(** X5: a run of [create_eval_results_pr] commits at most once, and what
    it commits is determined by the candidates: one add-file operation
    per candidate with a non-empty string id among those that reach the
    staging loop (all the candidates when [skip_existing] is off, those
    that the comprehension keeps against the index otherwise), in the
    candidates' order, with the title and the description built from the
    same ids, as a pull request. *)
Theorem at_most_one_commit_of_the_staged_ids
    env repo_id evaluation_results repo_type skip_existing w :
  let commits :=
    List.filter is_commit
      (new_events w
         (create_eval_results_pr env repo_id evaluation_results repo_type
            skip_existing w).1) in
  commits = [] \/
  exists items,
    items `sublist_of` candidates_of evaluation_results /\
    selected env repo_id repo_type skip_existing w
      (candidates_of evaluation_results) items /\
    string_ids items <> [] /\
    commits = [commit_of env repo_id repo_type (staging_dir env repo_id)
                 (string_ids items)].
Proof.
  intros commits. subst commits.
  destruct (create_eval_results_pr_commits env repo_id evaluation_results
              repo_type skip_existing w)
    as (before & after & Hb & Ha & [[Ht _]|(items & Hs & Hsel & Hne & Ht & _)]);
    cbv zeta in Ht; rewrite (new_events_app _ _ _ Ht).
  - left. rewrite List.filter_app, !filter_no_commit by assumption. reflexivity.
  - right. exists items. split; [exact Hs|]. split; [exact Hsel|].
    split; [exact Hne|].
    rewrite List.filter_app. cbn [List.filter commit_of is_commit].
    now rewrite !filter_no_commit by assumption.
Qed.

Lemma no_commit_not_in evs r ops msg descr create_pr t :
  Forall no_commit evs -> CreateCommit r ops msg descr create_pr t ∉ evs.
Proof.
  intros H Hin. rewrite Forall_forall in H. specialize (H _ Hin). discriminate.
Qed.

(** X6: [create_eval_results_pr] returns a URL exactly when its run made
    a commit that the Hub answered with that URL; the URL is never made
    up, and a successful commit is never answered with [None]. *)
Theorem returned_url_is_the_commits
    env repo_id evaluation_results repo_type skip_existing w pr_url :
  let r := create_eval_results_pr env repo_id evaluation_results repo_type
             skip_existing w in
  r.2 = Ok (Some pr_url) <->
  exists ops msg descr,
    CreateCommit repo_id ops msg descr true repo_type ∈ new_events w r.1 /\
    hub_create_commit env repo_id ops msg descr true repo_type = Ok pr_url.
Proof.
  intros r.
  destruct (create_eval_results_pr_commits env repo_id evaluation_results
              repo_type skip_existing w)
    as (before & after & Hb & Ha & Hcase).
  cbv zeta in Hcase. fold r in Hcase.
  destruct Hcase as [[Hev Ho]|(items & _ & _ & _ & Hev & Ho)];
    rewrite (new_events_app _ _ _ Hev).
  - split.
    + intros H. rewrite H in Ho. destruct Ho as [?|[e ?]]; discriminate.
    + intros (ops & msg & descr & Hin & _). exfalso.
      apply elem_of_app in Hin as [Hin|Hin];
        eapply no_commit_not_in in Hin; eassumption.
  - unfold commit_answer in Ho. split.
    + intros H. rewrite H in Ho. eexists _, _, _. split.
      * apply elem_of_app. right. left.
      * destruct (hub_create_commit _ _ _ _ _ _ _); congruence.
    + intros (ops & msg & descr & Hin & Hans).
      apply elem_of_app in Hin as [Hin|Hin];
        [exfalso; eapply no_commit_not_in in Hin; eassumption|].
      apply elem_of_cons in Hin as [Heq|Hin];
        [|exfalso; eapply no_commit_not_in in Hin; eassumption].
      unfold commit_of in Heq. injection Heq as -> -> ->.
      rewrite Ho, Hans. reflexivity.
Qed.

(** X7: once the staging directory exists, an exception never leaves
    [create_eval_results_pr] silently: the exception that the routine
    raises is the one whose line "Error creating PR for ..." was
    printed, after the staging and before the removals, which are the
    last events of the run. *)
Theorem errors_after_staging_are_logged
    env repo_id repo_type temp_dir results w e :
  let r := stage_and_submit env repo_id repo_type temp_dir results w in
  r.2 = Raise e ->
  exists before paths,
    new_events w r.1 =
      before ++ error_line repo_id e :: map Remove paths ++ [Rmdir temp_dir].
Proof.
  intros r Hr.
  destruct (stage_and_submit_trace env repo_id repo_type temp_dir results w)
    as (loop_events & tail & paths & Ht & _ & _ & Hc).
  cbv zeta in Ht, Hc. fold r in Ht, Hc.
  destruct Hc as [(e' & -> & Ho)|(items & _ & _ & Hsub)].
  - assert (e' = e) as -> by congruence.
    exists loop_events, paths. apply new_events_app. rewrite Ht. trace_eq.
  - apply submission_cases in Hsub.
    destruct Hsub as [(_ & _ & Ho)
                     |[_ [(u & _ & _ & Ho)|(e' & _ & -> & Ho)]]];
      try congruence.
    assert (e' = e) as -> by congruence.
    exists (loop_events ++
            [commit_of env repo_id repo_type temp_dir (string_ids items)]), paths.
    apply new_events_app. rewrite Ht. trace_eq.
Qed.

Lemma errors_after_staging_are_logged_witness :
  exists before paths,
    new_events Demo.w0
      (stage_and_submit Demo.hub "acme/model-x" "model" "/app/outputs/temp"
         (PInt 5) Demo.w0).1 =
    before ++
    error_line "acme/model-x" (TypeError "'int' object is not iterable")
    :: map Remove paths ++ [Rmdir "/app/outputs/temp"].
Proof.
  apply (errors_after_staging_are_logged Demo.hub "acme/model-x" "model"
           "/app/outputs/temp" (PInt 5) Demo.w0
           (TypeError "'int' object is not iterable")).
  vm_compute. reflexivity.
Defined.

Lemma stage_result_skip env temp_dir r w l :
  lacks_id r = true ->
  stage_result env temp_dir r (w, l) = ((log (skip_warning env r) w, l), Ok tt).
Proof.
  unfold lacks_id, stage_result, bind, lift_outcome, lift_w, print, skip_warning.
  destruct (py_get r "dataset" (PDict [])) as [dataset|]; [|discriminate].
  destruct (py_get dataset "id" (PStr "")) as [v|]; [|discriminate].
  intros ->. reflexivity.
Qed.

Lemma stage_loop_skips env temp_dir items w l :
  forallb lacks_id items = true ->
  for_each (stage_result env temp_dir) items (w, l) =
    (({| files := files w;
         trace := trace w ++ map (skip_warning env) items |}, l), Ok tt).
Proof.
  revert w. induction items as [|r items IH]; intros w H.
  - cbn. rewrite app_nil_r. now destruct w.
  - cbn [forallb] in H. apply andb_prop in H as [Hr H].
    cbn [for_each]. unfold bind. rewrite (stage_result_skip _ _ _ _ _ Hr).
    rewrite IH by assumption. cbn. now rewrite <- app_assoc.
Qed.

(** X8: candidates without a dataset id are never submitted.  When
    every candidate is an object whose dataset id is missing or falsy
    (and the index is not consulted), the routine creates its staging
    directory, prints one warning per candidate, in order, prints that
    there is nothing valid to submit, removes the directory and returns
    [None]: nothing is written and nothing is committed. *)
Theorem records_without_id_are_not_submitted
    env repo_id evaluation_results repo_type items w :
  py_get evaluation_results "evaluation_results" (PList []) = Ok (PList items) ->
  items <> [] ->
  forallb lacks_id items = true ->
  fs_makedirs_fault env (trace w) (staging_dir env repo_id) = None ->
  let r := create_eval_results_pr env repo_id evaluation_results repo_type
             false w in
  r.2 = Ok None /\
  files r.1 = files w /\
  new_events w r.1 =
    Makedirs (staging_dir env repo_id) :: map (skip_warning env) items ++
    [Print ("No valid evaluation results to submit for " +:+ repo_id);
     Rmdir (staging_dir env repo_id)].
Proof.
  intros Hget Hne Hall Hmk.
  assert (Hrun : create_eval_results_pr env repo_id evaluation_results
                   repo_type false w =
                 ({| files := files w;
                     trace := trace w ++
                       Makedirs (staging_dir env repo_id) ::
                       map (skip_warning env) items ++
                       [Print ("No valid evaluation results to submit for " +:+
                               repo_id);
                        Rmdir (staging_dir env repo_id)] |}, Ok None)).
  { unfold create_eval_results_pr, bind, lift_outcome, ret, os_makedirs.
    rewrite Hget.
    replace (truthy (PList items)) with true by now destruct items.
    cbn [negb]. rewrite Hmk. unfold stage_and_submit, with_locals, try_finally.
    rewrite submit_body_run. cbn [py_iter fst snd].
    rewrite (stage_loop_skips _ _ _ _ _ Hall).
    cbn [fst snd no_locals operations temp_files].
    unfold cleanup, bind, get_local, try_except_when, lift_w, os_rmdir.
    cbn [fst snd no_locals temp_files for_each ret].
    destruct (fs_rmdir_fault env _ _); cbn; unfold log; cbn [files trace];
      f_equal; f_equal; trace_eq. }
  intros r. subst r. rewrite Hrun. cbn [fst snd files].
  split; [reflexivity|]. split; [reflexivity|]. now apply new_events_app.
Qed.

Lemma records_without_id_are_not_submitted_witness :
  let items := [PDict [("value", PInt 3)];
                PDict [("dataset", PDict [("id", PStr "")])]] in
  let r := create_eval_results_pr Demo.hub "acme/model-x"
             (PDict [("evaluation_results", PList items)]) "model" false
             Demo.w0 in
  r.2 = Ok None /\
  files r.1 = files Demo.w0 /\
  new_events Demo.w0 r.1 =
    Makedirs (staging_dir Demo.hub "acme/model-x") ::
    map (skip_warning Demo.hub) items ++
    [Print ("No valid evaluation results to submit for " +:+ "acme/model-x");
     Rmdir (staging_dir Demo.hub "acme/model-x")].
Proof.
  intros items.
  apply (records_without_id_are_not_submitted Demo.hub "acme/model-x"
           (PDict [("evaluation_results", PList items)]) "model" items Demo.w0).
  - reflexivity.
  - discriminate.
  - reflexivity.
  - reflexivity.
Defined.

(** ** The document fetcher *)

(** A run of [fetch_huggingface_readme]. *)
Lemma fetch_huggingface_readme_run env repo_id repo_type w :
  let r := fetch_huggingface_readme env repo_id repo_type w in
  let download := hub_download env repo_id "README.md" repo_type None in
  files r.1 = files w /\
  (exists o, r.2 = Ok o /\
     forall text,
       o = Some text <->
       exists path, download = Ok path /\ fs_read_text env path = Ok text) /\
  exists rest,
    trace r.1 =
      trace w ++ HfHubDownload repo_id "README.md" repo_type None :: rest /\
    match download with
    | Ok path =>
        match fs_read_text env path with
        | Ok _ => rest = [OpenRead path]
        | Raise _ => exists line, rest = [OpenRead path; Print line]
        end
    | Raise _ => exists line, rest = [Print line]
    end.
Proof.
  intros r download. subst r download.
  unfold fetch_huggingface_readme, bind, try_except, hf_hub_download,
    read_file, ret, print.
  destruct (hub_download env repo_id "README.md" repo_type None) as [path|e].
  - cbn [fst snd]. destruct (fs_read_text env path) as [text|e] eqn:Hread.
    + cbn. split; [reflexivity|]. split.
      * exists (Some text). split; [reflexivity|]. intros text'. split.
        -- intros [= <-]. eauto.
        -- intros (path' & [= <-] & Hr). congruence.
      * exists [OpenRead path]. split; [|reflexivity].
        cbn. trace_eq.
    + cbn. split; [reflexivity|]. split.
      * exists None. split; [reflexivity|]. intros text. split; [discriminate|].
        intros (path' & [= <-] & Hr). congruence.
      * eexists [OpenRead path; Print _]. split; [|eexists; reflexivity].
        cbn. trace_eq.
  - assert (Hnone : forall o : option string,
              (forall text : string,
                 None = Some text <->
                 exists path, @Raise string e = Ok path /\
                              fs_read_text env path = Ok text)).
    { intros _ text. split; [discriminate|]. intros (path & Hp & _). discriminate. }
    destruct e as [status_code msg|msg|msg|msg|msg];
      [destruct (status_code =? 404)|..]; cbn;
      (split; [reflexivity|]);
      (split; [exists None; split; [reflexivity|apply (Hnone None)]|]);
      (eexists [Print _]; split; [|eexists; reflexivity]);
      cbn; trace_eq.
Qed.

(** X9: [fetch_huggingface_readme] never raises and changes no file; it
    downloads [README.md] of the main branch once, reads nothing but the
    path the download gave, and returns a text exactly when both the
    download and the read succeed, the text being what was read; every
    failure is one printed line and [None]. *)
Theorem fetch_returns_what_was_read env repo_id repo_type w :
  let r := fetch_huggingface_readme env repo_id repo_type w in
  let download := hub_download env repo_id "README.md" repo_type None in
  files r.1 = files w /\
  (exists o, r.2 = Ok o /\
     forall text,
       o = Some text <->
       exists path, download = Ok path /\ fs_read_text env path = Ok text) /\
  exists rest,
    new_events w r.1 =
      HfHubDownload repo_id "README.md" repo_type None :: rest /\
    match download with
    | Ok path =>
        match fs_read_text env path with
        | Ok _ => rest = [OpenRead path]
        | Raise _ => exists line, rest = [OpenRead path; Print line]
        end
    | Raise _ => exists line, rest = [Print line]
    end.
Proof.
  intros r download.
  destruct (fetch_huggingface_readme_run env repo_id repo_type w)
    as (Hf & Ho & rest & Ht & Hrest).
  split; [exact Hf|]. split; [exact Ho|]. exists rest.
  split; [now apply new_events_app|exact Hrest].
Qed.

(** ** Candidates and the index *)

Lemma not_in_existing_malformed existing r :
  is_record r = false ->
  exists e, (@not_in_existing unit existing r tt).2 = Raise e /\
            ((exists msg, e = AttributeError msg) \/ (exists msg, e = TypeError msg)).
Proof.
  unfold is_record, not_in_existing, bind, lift_outcome, ret.
  destruct r as [| | | | | |d];
    try (intros _; eexists; split; [reflexivity|left; eauto]).
  cbn [py_get].
  destruct (default (PDict []) (assoc "dataset" d)) as [| | | | | |ds];
    try (intros _; eexists; split; [reflexivity|left; eauto]).
  cbn [py_get].
  destruct (default PNone (assoc "id" ds)); try discriminate;
    intros _; eexists; (split; [reflexivity|right; eauto]).
Qed.

Lemma reconcile_malformed candidates existing :
  Exists (fun r => is_record r = false) candidates ->
  exists e, (@reconcile unit candidates existing tt).2 = Raise e /\
            ((exists msg, e = AttributeError msg) \/ (exists msg, e = TypeError msg)).
Proof.
  unfold reconcile. induction candidates as [|r l IH]; intros Hex.
  - inversion Hex.
  - cbn [filter_m]. unfold bind at 1.
    destruct (is_record r) eqn:Hr.
    + rewrite (not_in_existing_record _ _ _ Hr).
      apply Exists_cons in Hex as [Hex|Hex]; [congruence|].
      destruct (IH Hex) as (e & He & Hkind). exists e. split; [|exact Hkind].
      unfold bind. destruct (filter_m _ l tt) as [[] o]. cbn in He. now subst o.
    + destruct (not_in_existing_malformed existing r Hr) as (e & He & Hkind).
      exists e. split; [|exact Hkind].
      destruct (not_in_existing existing r tt) as [[] o]. cbn in He. now subst o.
Qed.

(** X10: with [skip_existing] on, a candidate that is not an object, or
    whose [dataset] is not an object, or whose dataset id is a list or
    an object, makes the comprehension of [create_eval_results_pr]
    raise: the routine raises an [AttributeError] or a [TypeError]
    outside its [try], having only looked as the index builder does;
    the staging directory is not created and no file is changed. *)
Theorem malformed_candidate_aborts_before_staging
    env repo_id evaluation_results repo_type results candidates w :
  py_get evaluation_results "evaluation_results" (PList []) = Ok results ->
  py_iter results = Ok candidates ->
  Exists (fun r => is_record r = false) candidates ->
  let r := create_eval_results_pr env repo_id evaluation_results repo_type
             true w in
  (exists e, r.2 = Raise e /\
             ((exists msg, e = AttributeError msg) \/
              (exists msg, e = TypeError msg))) /\
  files r.1 = files w /\
  Forall (index_lookup env repo_id repo_type) (new_events w r.1).
Proof.
  intros Hget Hiter Hex.
  assert (Htruthy : truthy results = true).
  { destruct results as [| | | |s|l|d]; try discriminate; cbn in Hiter.
    - injection Hiter as <-. destruct s; [inversion Hex|reflexivity].
    - injection Hiter as <-. destruct l; [inversion Hex|reflexivity].
    - injection Hiter as <-. destruct d; [inversion Hex|reflexivity]. }
  assert (Hlen : exists n, py_len results = Ok n).
  { destruct results; try discriminate; cbn; eauto. }
  destruct Hlen as [n Hlen].
  destruct (get_existing_eval_results_run env repo_id repo_type w) as [w1 Hrun].
  pose proof (get_existing_eval_results_emits env repo_id repo_type w) as He1.
  pose proof (get_existing_eval_results_looks env repo_id repo_type w) as [Hf1 _].
  rewrite Hrun in He1, Hf1. cbn [fst] in He1, Hf1.
  set (idx := (scan_prs env repo_id repo_type
                 (scan_main env repo_id repo_type (w, [])).1).1.2) in *.
  destruct (print_report_run env repo_id idx w1) as (w2 & Hrep & Hf2 & He2).
  destruct (reconcile_malformed candidates idx Hex) as (e & He & Hkind).
  assert (Hr : create_eval_results_pr env repo_id evaluation_results repo_type
                 true w = (w2, Raise e)).
  { unfold create_eval_results_pr. unfold bind at 1, lift_outcome at 1.
    rewrite Hget, Htruthy. cbn [negb]. unfold bind at 1.
    unfold skip_existing_results.
    rewrite (bind_ok _ _ _ _ _ Hrun), (bind_ok _ _ _ _ _ Hrep).
    unfold bind at 1, lift_outcome at 1. rewrite Hlen.
    unfold bind at 1, lift_outcome at 1. rewrite Hiter.
    unfold bind at 1. rewrite (reconcile_pure candidates idx w2), He.
    reflexivity. }
  intros r. subst r. rewrite Hr. cbn [fst snd].
  split; [eauto|]. split; [congruence|].
  apply emits_new_events. etransitivity; [exact He1|].
  eapply emits_weaken; [|exact He2]. intros ev [line ->]. exact I.
Qed.

Lemma malformed_candidate_aborts_before_staging_witness :
  let candidates := [Demo.record "openai/gsm8k" 3; PStr "mmlu: 71.3"] in
  let r := create_eval_results_pr Demo.hub "acme/model-x"
             (PDict [("evaluation_results", PList candidates)]) "model"
             true Demo.w0 in
  (exists e, r.2 = Raise e /\
             ((exists msg, e = AttributeError msg) \/
              (exists msg, e = TypeError msg))) /\
  files r.1 = files Demo.w0 /\
  Forall (index_lookup Demo.hub "acme/model-x" "model") (new_events Demo.w0 r.1).
Proof.
  intros candidates.
  apply (malformed_candidate_aborts_before_staging Demo.hub "acme/model-x"
           (PDict [("evaluation_results", PList candidates)]) "model"
           (PList candidates) candidates Demo.w0).
  - reflexivity.
  - reflexivity.
  - right. left. reflexivity.
Defined.

Lemma filter_all_known (existing : index) candidates :
  Forall (fun r => is_key_of (dataset_id r) existing = true) candidates ->
  filter (fun r => is_key_of (dataset_id r) existing = false) candidates = [].
Proof.
  induction 1 as [|r l Hr _ IH]; [reflexivity|].
  rewrite filter_cons_False by congruence. exact IH.
Qed.

(** X11: with [skip_existing] on, when every candidate is a record whose
    dataset id is a key of the index that the builder returns, the
    routine reports the index, prints how many candidates it skips
    (all of them) and that nothing is left, and returns [None]; it
    creates no directory, writes nothing and commits nothing. *)
Theorem known_candidates_are_not_resubmitted
    env repo_id evaluation_results repo_type candidates w w1 idx :
  py_get evaluation_results "evaluation_results" (PList []) =
    Ok (PList candidates) ->
  candidates <> [] ->
  get_existing_eval_results env repo_id repo_type w = (w1, Ok idx) ->
  Forall (fun r => is_record r = true) candidates ->
  Forall (fun r => is_key_of (dataset_id r) idx = true) candidates ->
  let r := create_eval_results_pr env repo_id evaluation_results repo_type
             true w in
  r.2 = Ok None /\
  files r.1 = files w /\
  Forall (index_lookup env repo_id repo_type) (new_events w r.1) /\
  exists report,
    trace r.1 =
      trace w1 ++ report ++
      [Print ("Skipping " +:+ pretty (Z.of_nat (length candidates)) +:+
              " benchmark(s) with existing results");
       Print ("All evaluation results already exist for " +:+ repo_id +:+
              ", skipping PR creation")] /\
    Forall (fun ev => exists line, ev = Print line) report.
Proof.
  intros Hget Hne Hrun Hrec Hknown.
  pose proof (get_existing_eval_results_emits env repo_id repo_type w) as He1.
  pose proof (get_existing_eval_results_looks env repo_id repo_type w) as [Hf1 _].
  rewrite Hrun in He1, Hf1. cbn [fst] in He1, Hf1.
  destruct (print_report_run env repo_id idx w1)
    as (w2 & Hrep & Hf2 & (report & Hreport & Hprints)).
  assert (Hpos : (0 <? Z.of_nat (length candidates) - Z.of_nat (@length pyval []))
                 = true).
  { destruct candidates; [contradiction|]. cbn [length]. apply Z.ltb_lt. lia. }
  assert (Hr : create_eval_results_pr env repo_id evaluation_results repo_type
                 true w =
               (log (Print ("All evaluation results already exist for " +:+
                            repo_id +:+ ", skipping PR creation"))
                  (log (Print ("Skipping " +:+
                               pretty (Z.of_nat (length candidates)) +:+
                               " benchmark(s) with existing results")) w2),
                Ok None)).
  { unfold create_eval_results_pr. unfold bind at 1, lift_outcome at 1.
    rewrite Hget.
    replace (truthy (PList candidates)) with true by now destruct candidates.
    cbn [negb]. unfold bind at 1. unfold skip_existing_results.
    rewrite (bind_ok _ _ _ _ _ Hrun), (bind_ok _ _ _ _ _ Hrep).
    unfold bind at 1, lift_outcome at 1. cbn [py_len].
    unfold bind at 1, lift_outcome at 1. cbn [py_iter].
    unfold bind at 1. rewrite (reconcile_filter _ _ _ Hrec).
    rewrite (filter_all_known _ _ Hknown). rewrite Hpos.
    rewrite Z.sub_0_r. reflexivity. }
  intros r. subst r. rewrite Hr. cbn [fst snd].
  split; [reflexivity|]. split; [cbn; congruence|]. split.
  - apply emits_new_events. etransitivity; [exact He1|].
    etransitivity; [eapply emits_weaken; [|exists report; split; eassumption]|].
    + intros ev [line ->]. exact I.
    + etransitivity; apply emits_log; exact I.
  - exists report. split; [|exact Hprints]. cbn. rewrite Hreport. trace_eq.
Qed.

Lemma known_candidates_are_not_resubmitted_witness :
  let candidates := [Demo.record "Idavidrein/gpqa" 52; Demo.record "cais/hle" 43] in
  let w1 := (get_existing_eval_results Demo.hub "acme/model-x" "model" Demo.w0).1 in
  let r := create_eval_results_pr Demo.hub "acme/model-x"
             (PDict [("evaluation_results", PList candidates)]) "model" true
             Demo.w0 in
  r.2 = Ok None /\
  files r.1 = files Demo.w0 /\
  Forall (index_lookup Demo.hub "acme/model-x" "model") (new_events Demo.w0 r.1) /\
  exists report,
    trace r.1 =
      trace w1 ++ report ++
      [Print ("Skipping " +:+ pretty (Z.of_nat (length candidates)) +:+
              " benchmark(s) with existing results");
       Print ("All evaluation results already exist for " +:+ "acme/model-x" +:+
              ", skipping PR creation")] /\
    Forall (fun ev => exists line, ev = Print line) report.
Proof.
  intros candidates w1.
  apply (known_candidates_are_not_resubmitted Demo.hub "acme/model-x"
           (PDict [("evaluation_results", PList candidates)]) "model"
           candidates Demo.w0 w1
           [(PStr "cais/hle", Demo.hle_main);
            (PStr "Idavidrein/gpqa", Demo.gpqa_pr7)]).
  - reflexivity.
  - discriminate.
  - vm_compute. reflexivity.
  - repeat constructor.
  - repeat constructor.
Defined.

(** ** The local writer *)

Lemma write_result_cases env output_folder r w l :
  (exists e, write_result env output_folder r (w, l) = ((w, l), Raise e) /\
             string_id r = None) \/
  (write_result env output_folder r (w, l) =
     ((log (skip_warning env r) w, l), Ok tt) /\
   string_id r = None) \/
  (exists id,
     string_id r = Some id /\ dataset_id r = PStr id /\ id <> EmptyString /\
     write_result env output_folder r (w, l) =
       match fs_write_fault env (trace w) (path_for env output_folder id)
               (yaml_dump env [r]) with
       | Some e =>
           ((failed_write env (path_for env output_folder id) (yaml_dump env [r]) w,
             l), Raise e)
       | None =>
           ((set_files
               (<[path_for env output_folder id := yaml_dump env [r]]> (files w))
               (log (OpenWrite (path_for env output_folder id) (yaml_dump env [r]))
                  w),
             l ++ [path_for env output_folder id]), Ok tt)
       end).
Proof.
  unfold write_result, bind, lift_outcome, lift_w, write_text, modify_local,
    skip_warning.
  destruct (string_id_get r)
    as [(e & He & Hs)|[(dataset & e & Hd & He & Hs)
                       |(dataset & v & Hd & Hv & Hcases)]].
  - left. rewrite He. eauto.
  - left. rewrite Hd, He. eauto.
  - rewrite Hd, Hv.
    destruct Hcases as [[Ht Hs]|[(Ht & Hn & Hs)|(id & -> & Hne & Hid & Hs)]].
    + right. left. rewrite Ht. cbn. now split.
    + left. rewrite Ht. cbn [negb].
      destruct v; cbn; eauto. exfalso. eapply Hn. reflexivity.
    + right. right. exists id. rewrite (truthy_str _ Hne).
      cbn [negb as_str fst snd]. rewrite last_segment_split.
      fold (stem_of env id). fold (path_for env output_folder id).
      repeat split; try assumption. unfold failed_write.
      destruct (fs_write_fault env (trace w) _ _);
        [destruct (fs_write_residue env (trace w) _ _)|]; reflexivity.
Qed.

Lemma write_loop_emits env output_folder all items w l :
  (forall x, x ∈ items -> x ∈ all) ->
  emits (stage_event env output_folder all) w
    (for_each (write_result env output_folder) items (w, l)).1.1.
Proof.
  revert w l. induction items as [|x items IH]; intros w l Hall; [reflexivity|].
  assert (Hx : x ∈ all) by (apply Hall; now left).
  assert (Hrest : forall y, y ∈ items -> y ∈ all)
    by (intros y Hy; apply Hall; now right).
  cbn [for_each]. unfold bind.
  destruct (write_result_cases env output_folder x w l)
    as [(e & -> & _)|[[-> _]|(id & Hs & _ & _ & ->)]].
  - reflexivity.
  - etransitivity; [|apply IH, Hrest]. now apply emits_log.
  - assert (Hw : stage_event env output_folder all
                   (OpenWrite (path_for env output_folder id) (yaml_dump env [x])))
      by (exists x, id; now repeat split).
    destruct (fs_write_fault env (trace w) (path_for env output_folder id)
                (yaml_dump env [x])) as [e|].
    + cbn. now apply emits_failed_write.
    + etransitivity; [|apply IH, Hrest].
      exists [OpenWrite (path_for env output_folder id) (yaml_dump env [x])].
      split; [reflexivity|]. now constructor.
Qed.

Lemma print_names_run {L} (names : list string) w (l : L) :
  for_each (fun filepath => lift_w (print ("  - " +:+ path_name filepath)))
    names (w, l) =
  (({| files := files w;
       trace := trace w ++
                map (fun p => Print ("  - " +:+ path_name p)) names |}, l),
   Ok tt).
Proof.
  revert w. induction names as [|p names IH]; intros w.
  - cbn. rewrite app_nil_r. now destruct w.
  - cbn [for_each]. unfold bind, lift_w, print. cbn [fst snd].
    rewrite IH. cbn. now rewrite <- app_assoc.
Qed.

(** The events of a run of [write_output]. *)
Lemma write_output_events env repo_id evaluation_results w :
  exists rest,
    trace (write_output env repo_id evaluation_results w).1 =
      trace w ++ Makedirs (output_dir env repo_id) :: rest /\
    Forall (stage_event env (output_dir env repo_id)
              (candidates_of evaluation_results)) rest.
Proof.
  unfold write_output, candidates_of, iterated, bind, os_makedirs, lift_outcome.
  destruct (fs_makedirs_fault env (trace w) (output_dir env repo_id)) as [e|].
  { exists []. split; [reflexivity|constructor]. }
  destruct (py_get evaluation_results "evaluation_results" (PList []))
    as [results|e].
  2:{ exists []. split; [reflexivity|constructor]. }
  destruct (truthy results); cbn [negb].
  2:{ eexists [Print _]. split; [cbn; trace_eq|].
      now repeat constructor. }
  unfold with_locals, bind, lift_outcome.
  destruct (py_iter results) as [items|e].
  2:{ exists []. split; [reflexivity|constructor]. }
  pose proof (write_loop_emits env (output_dir env repo_id) items items
                (log (Makedirs (output_dir env repo_id)) w) [] (fun x H => H))
    as (evs & Ht & Hq).
  destruct (for_each _ items _) as [[w1 l1] [[]|e]]; cbn [fst snd] in *.
  - unfold lift_w at 1, print at 1, get_local. cbn [fst snd].
    rewrite print_names_run. cbn [fst snd].
    eexists (evs ++ Print _ :: map _ l1). split.
    + cbn. rewrite Ht. cbn. trace_eq.
    + apply Forall_app. split; [exact Hq|].
      constructor; [exact I|]. apply Forall_map, Forall_forall.
      intros p _. exact I.
  - exists evs. split.
    + rewrite Ht. cbn. trace_eq.
    + exact Hq.
Qed.

Lemma stage_event_writer env repo_id items ev :
  stage_event env (output_dir env repo_id) items ev ->
  writer_event env repo_id ev.
Proof.
  destruct ev; try (cbn; tauto). intros H. cbn.
  eapply stage_event_yaml_in, H.
Qed.

(** X12: whatever it is given, [write_output] first creates its output
    directory, and then only prints and writes [.yaml] files directly
    in that directory: it calls the Hub never, reads nothing and removes
    nothing.  What it writes is never made up: each file holds the YAML
    of one of the candidates it was given, one that has an id, and is
    the file of that candidate's stem. *)
Theorem write_output_stays_in_its_directory env repo_id evaluation_results w :
  exists rest,
    new_events w (write_output env repo_id evaluation_results w).1 =
      Makedirs (output_dir env repo_id) :: rest /\
    Forall (writer_event env repo_id) rest /\
    Forall (stage_event env (output_dir env repo_id)
              (candidates_of evaluation_results)) rest.
Proof.
  destruct (write_output_events env repo_id evaluation_results w)
    as (rest & Ht & Hq).
  exists rest. split; [now apply new_events_app|]. split; [|exact Hq].
  eapply Forall_impl; [exact Hq|]. apply stage_event_writer.
Qed.

Lemma string_id_some r id :
  string_id r = Some id -> dataset_id r = PStr id /\ id <> EmptyString.
Proof.
  unfold string_id. destruct (dataset_id r) as [| | | |s| |]; try discriminate.
  destruct (String.eqb s EmptyString) eqn:Hs; [discriminate|].
  intros [= <-]. split; [reflexivity|]. now apply String.eqb_neq.
Qed.

Lemma write_result_skip env output_folder r w l :
  lacks_id r = true ->
  write_result env output_folder r (w, l) =
    ((log (skip_warning env r) w, l), Ok tt).
Proof.
  unfold lacks_id, write_result, bind, lift_outcome, lift_w, print, skip_warning.
  destruct (py_get r "dataset" (PDict [])) as [dataset|]; [|discriminate].
  destruct (py_get dataset "id" (PStr "")) as [v|]; [|discriminate].
  intros ->. reflexivity.
Qed.

(** The loop of [write_output] when no write fails and no candidate
    makes it raise. *)
Lemma write_loop_run env output_folder items w l :
  (forall tr p c, fs_write_fault env tr p c = None) ->
  forallb writable items = true ->
  for_each (write_result env output_folder) items (w, l) =
    (({| files := written env output_folder items (files w);
         trace := trace w ++ write_events env output_folder items |},
      l ++ map (path_for env output_folder) (string_ids items)), Ok tt).
Proof.
  intros Hwrite. revert w l.
  induction items as [|x items IH]; intros w l Hall.
  - cbn. rewrite !app_nil_r. now destruct w.
  - cbn [forallb] in Hall. apply andb_prop in Hall as [Hx Hall].
    cbn [for_each]. unfold bind. rewrite string_ids_cons.
    unfold written, write_events. cbn [foldl map].
    unfold writable in Hx. destruct (string_id x) as [id|] eqn:Hid.
    + apply string_id_some in Hid as [Hd Hne].
      rewrite (write_result_ok env output_folder x id w l Hd Hne (Hwrite _ _ _)).
      rewrite (IH _ _ Hall). cbn [files trace set_files log map].
      fold (path_for env output_folder id).
      unfold written, write_events. f_equal. f_equal; [f_equal|]; trace_eq.
    + rewrite (write_result_skip _ _ _ _ _ Hx). rewrite (IH _ _ Hall).
      cbn [files trace log]. unfold written, write_events.
      f_equal. f_equal. f_equal. trace_eq.
Qed.

Lemma path_for_join1 env dir id :
  path_for env dir id = join1 dir (stem_of env id +:+ ".yaml").
Proof. apply path_join_yaml, stem_no_sep. Qed.

Lemma path_name_path_for env dir id :
  path_name (path_for env dir id) = stem_of env id +:+ ".yaml".
Proof.
  rewrite path_for_join1.
  apply path_name_join1; [apply yaml_no_sep, stem_no_sep|apply yaml_not_blank].
Qed.

Lemma list_ascii_app a b :
  list_ascii_of_string (a +:+ b) =
  list_ascii_of_string a ++ list_ascii_of_string b.
Proof.
  induction a as [|c a IH]; [reflexivity|].
  change (String c a +:+ b) with (String c (a +:+ b)). cbn. now rewrite IH.
Qed.

Lemma append_cancel_r a b t : a +:+ t = b +:+ t -> a = b.
Proof.
  intros H. apply (f_equal list_ascii_of_string) in H.
  rewrite !list_ascii_app in H. apply app_inv_tail in H.
  apply (f_equal string_of_list_ascii) in H.
  now rewrite !string_of_list_ascii_of_string in H.
Qed.

Lemma append_cancel_l p a b : p +:+ a = p +:+ b -> a = b.
Proof.
  induction p as [|c p IH]; [easy|].
  change (String c p +:+ a) with (String c (p +:+ a)).
  change (String c p +:+ b) with (String c (p +:+ b)).
  intros [= H]. auto.
Qed.

(** Two artifacts of a directory are the same file only when their
    stems are the same. *)
Lemma path_for_inj env dir id1 id2 :
  path_for env dir id1 = path_for env dir id2 -> stem_of env id1 = stem_of env id2.
Proof.
  rewrite !path_for_join1. unfold join1. intros H.
  destruct (String.eqb dir "."); [|destruct (Str.endswith "/" dir)].
  - now apply append_cancel_r in H.
  - apply append_cancel_l in H. now apply append_cancel_r in H.
  - apply append_cancel_l, append_cancel_l in H. now apply append_cancel_r in H.
Qed.

Lemma string_ids_app l1 l2 :
  string_ids (l1 ++ l2) = string_ids l1 ++ string_ids l2.
Proof. apply omap_app. Qed.

Lemma string_id_elem_of r id items :
  r ∈ items -> string_id r = Some id -> id ∈ string_ids items.
Proof. intros Hr Hid. apply list_elem_of_omap. eauto. Qed.

Lemma written_snoc env dir items x f :
  written env dir (items ++ [x]) f =
  match string_id x with
  | Some id => <[path_for env dir id := yaml_dump env [x]]> (written env dir items f)
  | None => written env dir items f
  end.
Proof. unfold written. now rewrite foldl_app. Qed.

Lemma written_other env dir items f p :
  p ∉ map (path_for env dir) (string_ids items) ->
  written env dir items f !! p = f !! p.
Proof.
  induction items as [|x items IH] using rev_ind; [reflexivity|].
  rewrite written_snoc, string_ids_app, map_app. intros Hp.
  apply not_elem_of_app in Hp as [Hp Hx].
  destruct (string_id x) as [id|] eqn:Hid; [|now apply IH].
  cbn in Hx. rewrite Hid in Hx. cbn in Hx.
  rewrite lookup_insert_ne; [now apply IH|].
  intros <-. apply Hx. now left.
Qed.

Lemma written_distinct env dir items f r id :
  NoDup (map (stem_of env) (string_ids items)) ->
  r ∈ items -> string_id r = Some id ->
  written env dir items f !! path_for env dir id = Some (yaml_dump env [r]).
Proof.
  induction items as [|x items IH] using rev_ind; intros Hnd Hr Hid.
  - inversion Hr.
  - rewrite written_snoc. rewrite string_ids_app, map_app in Hnd.
    apply NoDup_app in Hnd as (Hnd & Hdisj & _).
    apply elem_of_app in Hr as [Hr|Hr].
    + destruct (string_id x) as [idx|] eqn:Hx; [|now apply IH].
      rewrite lookup_insert_ne; [now apply IH|].
      intros Heq. apply path_for_inj in Heq.
      apply (Hdisj (stem_of env id)).
      * apply list_elem_of_fmap. exists id. split; [reflexivity|].
        eapply string_id_elem_of; eassumption.
      * cbn. rewrite Hx. cbn. rewrite Heq. now left.
    + apply list_elem_of_singleton in Hr as ->. rewrite Hid.
      apply lookup_insert_eq.
Qed.

(** A run of [write_output] on a non-empty list of candidates, when
    nothing fails. *)
Lemma write_output_run env repo_id evaluation_results items w :
  (forall tr p c, fs_write_fault env tr p c = None) ->
  fs_makedirs_fault env (trace w) (output_dir env repo_id) = None ->
  py_get evaluation_results "evaluation_results" (PList []) = Ok (PList items) ->
  items <> [] ->
  forallb writable items = true ->
  let output_folder := output_dir env repo_id in
  write_output env repo_id evaluation_results w =
    ({| files := written env output_folder items (files w);
        trace := trace w ++
          Makedirs output_folder :: write_events env output_folder items ++
          Print (Str.nl +:+ "Results written to " +:+ output_folder +:+ "/:") ::
          map (fun id => Print ("  - " +:+ (stem_of env id +:+ ".yaml")))
            (string_ids items) |}, Ok tt).
Proof.
  intros Hwrite Hmk Hget Hne Hall output_folder. subst output_folder.
  unfold write_output, bind, os_makedirs, lift_outcome.
  rewrite Hmk, Hget.
  replace (truthy (PList items)) with true by now destruct items.
  cbn [negb py_iter]. unfold with_locals, bind.
  rewrite (write_loop_run env (output_dir env repo_id) items _ [] Hwrite Hall).
  unfold lift_w at 1, print at 1, get_local. cbn [fst snd app].
  rewrite print_names_run. cbn [fst snd files trace log].
  rewrite map_map.
  rewrite (map_ext _ (fun id => Print ("  - " +:+ (stem_of env id +:+ ".yaml"))))
    by (intros id; now rewrite path_name_path_for).
  f_equal. f_equal. trace_eq.
Qed.

(** X13: when the stems of the candidates' dataset ids are pairwise
    distinct, [write_output] leaves one file per candidate with an id,
    and each file holds the YAML of its own candidate; every other file
    is as it was.  The stems are those that the code computes, with
    [str.lower] of the interpreter: two ids whose names the interpreter
    lowers to the same string have one stem, and the hypothesis fails
    for them.  (No write fails, and each candidate has a non-empty
    string id or is an object without id.) *)
Theorem distinct_stems_one_file_each env repo_id evaluation_results items w :
  (forall tr p c, fs_write_fault env tr p c = None) ->
  fs_makedirs_fault env (trace w) (output_dir env repo_id) = None ->
  py_get evaluation_results "evaluation_results" (PList []) = Ok (PList items) ->
  forallb writable items = true ->
  NoDup (map (stem_of env) (string_ids items)) ->
  let r := write_output env repo_id evaluation_results w in
  r.2 = Ok tt /\
  (forall x id,
     x ∈ items -> string_id x = Some id ->
     files r.1 !! path_for env (output_dir env repo_id) id =
       Some (yaml_dump env [x])) /\
  (forall p,
     p ∉ map (path_for env (output_dir env repo_id)) (string_ids items) ->
     files r.1 !! p = files w !! p).
Proof.
  intros Hwrite Hmk Hget Hall Hnd r. subst r.
  destruct items as [|x0 items0] eqn:Hitems.
  - unfold write_output, bind, os_makedirs, lift_outcome.
    rewrite Hmk, Hget. cbn. split; [reflexivity|].
    split; [intros x id Hx; inversion Hx|reflexivity].
  - rewrite <- Hitems in *.
    rewrite (write_output_run env repo_id evaluation_results items w
               Hwrite Hmk Hget) by (assumption || (subst items; discriminate)).
    cbn [fst snd files]. split; [reflexivity|]. split.
    + intros x id Hx Hid. now apply written_distinct.
    + intros p Hp. now apply written_other.
Qed.

Lemma distinct_stems_one_file_each_witness :
  let items := [Demo.record "cais/hle" 40; PDict [("value", PInt 3)];
                Demo.record "Idavidrein/gpqa" 50] in
  let r := write_output Demo.hub "acme/model-x"
             (PDict [("evaluation_results", PList items)]) Demo.w0 in
  r.2 = Ok tt /\
  (forall x id,
     x ∈ items -> string_id x = Some id ->
     files r.1 !! path_for Demo.hub (output_dir Demo.hub "acme/model-x") id =
       Some (yaml_dump Demo.hub [x])) /\
  (forall p,
     p ∉ map (path_for Demo.hub (output_dir Demo.hub "acme/model-x")) (string_ids items) ->
     files r.1 !! p = files Demo.w0 !! p).
Proof.
  intros items.
  apply (distinct_stems_one_file_each Demo.hub "acme/model-x"
           (PDict [("evaluation_results", PList items)]) items Demo.w0).
  - reflexivity.
  - reflexivity.
  - reflexivity.
  - reflexivity.
  - apply (bool_decide_unpack _). vm_compute. reflexivity.
Defined.

(** Under an interpreter that lowers the letters of the Latin-1
    supplement, [org/ÉCOLE-Bench] and [org/école-bench] have one stem:
    the hypothesis on the stems fails for them. *)
Remark accented_stems_collide :
  stem_of Script.latin1 Script.ECOLE = stem_of Script.latin1 Script.ecole /\
  ~ NoDup (map (stem_of Script.latin1) [Script.ECOLE; Script.ecole]).
Proof.
  split; [reflexivity|]. intros H. apply NoDup_cons in H as [H _].
  apply H. apply list_elem_of_singleton. reflexivity.
Qed.

(** X14: when nothing fails, [write_output] handles the candidates in
    order, one write or one warning each, and its closing report lists
    one name per write, [<stem>.yaml], in the same order: a stem that
    two candidates share is listed twice although one file is left. *)
Theorem write_output_reports_each_write
    env repo_id evaluation_results items w :
  (forall tr p c, fs_write_fault env tr p c = None) ->
  fs_makedirs_fault env (trace w) (output_dir env repo_id) = None ->
  py_get evaluation_results "evaluation_results" (PList []) = Ok (PList items) ->
  items <> [] ->
  forallb writable items = true ->
  let output_folder := output_dir env repo_id in
  let r := write_output env repo_id evaluation_results w in
  r.2 = Ok tt /\
  new_events w r.1 =
    Makedirs output_folder :: write_events env output_folder items ++
    Print (Str.nl +:+ "Results written to " +:+ output_folder +:+ "/:") ::
    map (fun id => Print ("  - " +:+ (stem_of env id +:+ ".yaml")))
      (string_ids items).
Proof.
  intros Hwrite Hmk Hget Hne Hall output_folder r. subst r output_folder.
  rewrite (write_output_run env repo_id evaluation_results items w
             Hwrite Hmk Hget Hne Hall).
  cbn [fst snd]. split; [reflexivity|]. now apply new_events_app.
Qed.

Lemma write_output_reports_each_write_witness :
  let items := [Demo.record "a/gsm8k" 1; PDict [("value", PInt 3)];
                Demo.record "b/GSM8K" 2] in
  let output_folder := output_dir Demo.hub "acme/model-x" in
  let r := write_output Demo.hub "acme/model-x"
             (PDict [("evaluation_results", PList items)]) Demo.w0 in
  r.2 = Ok tt /\
  new_events Demo.w0 r.1 =
    Makedirs output_folder :: write_events Demo.hub output_folder items ++
    Print (Str.nl +:+ "Results written to " +:+ output_folder +:+ "/:") ::
    map (fun id => Print ("  - " +:+ (stem_of Demo.hub id +:+ ".yaml")))
      (string_ids items).
Proof.
  intros items.
  apply (write_output_reports_each_write Demo.hub "acme/model-x"
           (PDict [("evaluation_results", PList items)]) items Demo.w0).
  - reflexivity.
  - reflexivity.
  - reflexivity.
  - discriminate.
  - reflexivity.
Defined.

(** ** The entry point *)

Lemma default_last_cons {A} (a v : A) l :
  default a (last (v :: l)) = default v (last l).
Proof.
  revert a v. induction l as [|x l IH]; intros a v; [reflexivity|].
  change (last (v :: x :: l)) with (last (x :: l)).
  now rewrite (IH a x), (IH v x).
Qed.

Lemma default_last_app {A} (a : A) l1 l2 :
  default (default a (last l1)) (last l2) = default a (last (l1 ++ l2)).
Proof.
  revert a. induction l1 as [|v l1 IH]; intros a; [reflexivity|].
  cbn [app]. now rewrite !default_last_cons, IH.
Qed.

Section Stream.
Context (env : Env) (agent : Main.Agent).

Lemma stream_step_refl s : stream_step [] 0 s s.
Proof.
  repeat split; try reflexivity. now rewrite Z.add_0_r.
Qed.

Lemma stream_step_trans outs1 outs2 n1 n2 s1 s2 s3 :
  stream_step outs1 n1 s1 s2 -> stream_step outs2 n2 s2 s3 ->
  stream_step (outs1 ++ outs2) (n1 + n2) s1 s3.
Proof.
  intros (Hf1 & He1 & Hc1 & Hp1 & Hs1 & Hr1) (Hf2 & He2 & Hc2 & Hp2 & Hs2 & Hr2).
  repeat split; try congruence.
  - etransitivity; eassumption.
  - rewrite Hc2, Hc1. lia.
  - rewrite Hr2, Hr1. apply default_last_app.
Qed.

Lemma stream_step_print line w r :
  stream_step [] 0 (w, r) (log (Print line) w, r).
Proof.
  repeat split; try reflexivity.
  - apply emits_log. now exists line.
  - cbn. now rewrite Z.add_0_r.
Qed.

Lemma process_block_run agent_prefix b s :
  exists s',
    Main.process_block env agent_prefix b s = (s', Ok tt) /\
    stream_step (option_list (block_output b)) 0 s s'.
Proof.
  destruct s as [w r]. destruct b as [text|id name input|].
  - eexists. split; [reflexivity|]. apply stream_step_print.
  - unfold Main.process_block, bind, lift_w, print, modify_local, ret,
      lift_outcome, block_output.
    cbn [fst snd].
    assert (Hget : Main.is_dict input = true ->
                   exists v, py_get input "subagent_type" (PStr "subagent") = Ok v).
    { destruct input; try discriminate. intros _. cbn. eauto. }
    destruct (String.eqb name "Task" && Main.is_dict input) eqn:Htask.
    + apply andb_prop in Htask as [_ Hd]. destruct (Hget Hd) as [v ->].
      destruct (String.eqb name "StructuredOutput" && Main.is_dict input);
        (eexists; split; [reflexivity|]); repeat split; cbn;
        try (now rewrite Z.add_0_r); apply emits_log; eexists; reflexivity.
    + destruct (String.eqb name "StructuredOutput" && Main.is_dict input);
        (eexists; split; [reflexivity|]); repeat split; cbn;
        try (now rewrite Z.add_0_r); apply emits_log; eexists; reflexivity.
  - eexists. split; [reflexivity|]. apply stream_step_refl.
Qed.

Lemma process_blocks_run agent_prefix content s :
  exists s',
    for_each (Main.process_block env agent_prefix) content s = (s', Ok tt) /\
    stream_step (omap block_output content) 0 s s'.
Proof.
  revert s. induction content as [|b content IH]; intros s.
  - exists s. split; [reflexivity|]. apply stream_step_refl.
  - cbn [for_each]. destruct (process_block_run agent_prefix b s) as (s1 & Hb & H1).
    destruct (IH s1) as (s2 & Hl & H2).
    exists s2. split; [now rewrite (bind_ok _ _ _ _ _ Hb)|].
    replace (omap block_output (b :: content))
      with (option_list (block_output b) ++ omap block_output content)
      by (cbn; now destruct (block_output b)).
    change 0 with (0 + 0). eapply stream_step_trans; eassumption.
Qed.

Lemma process_message_run m s :
  exists s' o,
    Main.process_message env agent m s = (s', o) /\
    stream_step (message_outputs m) 1 s s' /\
    (if cost_ok agent m then o = Ok tt else exists e, o = Raise e).
Proof.
  destruct s as [w r]. unfold Main.process_message.
  unfold bind at 1, modify_local at 1. cbn [fst snd].
  set (r1 := {| Main.message_count := Main.message_count r + 1;
                Main.subagent_names := Main.subagent_names r;
                Main.evaluation_results := Main.evaluation_results r;
                Main.prompts := Main.prompts r; Main.stderr := Main.stderr r |}).
  assert (H1 : stream_step [] 1 (w, r) (w, r1)) by (repeat split; reflexivity).
  destruct m as [content parent|c|].
  - assert (Hrun : forall agent_prefix, exists s',
              for_each (Main.process_block env agent_prefix) content (w, r1)
                = (s', Ok tt) /\
              stream_step (message_outputs (Main.AssistantMessage content parent))
                1 (w, r) s').
    { intros agent_prefix.
      destruct (process_blocks_run agent_prefix content (w, r1)) as (s' & Hl & H2).
      exists s'. split; [exact Hl|].
      change 1 with (1 + 0).
      change (message_outputs (Main.AssistantMessage content parent))
        with ([] ++ omap block_output content).
      eapply stream_step_trans; eassumption. }
    destruct parent as [parent|]; unfold bind, get_local, ret; cbn [fst snd].
    + destruct (Hrun ("[" +:+ Main.fstr env
                        (default (PStr "subagent")
                           (Main.subagent_names r1 !! parent)) +:+ "]"))
        as (s' & -> & H2).
      exists s', (Ok tt). split; [reflexivity|]. split; [exact H2|reflexivity].
    + destruct (Hrun "[main]") as (s' & -> & H2).
      exists s', (Ok tt). split; [reflexivity|]. split; [exact H2|reflexivity].
  - unfold bind, lift_outcome, ret, lift_w, print.
    cbn [cost_ok message_outputs]. unfold formats.
    assert (Hp : forall line,
              stream_step [] 1 (w, r) (log (Print line) w, r1)).
    { intros line. change 1 with (1 + 0). change (@nil pyval) with (@nil pyval ++ []).
      eapply stream_step_trans; [exact H1|apply stream_step_print]. }
    destruct c as [|b|z|m e|s|l|d]; cbn [truthy Main.py_gt0 negb].
    + eexists _, _. split; [reflexivity|]. now split.
    + destruct b; cbn; [destruct (Main.format_4f agent _)|];
        eexists _, _; (split; [reflexivity|]); split;
        try reflexivity; try (apply Hp || exact H1); eauto.
    + destruct (z =? 0) eqn:Hz; cbn.
      * apply Z.eqb_eq in Hz as ->. cbn.
        eexists _, _. split; [reflexivity|]. now split.
      * destruct (0 <? z); cbn; [destruct (Main.format_4f agent _)|];
          eexists _, _; (split; [reflexivity|]); split;
          try reflexivity; try (apply Hp || exact H1); eauto.
    + destruct (m =? 0) eqn:Hz; cbn.
      * apply Z.eqb_eq in Hz as ->. cbn.
        eexists _, _. split; [reflexivity|]. now split.
      * destruct (0 <? m); cbn; [destruct (Main.format_4f agent _)|];
          eexists _, _; (split; [reflexivity|]); split;
          try reflexivity; try (apply Hp || exact H1); eauto.
    + destruct (negb (String.eqb s EmptyString)); cbn;
        eexists _, _; (split; [reflexivity|]); split;
        try exact H1; eauto.
    + destruct l; cbn;
        eexists _, _; (split; [reflexivity|]); split;
        try exact H1; eauto.
    + destruct d; cbn;
        eexists _, _; (split; [reflexivity|]); split;
        try exact H1; eauto.
  - eexists _, _. split; [reflexivity|]. now split.
Qed.

Lemma process_messages_run msgs s :
  exists s' o,
    for_each (Main.process_message env agent) msgs s = (s', o) /\
    stream_step (structured_outputs (consumed agent msgs))
      (Z.of_nat (length (consumed agent msgs))) s s'.
Proof.
  revert s. induction msgs as [|m msgs IH]; intros s.
  - exists s, (Ok tt). split; [reflexivity|]. apply stream_step_refl.
  - cbn [for_each consumed]. unfold bind.
    destruct (process_message_run m s) as (s1 & o1 & -> & H1 & Ho).
    destruct (cost_ok agent m).
    + subst o1. destruct (IH s1) as (s2 & o2 & -> & H2).
      exists s2, o2. split; [reflexivity|].
      change (structured_outputs (m :: consumed agent msgs))
        with (message_outputs m ++ structured_outputs (consumed agent msgs)).
      replace (Z.of_nat (length (m :: consumed agent msgs)))
        with (1 + Z.of_nat (length (consumed agent msgs))) by (cbn [length]; lia).
      eapply stream_step_trans; eassumption.
    + destruct Ho as [e ->]. exists s1, (Raise e). split; [reflexivity|].
      cbn. unfold structured_outputs. cbn. now rewrite app_nil_r.
Qed.

(** The loop of [main] and its handler. *)
Lemma run_agent_run user_prompt w r :
  let msgs := consumed agent (Main.agent_query agent user_prompt).1 in
  exists w' r',
    Main.run_agent env agent user_prompt (w, r) = ((w', r'), Ok tt) /\
    files w' = files w /\
    emits printed w w' /\
    Main.message_count r' = Main.message_count r + Z.of_nat (length msgs) /\
    Main.evaluation_results r' =
      default (Main.evaluation_results r) (last (structured_outputs msgs)) /\
    Main.prompts r' = Main.prompts r ++ [user_prompt].
Proof.
  intros msgs. unfold Main.run_agent, try_except.
  unfold bind at 1, modify_local at 1. cbn [fst snd].
  unfold bind at 1.
  match goal with |- context [for_each _ _ ?s0] =>
    destruct (process_messages_run (Main.agent_query agent user_prompt).1 s0)
      as ([w1 r1] & o & -> & (Hf & He & Hc & Hp & Hs & Hr))
  end.
  fold msgs in Hc, Hr. cbn [fst snd] in *.
  assert (Hh : forall e, exists w' r',
            (lift_w (print ("Error during agent query: " +:+
                            Main.class_name agent e +:+ ": " +:+ exn_str e)) ;;;
             modify_local (fun r =>
               {| Main.message_count := Main.message_count r;
                  Main.subagent_names := Main.subagent_names r;
                  Main.evaluation_results := Main.evaluation_results r;
                  Main.prompts := Main.prompts r;
                  Main.stderr := Main.stderr r ++ [Main.format_exc agent e] |}))
              (w1, r1) = ((w', r'), Ok tt) /\
            files w' = files w /\ emits printed w w' /\
            Main.message_count r' = Main.message_count r + Z.of_nat (length msgs) /\
            Main.evaluation_results r' =
              default (Main.evaluation_results r) (last (structured_outputs msgs)) /\
            Main.prompts r' = Main.prompts r ++ [user_prompt]).
  { intros e. eexists _, _. split; [reflexivity|]. cbn.
    repeat split; try assumption.
    etransitivity; [exact He|]. apply emits_log. eexists. reflexivity. }
  destruct o as [[]|e]; [|apply Hh].
  destruct (Main.agent_query agent user_prompt).2 as [e|]; [apply Hh|].
  exists w1, r1. split; [reflexivity|]. now repeat split.
Qed.

End Stream.

(** X15: the loop of [main] never raises, whatever the stream and
    however it ends; it only prints; it counts the messages it handled,
    which are all the messages up to and including the first one whose
    cost cannot be compared with [0] or, being positive, cannot be
    formatted with [:.4f]; and what it captures is the input of the last
    [StructuredOutput] tool call with an object as input among those
    messages, or what was captured before if there is none.  What comes
    after a message that ends the loop is never seen. *)
Theorem agent_stream_last_output_wins env agent user_prompt w r :
  let msgs := consumed agent (Main.agent_query agent user_prompt).1 in
  exists w' r',
    Main.run_agent env agent user_prompt (w, r) = ((w', r'), Ok tt) /\
    files w' = files w /\
    Forall printed (new_events w w') /\
    Main.message_count r' = Main.message_count r + Z.of_nat (length msgs) /\
    Main.evaluation_results r' =
      default (Main.evaluation_results r) (last (structured_outputs msgs)) /\
    Main.prompts r' = Main.prompts r ++ [user_prompt].
Proof.
  intros msgs.
  destruct (run_agent_run env agent user_prompt w r)
    as (w' & r' & Hrun & Hf & He & Hrest).
  exists w', r'. split; [exact Hrun|]. split; [exact Hf|].
  split; [now apply emits_new_events|exact Hrest].
Qed.

(** A cost beyond the range of a float: [:.4f] raises on the first
    message, the loop ends there, and the structured output of the
    second message is never seen. *)
Lemma agent_stream_last_output_wins_witness :
  let agent :=
    Script.agent
      [Main.ResultMessage (PInt (10 ^ 400));
       Main.AssistantMessage
         [Script.output [Demo.record "openai/gsm8k" 3]] None] None in
  exists w' r',
    Main.run_agent Demo.hub agent "prompt" (Demo.w0, Main.start) =
      ((w', r'), Ok tt) /\
    Main.message_count r' = 1 /\
    Main.evaluation_results r' = PNone /\
    Main.stderr r' = ["Traceback: int too large to convert to float"].
Proof.
  intros agent.
  destruct (agent_stream_last_output_wins Demo.hub agent "prompt" Demo.w0
              Main.start) as (w' & r' & Hrun & _ & _ & Hc & Hr & _).
  exists w', r'. split; [exact Hrun|]. split; [exact Hc|]. split; [exact Hr|].
  apply (f_equal (fun x => Main.stderr x.1.2)) in Hrun. cbn [fst snd] in Hrun.
  rewrite <- Hrun. vm_compute. reflexivity.
Defined.

Lemma structured_outputs_dict msgs out :
  out ∈ structured_outputs msgs -> Main.is_dict out = true.
Proof.
  unfold structured_outputs. intros Hin. apply list_elem_of_In in Hin.
  apply in_flat_map in Hin as (m & _ & Hin). apply list_elem_of_In in Hin.
  destruct m as [content parent| |]; cbn in Hin; try now inversion Hin.
  apply list_elem_of_omap in Hin as (b & _ & Hb).
  destruct b as [|id name input|]; cbn in Hb; try discriminate.
  destruct (String.eqb name "StructuredOutput"); cbn in Hb; [|discriminate].
  destruct (Main.is_dict input) eqn:Hd; [|discriminate]. now injection Hb as <-.
Qed.

Lemma last_elem_of {A} (l : list A) x : last l = Some x -> x ∈ l.
Proof.
  induction l as [|y l IH]; [discriminate|].
  destruct l as [|z l]; [intros [= ->]; now left|].
  intros H. right. apply IH. exact H.
Qed.

Lemma captured_output msgs :
  let out := default PNone (last (structured_outputs msgs)) in
  out = PNone \/ Main.is_dict out = true.
Proof.
  cbv zeta. destruct (last (structured_outputs msgs)) as [out|] eqn:Hl;
    [right|now left].
  cbn. eapply structured_outputs_dict, last_elem_of, Hl.
Qed.

(** A run of [format_user_prompt]. *)
Lemma format_user_prompt_run env agent repo_id w :
  let r := Main.format_user_prompt env agent repo_id w in
  files r.1 = files w /\
  emits (prompt_event repo_id) w r.1 /\
  ((forall path,
      hub_download env repo_id "README.md" "model" None = Ok path ->
      exists e, fs_read_text env path = Raise e) ->
   r.2 = Raise (Exception ("Model card content not found for repo_id: " +:+
                           repo_id)) /\
   Forall (fun ev => forall p, ev = OpenRead p ->
             hub_download env repo_id "README.md" "model" None = Ok p)
     (new_events w r.1)).
Proof.
  intros r. subst r. unfold Main.format_user_prompt, bind.
  destruct (fetch_huggingface_readme_run env repo_id "model" w)
    as (Hf & (o & Ho & Hiff) & rest & Ht & Hrest).
  destruct (fetch_huggingface_readme env repo_id "model" w) as [w1 o1].
  cbn [fst snd] in *. subst o1.
  assert (Hfetch : emits (prompt_event repo_id) w w1).
  { exists (HfHubDownload repo_id "README.md" "model" None :: rest).
    split; [exact Ht|]. constructor; [now left|].
    assert (Hread : forall p, prompt_event repo_id (OpenRead p))
      by (intros p; right; left; eauto).
    assert (Hprint : forall line, prompt_event repo_id (Print line))
      by (intros line; right; right; now exists line).
    destruct (hub_download env repo_id "README.md" "model" None) as [path|e].
    - destruct (fs_read_text env path).
      + subst rest. constructor; [apply Hread|constructor].
      + destruct Hrest as [line ->].
        constructor; [apply Hread|].
        constructor; [apply Hprint|constructor].
    - destruct Hrest as [line ->].
      constructor; [apply Hprint|constructor]. }
  destruct o as [text|].
  - unfold Main.read_prompt, read_file, lift_outcome. cbn [fst snd].
    split; [destruct (fs_read_text env _); exact Hf|]. split.
    + destruct (fs_read_text env _); cbn;
        (etransitivity; [exact Hfetch|]; apply emits_log; right; left; eauto).
    + intros Hnone. exfalso.
      destruct (proj1 (Hiff text) eq_refl) as (path & Hp & Hr).
      destruct (Hnone path Hp) as [e He]. congruence.
  - cbn. split; [exact Hf|]. split; [exact Hfetch|]. intros Hnone.
    split; [reflexivity|]. rewrite (new_events_app _ _ _ Ht).
    constructor; [discriminate|].
    destruct (hub_download env repo_id "README.md" "model" None) as [path|e].
    + destruct (fs_read_text env path).
      * subst rest. repeat constructor. now intros p [= <-].
      * destruct Hrest as [line ->]. repeat constructor.
        -- now intros p [= <-].
        -- discriminate.
    + destruct Hrest as [line ->]. repeat constructor. discriminate.
Qed.

(** A run of [open_pull_request] on what [main] captures. *)
Lemma open_pull_request_run env repo_id out w :
  out = PNone \/ Main.is_dict out = true ->
  pull_request_run env repo_id out w (Main.open_pull_request env repo_id out w).
Proof.
  intros Hout. unfold Main.open_pull_request.
  assert (Hnothing :
            pull_request_run env repo_id out w
              ((print (Str.nl +:+ "No evaluation results to submit as PR") ;;;
                ret None) w)).
  { exists None,
      [Print (Str.nl +:+ "No evaluation results to submit as PR")], [].
    cbn. split; [reflexivity|]. split; [now apply emits_log|].
    split; [now repeat constructor|]. split; [constructor|].
    left. now split. }
  destruct (truthy out) eqn:Htruthy; cbn [negb]; [|exact Hnothing].
  destruct Hout as [->|Hdict]; [discriminate|].
  destruct out as [| | | | | |d]; try discriminate.
  unfold bind at 1, lift_outcome at 1. cbn [py_get].
  destruct (truthy (default (PList []) (assoc "evaluation_results" d)));
    cbn [negb]; [|exact Hnothing].
  clear Hnothing.
  set (w1 := log (Print (Str.nl +:+ "Opening pull request for " +:+ repo_id +:+
                         "...")) w).
  match goal with |- pull_request_run _ _ _ _ (?m w) =>
    assert (Hrun : m w =
              match create_eval_results_pr env repo_id (PDict d) "model" true w1
              with
              | (w2, Ok a) => (w2, Ok a)
              | (w2, Raise e) =>
                  (log (Print ("Failed to create pull request: " +:+ exn_str e))
                     w2, Ok None)
              end)
      by (unfold bind, print, try_except, ret; fold w1;
          now destruct (create_eval_results_pr _ _ _ _ _ w1) as [? [|]])
  end.
  rewrite Hrun. clear Hrun. unfold pull_request_run.
  pose proof (create_eval_results_pr_events env repo_id (PDict d) "model" true w1)
    as Hev.
  destruct (create_eval_results_pr_commits env repo_id (PDict d) "model" true w1)
    as (before & after & Hb & Ha & Hcase).
  cbv zeta in Hcase.
  destruct (create_eval_results_pr env repo_id (PDict d) "model" true w1)
    as [w2 o2].
  cbn [fst snd] in *.
  assert (Hw1 : emits (submitter_event env repo_id "model") w w1)
    by now apply emits_log.
  assert (Hopen : Forall no_commit
            (Print (Str.nl +:+ "Opening pull request for " +:+ repo_id +:+ "...")
             :: before)) by now constructor.
  destruct o2 as [o|e].
  - exists o, (Print (Str.nl +:+ "Opening pull request for " +:+ repo_id +:+ "...")
               :: before), after.
    split; [reflexivity|]. split; [etransitivity; eassumption|].
    split; [exact Hopen|]. split; [exact Ha|].
    destruct Hcase as [[Ht Ho]|(items & Hs & _ & Hne & Ht & Ho)].
    + left. split; [cbn [fst snd log trace]; rewrite Ht; cbn; trace_eq|].
      destruct Ho as [Ho|[e Ho]]; congruence.
    + right. exists items. split; [exact Hs|]. split; [exact Hne|].
      split; [cbn [fst snd log trace]; rewrite Ht; cbn; trace_eq|].
      destruct (commit_answer _ _ _ _ _); congruence.
  - exists None, (Print (Str.nl +:+ "Opening pull request for " +:+ repo_id +:+
                         "...") :: before),
           (after ++ [Print ("Failed to create pull request: " +:+ exn_str e)]).
    split; [reflexivity|].
    split; [etransitivity; [exact Hw1|]; etransitivity; [exact Hev|];
            now apply emits_log|].
    split; [exact Hopen|].
    split; [apply Forall_app; split; [exact Ha|now repeat constructor]|].
    destruct Hcase as [[Ht Ho]|(items & Hs & _ & Hne & Ht & Ho)].
    + left. split; [cbn [fst snd log trace]; rewrite Ht; cbn; trace_eq|reflexivity].
    + right. exists items. split; [exact Hs|]. split; [exact Hne|].
      split; [cbn [fst snd log trace]; rewrite Ht; cbn; trace_eq|].
      destruct (commit_answer _ _ _ _ _); congruence.
Qed.

(** How a run of [main] goes: the prompt, the stream, the local write
    and the pull request. *)
Lemma main_cases env agent repo_id open_pr w :
  let p := Main.format_user_prompt env agent repo_id w in
  let r := Main.main env agent repo_id open_pr (w, Main.start) in
  (exists e, p.2 = Raise e /\ r = ((p.1, Main.start), Raise e)) \/
  (exists user_prompt w2 r2 w4,
     p.2 = Ok user_prompt /\
     files w2 = files p.1 /\
     emits printed p.1 w2 /\
     Main.message_count r2 =
       Z.of_nat (length (consumed agent (Main.agent_query agent user_prompt).1)) /\
     Main.evaluation_results r2 =
       default PNone
         (last (structured_outputs
                  (consumed agent (Main.agent_query agent user_prompt).1))) /\
     Main.prompts r2 = [user_prompt] /\
     let out := Main.evaluation_results r2 in
     let w3 := log (completed r2) w2 in
     let wr := if truthy out then write_output env repo_id out w3
               else (w3, Ok tt) in
     w4 = wr.1 /\
     ((exists e, wr.2 = Raise e /\ r = ((w4, r2), Raise e)) \/
      (wr.2 = Ok tt /\
       r = ((if open_pr then (Main.open_pull_request env repo_id out w4).1
             else w4, r2), Ok tt)))).
Proof.
  intros p r.
  assert (Hmain :
    r = match Main.format_user_prompt env agent repo_id w with
        | (w1, Raise e) => ((w1, Main.start), Raise e)
        | (w1, Ok user_prompt) =>
            match Main.run_agent env agent user_prompt (w1, Main.start) with
            | (s2, Raise e) => (s2, Raise e)
            | (s2, Ok _) =>
                let out := Main.evaluation_results s2.2 in
                let w3 := log (completed s2.2) s2.1 in
                let wr := if truthy out then write_output env repo_id out w3
                          else (w3, Ok tt) in
                match wr.2 with
                | Raise e => ((wr.1, s2.2), Raise e)
                | Ok _ =>
                    if open_pr then
                      match Main.open_pull_request env repo_id out wr.1 with
                      | (w5, Ok _) => ((w5, s2.2), Ok tt)
                      | (w5, Raise e) => ((w5, s2.2), Raise e)
                      end
                    else ((wr.1, s2.2), Ok tt)
                end
            end
        end).
  { subst r. unfold Main.main, bind, lift_w, get_local, print, ret, completed.
    cbn [fst snd].
    destruct (Main.format_user_prompt env agent repo_id w)
      as [w1 [user_prompt|e]]; [|reflexivity].
    cbn [fst snd].
    destruct (Main.run_agent env agent user_prompt (w1, Main.start))
      as [[w2 r2] [[]|e]]; [|reflexivity].
    cbn [fst snd].
    destruct (truthy (Main.evaluation_results r2)).
    - destruct (write_output env repo_id _ _) as [w4 [[]|e]]; cbn [fst snd];
        [|reflexivity].
      destruct open_pr; [|reflexivity]. cbn [fst snd].
      now destruct (Main.open_pull_request env repo_id _ w4) as [w5 [o|e]].
    - cbn [fst snd]. destruct open_pr; [|reflexivity]. cbn [fst snd].
      now destruct (Main.open_pull_request env repo_id _ _) as [w5 [o|e]]. }
  clearbody r. subst p.
  destruct (Main.format_user_prompt env agent repo_id w) as [w1 [user_prompt|e]].
  2:{ left. exists e. now split. }
  right. cbn [fst snd].
  destruct (run_agent_run env agent user_prompt w1 Main.start)
    as (w2 & r2 & Hrun & Hf & He & Hc & Hr & Hp).
  cbv zeta in Hc, Hr. cbn [Main.start Main.message_count Main.evaluation_results
    Main.prompts app] in Hc, Hr, Hp. rewrite Z.add_0_l in Hc.
  pose proof (captured_output (consumed agent (Main.agent_query agent user_prompt).1))
    as Hout. cbv zeta in Hout. rewrite <- Hr in Hout.
  rewrite Hrun in Hmain. cbn [fst snd] in Hmain. cbv zeta in Hmain.
  exists user_prompt, w2, r2.
  set (out := Main.evaluation_results r2) in *.
  set (w3 := log (completed r2) w2) in *.
  set (wr := if truthy out then write_output env repo_id out w3 else (w3, Ok tt))
    in *.
  exists wr.1. split; [reflexivity|]. split; [exact Hf|]. split; [exact He|].
  split; [exact Hc|]. split; [exact Hr|]. split; [exact Hp|].
  split; [reflexivity|].
  destruct wr.2 as [[]|e] eqn:Hwr2.
  - right. split; [reflexivity|]. destruct open_pr; [|exact Hmain].
    destruct (open_pull_request_run env repo_id out wr.1 Hout)
      as (o & _ & _ & Ho & _).
    destruct (Main.open_pull_request env repo_id out wr.1) as [w5 o5].
    cbn [fst snd] in *. now subst o5.
  - left. exists e. now split.
Qed.

Lemma local_event_no_commit env repo_id ev :
  local_event env repo_id ev -> no_commit ev.
Proof.
  intros [[->|[[p ->]|[line ->]]]|H]; try reflexivity.
  destruct ev; cbn in H; solve [reflexivity | tauto].
Qed.

Lemma local_event_main env repo_id open_pr ev :
  local_event env repo_id ev -> main_event env repo_id open_pr ev.
Proof. intros [H|H]; [now left|now right; left]. Qed.

(** The part of [main] that comes before the pull request: the prompt,
    the stream, the closing line and the local write. *)
Lemma main_local_part env repo_id w w1 w2 line (out : pyval) :
  emits (prompt_event repo_id) w w1 ->
  files w1 = files w ->
  emits printed w1 w2 ->
  files w2 = files w1 ->
  let w3 := log (Print line) w2 in
  let wr := if truthy out then write_output env repo_id out w3
            else (w3, Ok tt) in
  emits (local_event env repo_id) w wr.1 /\
  (truthy out = false -> emits (prompt_event repo_id) w wr.1 /\
                         files wr.1 = files w /\ wr.2 = Ok tt).
Proof.
  intros Hp Hf1 Ha Hf2 w3 wr.
  assert (H3 : emits (prompt_event repo_id) w w3).
  { etransitivity; [exact Hp|]. etransitivity.
    - eapply emits_weaken; [|exact Ha]. intros ev Hev. right. now right.
    - apply emits_log. right. right. now exists line. }
  subst wr. destruct (truthy out).
  - split; [|discriminate]. etransitivity.
    + eapply emits_weaken; [|exact H3]. intros ev Hev. now left.
    + destruct (write_output_events env repo_id out w3) as (rest & Ht & Hq).
      exists (Makedirs (output_dir env repo_id) :: rest). split; [exact Ht|].
      constructor; [right; reflexivity|].
      eapply Forall_impl; [exact Hq|]. intros ev Hev. right.
      eapply stage_event_writer, Hev.
  - cbn [fst snd]. split.
    + eapply emits_weaken; [|exact H3]. intros ev Hev. now left.
    + intros _. split; [exact H3|]. split; [|reflexivity]. cbn. congruence.
Qed.

(** The events of a run of [main]. *)
Lemma main_emits env agent repo_id open_pr w :
  let r := Main.main env agent repo_id open_pr (w, Main.start) in
  emits (main_event env repo_id open_pr) w r.1.1 /\
  (forall e, r.2 = Raise e -> emits (local_event env repo_id) w r.1.1).
Proof.
  intros r.
  destruct (format_user_prompt_run env agent repo_id w) as (Hf1 & Hp & _).
  destruct (main_cases env agent repo_id open_pr w)
    as [(e & _ & Hr)
       |(user_prompt & w2 & r2 & w4 & _ & Hf2 & Ha & _ & Hres & _ & Hw4 & Hcase)];
    fold r in Hr || fold r in Hcase.
  - rewrite Hr. cbn [fst snd].
    assert (H : emits (local_event env repo_id) w
                  (Main.format_user_prompt env agent repo_id w).1).
    { eapply emits_weaken; [|exact Hp]. intros ev Hev. now left. }
    split; [|intros _ _; exact H].
    eapply emits_weaken; [|exact H]. apply local_event_main.
  - cbv zeta in Hw4, Hcase.
    destruct (main_local_part env repo_id w _ w2
                (Str.nl +:+ "Agent query completed. Total messages received: " +:+
                 pretty (Main.message_count r2))
                (Main.evaluation_results r2) Hp Hf1 Ha Hf2) as [Hlocal _].
    cbv zeta in Hlocal. fold (completed r2) in Hlocal. rewrite <- Hw4 in Hlocal.
    assert (Hmain : emits (main_event env repo_id open_pr) w w4).
    { eapply emits_weaken; [|exact Hlocal]. apply local_event_main. }
    destruct Hcase as [(e & _ & ->)|[_ ->]]; cbn [fst snd].
    + split; [exact Hmain|]. intros _ _. exact Hlocal.
    + split; [|discriminate]. destruct open_pr; [|exact Hmain].
      etransitivity; [exact Hmain|].
      assert (Hd : Main.evaluation_results r2 = PNone \/
                   Main.is_dict (Main.evaluation_results r2) = true).
      { rewrite Hres. apply captured_output. }
      destruct (open_pull_request_run env repo_id _ w4 Hd) as (o & _ & _ & _ & He & _).
      eapply emits_weaken; [|exact He]. intros ev Hev. right. right. now split.
Qed.

(** X16: without a model card there is no run: when [README.md] cannot
    be downloaded, or cannot be read, [main] raises "Model card content
    not found for repo_id: ..." before it asks the agent anything; it
    has downloaded once, read nothing but the downloaded file, and
    printed; no file is changed. *)
Theorem main_needs_the_model_card env agent repo_id open_pr w :
  (forall path,
     hub_download env repo_id "README.md" "model" None = Ok path ->
     exists e, fs_read_text env path = Raise e) ->
  let r := Main.main env agent repo_id open_pr (w, Main.start) in
  r.2 = Raise (Exception ("Model card content not found for repo_id: " +:+
                          repo_id)) /\
  r.1.2 = Main.start /\
  files r.1.1 = files w /\
  Forall (prompt_event repo_id) (new_events w r.1.1) /\
  Forall (fun ev => forall p, ev = OpenRead p ->
            hub_download env repo_id "README.md" "model" None = Ok p)
    (new_events w r.1.1).
Proof.
  intros Hnone r.
  destruct (format_user_prompt_run env agent repo_id w) as (Hf & Hp & Hraise).
  destruct (Hraise Hnone) as [Hp2 Hreads].
  destruct (main_cases env agent repo_id open_pr w)
    as [(e & He & Hr)|(user_prompt & w2 & r2 & w4 & Hok & _)];
    [|congruence].
  fold r in Hr. rewrite Hr. cbn [fst snd].
  split; [congruence|]. split; [reflexivity|]. split; [exact Hf|].
  split; [now apply emits_new_events|exact Hreads].
Qed.

Lemma main_needs_the_model_card_witness :
  let env := Demo.hub_failing Demo.unavailable in
  let r := Main.main env (Script.agent [] None) "acme/model-x" true
             (Demo.w0, Main.start) in
  r.2 = Raise (Exception ("Model card content not found for repo_id: " +:+
                          "acme/model-x")) /\
  r.1.2 = Main.start /\
  files r.1.1 = files Demo.w0 /\
  Forall (prompt_event "acme/model-x") (new_events Demo.w0 r.1.1) /\
  Forall (fun ev => forall p, ev = OpenRead p ->
            hub_download env "acme/model-x" "README.md" "model" None = Ok p)
    (new_events Demo.w0 r.1.1).
Proof.
  intros env.
  apply (main_needs_the_model_card env (Script.agent [] None) "acme/model-x"
           true Demo.w0).
  intros path H. discriminate.
Defined.

(** X17: whatever the Hub, the file system and the agent do, every
    event of a run of [main] is one that [format_user_prompt] may cause
    (the download of the model card, a read, a print), one that
    [write_output] may cause (the creation of the output directory, the
    write of a [.yaml] file directly in it) or, when a pull request is
    asked for, one that [create_eval_results_pr] may cause on the model
    repository.  Without [--open_pr] there is therefore no commit, no
    listing, no removal, and no download but that of the model card. *)
Theorem main_events_are_confined env agent repo_id open_pr w :
  Forall (main_event env repo_id open_pr)
    (new_events w (Main.main env agent repo_id open_pr (w, Main.start)).1.1).
Proof. apply emits_new_events, main_emits. Qed.

(** X18: when the messages that the loop of [main] handles hold no
    structured output, [main] writes nothing and submits nothing, with or
    without [--open_pr]: beyond the prompt it only prints, no file is
    changed, and nothing is captured. *)
Theorem main_without_structured_output env agent repo_id open_pr w :
  (forall user_prompt,
     structured_outputs (consumed agent (Main.agent_query agent user_prompt).1) = []) ->
  let r := Main.main env agent repo_id open_pr (w, Main.start) in
  files r.1.1 = files w /\
  Forall (prompt_event repo_id) (new_events w r.1.1) /\
  Main.evaluation_results r.1.2 = PNone.
Proof.
  intros Hnone r.
  destruct (format_user_prompt_run env agent repo_id w) as (Hf1 & Hp & _).
  destruct (main_cases env agent repo_id open_pr w)
    as [(e & _ & Hr)
       |(user_prompt & w2 & r2 & w4 & _ & Hf2 & Ha & _ & Hres & _ & Hw4 & Hcase)];
    fold r in Hr || fold r in Hcase.
  - rewrite Hr. cbn [fst snd]. split; [exact Hf1|].
    split; [now apply emits_new_events|reflexivity].
  - rewrite Hnone in Hres. cbn in Hres. cbv zeta in Hw4, Hcase.
    destruct (main_local_part env repo_id w _ w2
                (Str.nl +:+ "Agent query completed. Total messages received: " +:+
                 pretty (Main.message_count r2))
                (Main.evaluation_results r2) Hp Hf1 Ha Hf2) as [_ Hquiet].
    cbv zeta in Hquiet. fold (completed r2) in Hquiet.
    rewrite <- Hw4 in Hquiet.
    destruct Hquiet as (He & Hf & Hok); [now rewrite Hres|].
    destruct Hcase as [(e & Hraise & _)|[_ ->]]; [congruence|].
    cbn [fst snd]. rewrite Hres.
    destruct open_pr; cbn [fst snd Main.open_pull_request truthy negb].
    + unfold bind, print, ret. cbn [fst snd log files].
      split; [exact Hf|]. split; [|reflexivity].
      apply emits_new_events. etransitivity; [exact He|].
      apply emits_log. right. right. eexists. reflexivity.
    + split; [exact Hf|]. split; [now apply emits_new_events|reflexivity].
Qed.

Lemma main_without_structured_output_witness :
  let agent :=
    Script.agent
      [Main.AssistantMessage
         [Main.TextBlock "No benchmark in this card.";
          Main.ToolUseBlock "toolu_1" "StructuredOutput" (PStr "none")] None;
       Main.ResultMessage (PFloat 5 (-2))]
      (Some (Exception "stream closed")) in
  let r := Main.main Demo.hub agent "acme/model-x" true (Demo.w0, Main.start) in
  files r.1.1 = files Demo.w0 /\
  Forall (prompt_event "acme/model-x") (new_events Demo.w0 r.1.1) /\
  Main.evaluation_results r.1.2 = PNone.
Proof.
  intros agent.
  apply (main_without_structured_output Demo.hub agent "acme/model-x" true
           Demo.w0).
  intros user_prompt. reflexivity.
Defined.

(** X19: end to end, without [--open_pr]: when the prompt can be built,
    the candidates of the last structured output among the messages that
    the loop handles (those up to and including the first one whose cost
    cannot be compared with [0] or formatted) can be written and nothing
    fails on the file system, [main] returns normally, has sent the agent
    that one prompt, and leaves in the output directory the artifacts of
    those candidates, written one after the other over the files that
    were there; earlier structured outputs leave no trace, and neither
    does one that comes after the message that ends the loop. *)
Theorem main_writes_the_last_structured_output
    env agent repo_id w w1 user_prompt out items :
  (forall tr p c, fs_write_fault env tr p c = None) ->
  (forall tr p, fs_makedirs_fault env tr p = None) ->
  Main.format_user_prompt env agent repo_id w = (w1, Ok user_prompt) ->
  last (structured_outputs (consumed agent (Main.agent_query agent user_prompt).1)) =
    Some out ->
  py_get out "evaluation_results" (PList []) = Ok (PList items) ->
  items <> [] ->
  forallb writable items = true ->
  let r := Main.main env agent repo_id false (w, Main.start) in
  r.2 = Ok tt /\
  files r.1.1 = written env (output_dir env repo_id) items (files w) /\
  Main.prompts r.1.2 = [user_prompt] /\
  Main.evaluation_results r.1.2 = out /\
  Main.message_count r.1.2 =
    Z.of_nat (length (consumed agent (Main.agent_query agent user_prompt).1)).
Proof.
  intros Hwrite Hmk Hprompt Hlast Hget Hne Hall r.
  destruct (format_user_prompt_run env agent repo_id w) as (Hf1 & _ & _).
  destruct (main_cases env agent repo_id false w)
    as [(e & He & _)
       |(up & w2 & r2 & w4 & Hup & Hf2 & _ & Hc & Hres & Hp & Hw4 & Hcase)];
    try fold r in Hcase; rewrite Hprompt in *; cbn [fst snd] in *;
    [discriminate|].
  injection Hup as <-. rewrite Hlast in Hres. cbn in Hres.
  cbv zeta in Hw4, Hcase. rewrite Hres in Hw4, Hcase.
  assert (Htruthy : truthy out = true).
  { destruct out as [| | | | | |d]; try discriminate.
    destruct d; [|reflexivity]. cbn in Hget. injection Hget as <-.
    contradiction. }
  rewrite Htruthy in Hw4, Hcase.
  rewrite (write_output_run env repo_id out items _ Hwrite (Hmk _ _) Hget Hne Hall)
    in Hw4, Hcase.
  cbn [fst snd] in Hw4, Hcase.
  destruct Hcase as [(e & He & _)|[_ ->]]; [discriminate|].
  cbn [fst snd]. subst w4. cbn [files log].
  split; [reflexivity|]. split; [now rewrite Hf2, Hf1|].
  split; [exact Hp|]. split; [exact Hres|exact Hc].
Qed.

Lemma main_writes_the_last_structured_output_witness :
  let first := [Demo.record "openai/gsm8k" 3] in
  let second := [Demo.record "cais/hle" 40; PDict [("value", PInt 1)];
                 Demo.record "Idavidrein/gpqa" 50] in
  let agent :=
    Script.agent
      [Main.AssistantMessage [Script.output first] None;
       Main.AssistantMessage
         [Main.TextBlock "Corrected."; Script.output second] (Some "toolu_0");
       Main.ResultMessage (PFloat 5 (-2))] None in
  let user_prompt := "# Model cardacme/model-x# Model card" in
  let r := Main.main Demo.hub agent "acme/model-x" false (Demo.w0, Main.start) in
  r.2 = Ok tt /\
  files r.1.1 =
    written Demo.hub (output_dir Demo.hub "acme/model-x") second
      (files Demo.w0) /\
  Main.prompts r.1.2 = [user_prompt] /\
  Main.evaluation_results r.1.2 = PDict [("evaluation_results", PList second)] /\
  Main.message_count r.1.2 =
    Z.of_nat (length (consumed agent (Main.agent_query agent user_prompt).1)).
Proof.
  intros first second agent user_prompt.
  apply (main_writes_the_last_structured_output Demo.hub agent "acme/model-x"
           Demo.w0
           (Main.format_user_prompt Demo.hub agent "acme/model-x" Demo.w0).1
           user_prompt (PDict [("evaluation_results", PList second)]) second).
  - reflexivity.
  - reflexivity.
  - vm_compute. reflexivity.
  - reflexivity.
  - reflexivity.
  - discriminate.
  - reflexivity.
Defined.

(** X20: on what [main] captures ([None] or an object),
    [open_pull_request] never raises: a failure of the submitter is
    printed and [None] is returned.  It returns a URL exactly when its
    run made a commit that the Hub answered with that URL; and its
    effects are those of the submitter on the model repository. *)
Theorem open_pull_request_never_raises env repo_id out w :
  out = PNone \/ Main.is_dict out = true ->
  let r := Main.open_pull_request env repo_id out w in
  exists o,
    r.2 = Ok o /\
    Forall (submitter_event env repo_id "model") (new_events w r.1) /\
    forall pr_url,
      o = Some pr_url <->
      exists ops msg descr,
        CreateCommit repo_id ops msg descr true "model" ∈ new_events w r.1 /\
        hub_create_commit env repo_id ops msg descr true "model" = Ok pr_url.
Proof.
  intros Hout r.
  destruct (open_pull_request_run env repo_id out w Hout)
    as (o & before & after & Ho & He & Hb & Ha & Hcase).
  fold r in Ho, He, Hcase. exists o. split; [exact Ho|].
  split; [now apply emits_new_events|]. intros pr_url.
  destruct Hcase as [[Ht ->]|(items & _ & _ & Ht & Hans)];
    rewrite (new_events_app _ _ _ Ht).
  - split; [discriminate|].
    intros (ops & msg & descr & Hin & _). exfalso.
    apply elem_of_app in Hin as [Hin|Hin];
      eapply no_commit_not_in in Hin; eassumption.
  - unfold commit_answer in Hans. split.
    + intros ->. eexists _, _, _. split.
      * apply elem_of_app. right. left.
      * destruct (hub_create_commit _ _ _ _ _ _ _); congruence.
    + intros (ops & msg & descr & Hin & Hhub).
      apply elem_of_app in Hin as [Hin|Hin];
        [exfalso; eapply no_commit_not_in in Hin; eassumption|].
      apply elem_of_cons in Hin as [Heq|Hin];
        [|exfalso; eapply no_commit_not_in in Hin; eassumption].
      unfold commit_of in Heq. injection Heq as -> -> ->.
      rewrite Hhub in Hans. exact Hans.
Qed.

Lemma open_pull_request_never_raises_witness :
  let out := PDict [("evaluation_results",
                     PList [Demo.record "openai/gsm8k" 3; PInt 7])] in
  let r := Main.open_pull_request Demo.hub "acme/model-x" out Demo.w0 in
  exists o,
    r.2 = Ok o /\
    Forall (submitter_event Demo.hub "acme/model-x" "model")
      (new_events Demo.w0 r.1) /\
    forall pr_url,
      o = Some pr_url <->
      exists ops msg descr,
        CreateCommit "acme/model-x" ops msg descr true "model"
          ∈ new_events Demo.w0 r.1 /\
        hub_create_commit Demo.hub "acme/model-x" ops msg descr true "model" =
          Ok pr_url.
Proof.
  intros out.
  apply (open_pull_request_never_raises Demo.hub "acme/model-x" out Demo.w0).
  right. reflexivity.
Defined.

(** X21: a run of [main] that raises has made no commit: [main] raises
    only while it builds the prompt or writes the results locally, and
    until then it has only downloaded the model card, read, printed,
    and written in its output directory.  So a pull request is opened
    only after the local write succeeded. *)
Theorem main_failure_means_no_commit env agent repo_id open_pr w e :
  let r := Main.main env agent repo_id open_pr (w, Main.start) in
  r.2 = Raise e ->
  Forall (local_event env repo_id) (new_events w r.1.1) /\
  Forall no_commit (new_events w r.1.1).
Proof.
  intros r Hr.
  destruct (main_emits env agent repo_id open_pr w) as [_ Hlocal].
  specialize (Hlocal e Hr). apply emits_new_events in Hlocal.
  split; [exact Hlocal|].
  eapply Forall_impl; [exact Hlocal|]. apply local_event_no_commit.
Qed.

Lemma main_failure_means_no_commit_witness :
  let agent :=
    Script.agent
      [Main.AssistantMessage [Script.output [Demo.record "openai/gsm8k" 3]] None]
      None in
  let r := Main.main Script.read_only agent "acme/model-x" true
             (Demo.w0, Main.start) in
  Forall (local_event Script.read_only "acme/model-x")
    (new_events Demo.w0 r.1.1) /\
  Forall no_commit (new_events Demo.w0 r.1.1).
Proof.
  intros agent.
  apply (main_failure_means_no_commit Script.read_only agent "acme/model-x" true
           Demo.w0 (OSError "Read-only file system")).
  vm_compute. reflexivity.
Defined.

(** ** Where the results come from *)

Lemma index_lookup_from env repo_id repo_type candidates ev :
  index_lookup env repo_id repo_type ev ->
  from_candidates env repo_id repo_type candidates ev.
Proof. destruct ev; cbn; tauto. Qed.

Lemma stage_event_from_staging env repo_id repo_type candidates ev :
  stage_event env (staging_dir env repo_id) candidates ev ->
  from_candidates env repo_id repo_type candidates ev.
Proof.
  destruct ev; cbn; try tauto.
  intros (x & id & Hx & Hid & -> & ->). exists x, id. eauto.
Qed.

Lemma stage_event_from_output env repo_id repo_type candidates ev :
  stage_event env (output_dir env repo_id) candidates ev ->
  from_candidates env repo_id repo_type candidates ev.
Proof.
  destruct ev; cbn; try tauto.
  intros (x & id & Hx & Hid & -> & ->). exists x, id. eauto.
Qed.

Lemma prompt_event_from env repo_id repo_type candidates ev :
  prompt_event repo_id ev -> from_candidates env repo_id repo_type candidates ev.
Proof. intros [->|[[p ->]|[line ->]]]; exact I. Qed.

(** The events of a run of [create_eval_results_pr], with where they
    come from. *)
Lemma create_eval_results_pr_provenance
    env repo_id evaluation_results repo_type skip_existing w :
  emits (from_candidates env repo_id repo_type
           (candidates_of evaluation_results)) w
    (create_eval_results_pr env repo_id evaluation_results repo_type
       skip_existing w).1.
Proof.
  destruct (create_eval_results_pr_trace env repo_id evaluation_results
              repo_type skip_existing w) as (pre & Hq & Hcase).
  cbv zeta in Hcase.
  set (r := create_eval_results_pr env repo_id evaluation_results repo_type
              skip_existing w) in *.
  set (temp_dir := staging_dir env repo_id) in *.
  set (Q := from_candidates env repo_id repo_type
              (candidates_of evaluation_results)).
  assert (Hpre : Forall Q pre).
  { eapply Forall_impl; [exact Hq|]. apply index_lookup_from. }
  destruct Hcase as [(Ht & _)|[(e & Ht & _)
                    |(loop_events & tail & paths & Ht & Hl & Hp & Hc)]];
    (eexists; split; [exact Ht|]).
  - exact Hpre.
  - apply Forall_app. split; [exact Hpre|]. now repeat constructor.
  - assert (Htail : Forall Q tail).
    { destruct Hc as [(e & -> & _)|(items & Hs & _ & _ & Hsub)].
      - now repeat constructor.
      - apply submission_cases in Hsub.
        destruct Hsub as [(_ & -> & _)
                         |[Hne [(u & _ & -> & _)|(e & _ & -> & _)]]];
          [now repeat constructor| |];
          (constructor; [exists items; now repeat split|now repeat constructor]). }
    repeat (apply Forall_app; split); try assumption.
    + now repeat constructor.
    + eapply Forall_impl; [exact Hl|]. apply stage_event_from_staging.
    + apply Forall_map, Forall_forall. intros p _. exact I.
    + now repeat constructor.
Qed.

(** X23: what [create_eval_results_pr] stages and submits is never made
    up: every file it writes holds the YAML of one of the candidates it
    was given, one that has an id, and is the file of that candidate's
    stem in the staging directory; and its commit, if any, is the commit
    of candidates it was given, taken in their order. *)
Theorem submitter_submits_its_candidates
    env repo_id evaluation_results repo_type skip_existing w :
  Forall (from_candidates env repo_id repo_type
            (candidates_of evaluation_results))
    (new_events w
       (create_eval_results_pr env repo_id evaluation_results repo_type
          skip_existing w).1).
Proof. apply emits_new_events, create_eval_results_pr_provenance. Qed.

Lemma open_pull_request_provenance env repo_id out w :
  out = PNone \/ Main.is_dict out = true ->
  emits (from_candidates env repo_id "model" (candidates_of out)) w
    (Main.open_pull_request env repo_id out w).1.
Proof.
  intros Hout. unfold Main.open_pull_request.
  destruct (truthy out) eqn:Htruthy; cbn [negb];
    [|cbn; now apply emits_log].
  destruct Hout as [->|Hdict]; [discriminate|].
  destruct out as [| | | | | |d]; try discriminate.
  unfold bind at 1, lift_outcome at 1. cbn [py_get].
  destruct (truthy (default (PList []) (assoc "evaluation_results" d)));
    cbn [negb]; [|cbn; now apply emits_log].
  unfold bind, print, try_except, ret.
  set (w1 := log (Print (Str.nl +:+ "Opening pull request for " +:+ repo_id +:+
                         "...")) w).
  pose proof (create_eval_results_pr_provenance env repo_id (PDict d) "model"
                true w1) as Hev.
  assert (Hw1 : emits (from_candidates env repo_id "model"
                         (candidates_of (PDict d))) w w1)
    by now apply emits_log.
  destruct (create_eval_results_pr env repo_id (PDict d) "model" true w1)
    as [w2 [o|e]]; cbn [fst snd] in *.
  - etransitivity; eassumption.
  - etransitivity; [exact Hw1|]. etransitivity; [exact Hev|].
    now apply emits_log.
Qed.

(** X24: end to end, nothing that [main] writes or submits is made up:
    whatever the Hub, the file system and the agent do, every file
    written during a run holds the YAML of one candidate of the output
    that the run captured from the agent, and every commit is a commit
    of such candidates.  In particular a run that captured nothing
    writes no file and makes no commit. *)
Theorem main_writes_and_submits_what_the_agent_returned
    env agent repo_id open_pr w :
  let r := Main.main env agent repo_id open_pr (w, Main.start) in
  Forall (from_candidates env repo_id "model"
            (candidates_of (Main.evaluation_results r.1.2)))
    (new_events w r.1.1).
Proof.
  intros r. apply emits_new_events.
  destruct (format_user_prompt_run env agent repo_id w) as (Hf1 & Hp & _).
  destruct (main_cases env agent repo_id open_pr w)
    as [(e & _ & Hr)
       |(user_prompt & w2 & r2 & w4 & _ & Hf2 & Ha & _ & Hres & _ & Hw4 & Hcase)];
    fold r in Hr || fold r in Hcase.
  - rewrite Hr. cbn [fst snd]. eapply emits_weaken; [|exact Hp].
    apply prompt_event_from.
  - cbv zeta in Hw4, Hcase.
    assert (Hd : Main.evaluation_results r2 = PNone \/
                 Main.is_dict (Main.evaluation_results r2) = true).
    { rewrite Hres. apply captured_output. }
    set (out := Main.evaluation_results r2) in *.
    set (Q := from_candidates env repo_id "model" (candidates_of out)).
    assert (H3 : emits Q w (log (completed r2) w2)).
    { etransitivity; [eapply emits_weaken; [|exact Hp]; apply prompt_event_from|].
      etransitivity.
      - eapply emits_weaken; [|exact Ha]. intros ev [line ->]. exact I.
      - now apply emits_log. }
    assert (H4 : emits Q w w4).
    { subst w4. destruct (truthy out); [|exact H3].
      etransitivity; [exact H3|].
      destruct (write_output_events env repo_id out (log (completed r2) w2))
        as (rest & Ht & Hq).
      exists (Makedirs (output_dir env repo_id) :: rest). split; [exact Ht|].
      constructor; [exact I|].
      eapply Forall_impl; [exact Hq|]. apply stage_event_from_output. }
    assert (Hout : Main.evaluation_results r.1.2 = out).
    { destruct Hcase as [(e & _ & ->)|[_ ->]]; reflexivity. }
    rewrite Hout. fold Q.
    destruct Hcase as [(e & _ & ->)|[_ ->]]; cbn [fst snd]; [exact H4|].
    destruct open_pr; [|exact H4].
    etransitivity; [exact H4|]. now apply open_pull_request_provenance.
Qed.

(** ** The prompt and the working directories *)

(** X22: when the model card can be downloaded and read,
    [format_user_prompt] reads the template
    [prompts/user_prompt.md] next to the script and returns the
    template formatted with the repo id and with the text read from the
    downloaded path; it downloads once, reads those two files and does
    nothing else; a failure to read the template, or of the formatting,
    is raised as it is. *)
Theorem prompt_is_the_formatted_card env agent repo_id w path card :
  hub_download env repo_id "README.md" "model" None = Ok path ->
  fs_read_text env path = Ok card ->
  let template_path := path_join (script_dir env) "prompts/user_prompt.md" in
  let r := Main.format_user_prompt env agent repo_id w in
  files r.1 = files w /\
  new_events w r.1 =
    [HfHubDownload repo_id "README.md" "model" None; OpenRead path;
     OpenRead template_path] /\
  r.2 = match fs_read_text env template_path with
        | Ok template => Main.str_format agent template repo_id card
        | Raise e => Raise e
        end.
Proof.
  intros Hdl Hread template_path.
  assert (Hrun : Main.format_user_prompt env agent repo_id w =
                 ({| files := files w;
                     trace := trace w ++
                       [HfHubDownload repo_id "README.md" "model" None;
                        OpenRead path; OpenRead template_path] |},
                  match fs_read_text env template_path with
                  | Ok template => Main.str_format agent template repo_id card
                  | Raise e => Raise e
                  end)).
  { unfold Main.format_user_prompt, Main.read_prompt, fetch_huggingface_readme,
      bind, try_except, hf_hub_download, read_file, ret, lift_outcome.
    rewrite Hdl. cbn [fst snd]. rewrite Hread. cbn [fst snd].
    fold template_path. unfold log. cbn [files trace].
    destruct (fs_read_text env template_path); f_equal; f_equal; trace_eq. }
  intros r. subst r. rewrite Hrun. cbn [fst snd files].
  split; [reflexivity|]. split; [now apply new_events_app|reflexivity].
Qed.

Lemma prompt_is_the_formatted_card_witness :
  let agent := Script.agent [] None in
  let template_path := path_join (script_dir Demo.hub) "prompts/user_prompt.md" in
  let r := Main.format_user_prompt Demo.hub agent "acme/model-x" Demo.w0 in
  files r.1 = files Demo.w0 /\
  new_events Demo.w0 r.1 =
    [HfHubDownload "acme/model-x" "README.md" "model" None;
     OpenRead "main/README.md"; OpenRead template_path] /\
  r.2 = match fs_read_text Demo.hub template_path with
        | Ok template =>
            Main.str_format agent template "acme/model-x" "# Model card"
        | Raise e => Raise e
        end.
Proof.
  intros agent.
  apply (prompt_is_the_formatted_card Demo.hub agent "acme/model-x" Demo.w0
           "main/README.md" "# Model card").
  - reflexivity.
  - reflexivity.
Defined.

Lemma replace_char_no_sep c t s :
  Str.contains c t = false -> Str.contains c (Str.replace_char c t s) = false.
Proof.
  intros Ht. induction s as [|a s IH]; [reflexivity|].
  cbn [Str.replace_char]. destruct (Ascii.eqb a c) eqn:Ha.
  - now rewrite contains_app, Ht, IH.
  - cbn [Str.contains]. now rewrite Ha, IH.
Qed.

Lemma replace_char_keeps_no_sep c c' t s :
  Str.contains c t = false -> Str.contains c s = false ->
  Str.contains c (Str.replace_char c' t s) = false.
Proof.
  intros Ht. induction s as [|a s IH]; [reflexivity|].
  cbn [Str.contains Str.replace_char]. intros Hs.
  apply orb_false_elim in Hs as [Ha Hs].
  destruct (Ascii.eqb a c').
  - now rewrite contains_app, Ht, IH.
  - cbn [Str.contains]. now rewrite Ha, IH.
Qed.

Lemma replace_char_plain c t s r :
  Str.contains c r = false ->
  (forall x t', t = String x t' -> Str.contains x r = false) ->
  t <> "" ->
  Str.replace_char c t s = r -> s = r.
Proof.
  intros Hc Ht Hne. revert r Hc Ht.
  induction s as [|a s IH]; intros r Hc Ht; [easy|].
  cbn [Str.replace_char]. destruct (Ascii.eqb a c) eqn:Ha.
  - destruct t as [|x t']; [congruence|].
    change (String x t' +:+ Str.replace_char c (String x t') s)
      with (String x (t' +:+ Str.replace_char c (String x t') s)).
    intros <-. specialize (Ht x t' eq_refl). cbn [Str.contains] in Ht.
    now rewrite Ascii.eqb_refl in Ht.
  - intros <-. f_equal. apply IH; [| |reflexivity].
    + cbn [Str.contains] in Hc. now apply orb_false_elim in Hc as [_ Hc].
    + intros x t' Hx. specialize (Ht x t' Hx). cbn [Str.contains] in Ht.
      now apply orb_false_elim in Ht as [_ Ht].
Qed.

Lemma folder_name_plain repo_id r :
  r = "" \/ r = "." \/ r = ".." ->
  Str.replace_char "/" "__" repo_id = r -> repo_id = r.
Proof.
  intros Hr. apply replace_char_plain; [| |discriminate].
  - destruct Hr as [-> | [-> | ->]]; reflexivity.
  - intros x t' [= <- _]. destruct Hr as [-> | [-> | ->]]; reflexivity.
Qed.

Lemma temp_name_entry name :
  "temp_" +:+ name <> "" /\ "temp_" +:+ name <> "." /\ "temp_" +:+ name <> "..".
Proof. repeat split; discriminate. Qed.

(** X25: the staging directory of [create_eval_results_pr] is, whatever
    the repo id, an entry of [outputs/] next to the script, and its name
    starts with "temp_".  The output directory of [write_output] is an
    entry of [outputs/], named by the repo id with its separators
    replaced, for every repo id but three: for the empty repo id and for
    ["."] it is [outputs/] itself, and for [".."] it is the parent of
    [outputs/]. *)
Theorem work_directories_under_outputs env repo_id :
  let outputs := path_join (script_dir env) "outputs" in
  let folder_name := Str.replace_char "/" "__" repo_id in
  outputs = join1 (script_dir env) "outputs" /\
  (exists name,
     entry_of outputs name (staging_dir env repo_id) /\
     Str.startswith "temp_" name = true) /\
  (repo_id <> "" -> repo_id <> "." -> repo_id <> ".." ->
   entry_of outputs folder_name (output_dir env repo_id)) /\
  (repo_id = "" \/ repo_id = "." -> output_dir env repo_id = outputs) /\
  (repo_id = ".." -> output_dir env repo_id = join1 outputs "..").
Proof.
  intros outputs folder_name.
  assert (Hfolder : Str.contains "/" folder_name = false)
    by now apply replace_char_no_sep.
  split; [reflexivity|]. split; [|split; [|split]].
  - exists ("temp_" +:+ Str.replace_char "\" "_" (Str.replace_char "/" "_" repo_id)).
    assert (Hname : Str.contains "/"
              ("temp_" +:+ Str.replace_char "\" "_"
                             (Str.replace_char "/" "_" repo_id)) = false).
    { rewrite contains_app. change (Str.contains "/" "temp_") with false.
      cbn [orb]. apply replace_char_keeps_no_sep; [reflexivity|].
      now apply replace_char_no_sep. }
    split; [|apply startswith_append].
    split; [|split; [exact Hname|apply temp_name_entry]].
    unfold staging_dir. fold outputs. apply path_join_component; [exact Hname|].
    reflexivity.
  - intros H1 H2 H3.
    assert (Hplain : folder_name <> "" /\ folder_name <> "." /\ folder_name <> "..").
    { repeat split; intros H; apply folder_name_plain in H; auto. }
    split; [|split; [exact Hfolder|exact Hplain]].
    unfold output_dir. fold outputs folder_name.
    apply path_join_component; [exact Hfolder|].
    unfold is_blank. destruct Hplain as (Ha & Hb & _).
    apply String.eqb_neq in Ha, Hb. now rewrite Ha, Hb.
  - intros [-> | ->]; reflexivity.
  - intros ->. reflexivity.
Qed.

(** Next to a script in [/app]: the two directories of [acme/model-x],
    and the output directories of the three repo ids that are not given
    an entry of [outputs/]. *)
Lemma work_directories_under_outputs_witness :
  staging_dir Demo.hub "acme/model-x" = "/app/outputs/temp_acme_model-x" /\
  output_dir Demo.hub "acme/model-x" = "/app/outputs/acme__model-x" /\
  output_dir Demo.hub "" = "/app/outputs" /\
  output_dir Demo.hub "." = "/app/outputs" /\
  output_dir Demo.hub ".." = "/app/outputs/.." /\
  staging_dir Demo.hub ".." = "/app/outputs/temp_..".
Proof.
  destruct (work_directories_under_outputs Demo.hub "acme/model-x")
    as (_ & (name & (Hs & _) & _) & Hout & _ & _).
  destruct (work_directories_under_outputs Demo.hub "")
    as (_ & _ & _ & Hempty & _).
  destruct (work_directories_under_outputs Demo.hub ".")
    as (_ & _ & _ & Hdot & _).
  destruct (work_directories_under_outputs Demo.hub "..")
    as (_ & (name' & (Hs' & _) & _) & _ & _ & Hup).
  split; [reflexivity|].
  split; [now rewrite (proj1 (Hout ltac:(discriminate) ltac:(discriminate)
                                ltac:(discriminate)))|].
  split; [now rewrite Hempty by now left|].
  split; [now rewrite Hdot by now right|].
  split; [now rewrite Hup|reflexivity].
Defined.

(** ** What the index rules out *)

Lemma reconcile_kept candidates idx kept :
  (@reconcile unit candidates idx tt).2 = Ok kept ->
  forall x,
    x ∈ kept <->
    x ∈ candidates /\ (@not_in_existing unit idx x tt).2 = Ok true.
Proof.
  unfold reconcile. revert kept.
  induction candidates as [|r l IH]; intros kept; cbn [filter_m].
  - intros [= <-] x. split; [intros H; inversion H|intros [H _]; inversion H].
  - unfold bind.
    destruct (not_in_existing idx r tt) as [[] [keep|e]] eqn:Hr; [|discriminate].
    destruct (filter_m _ l tt) as [[] [rest|e]]; [|discriminate].
    unfold ret. cbn [snd]. intros [= <-] x. specialize (IH rest eq_refl x).
    rewrite elem_of_cons. destruct keep.
    + rewrite elem_of_cons, IH. split.
      * intros [->|[Hx Hp]];
          [split; [now left|now rewrite Hr]|split; [now right|exact Hp]].
      * intros [[->|Hx] Hp]; [now left|right; now split].
    + rewrite IH. split.
      * intros [Hx Hp]. split; [now right|exact Hp].
      * intros [[->|Hx] Hp]; [rewrite Hr in Hp; discriminate|now split].
Qed.

Lemma not_in_existing_string_id idx x id :
  string_id x = Some id ->
  (@not_in_existing unit idx x tt).2 = Ok (negb (dict_mem (KStr id) idx)).
Proof.
  intros H. apply string_id_some in H as [Hd _].
  unfold dataset_id in Hd. unfold not_in_existing, bind, lift_outcome, ret.
  destruct x as [| | | | | |d]; try discriminate. cbn [py_get].
  destruct (default (PDict []) (assoc "dataset" d)) as [| | | | | |ds];
    try discriminate.
  cbn [py_get]. rewrite Hd. reflexivity.
Qed.

(** X26: with [skip_existing] on, nothing that the index knows is
    submitted again, and nothing else is held back: the commit of a run,
    if any, is the commit of candidates none of whose ids is a key of
    the index that the builder returns, and every candidate with a
    non-empty string id that the index does not know is among them. *)
Theorem indexed_ids_are_not_resubmitted
    env repo_id evaluation_results repo_type w w1 idx :
  get_existing_eval_results env repo_id repo_type w = (w1, Ok idx) ->
  let commits :=
    List.filter is_commit
      (new_events w
         (create_eval_results_pr env repo_id evaluation_results repo_type
            true w).1) in
  commits = [] \/
  exists items,
    commits = [commit_of env repo_id repo_type (staging_dir env repo_id)
                 (string_ids items)] /\
    (forall id, id ∈ string_ids items -> dict_mem (KStr id) idx = false) /\
    (forall x id,
       x ∈ candidates_of evaluation_results -> string_id x = Some id ->
       dict_mem (KStr id) idx = false -> x ∈ items).
Proof.
  intros Hidx commits. subst commits.
  destruct (create_eval_results_pr_commits env repo_id evaluation_results
              repo_type true w)
    as (before & after & Hb & Ha & [[Ht _]|(items & _ & Hsel & _ & Ht & _)]);
    cbv zeta in Ht; rewrite (new_events_app _ _ _ Ht).
  - left. rewrite List.filter_app, !filter_no_commit by assumption. reflexivity.
  - right. exists items. split.
    { rewrite List.filter_app. cbn [List.filter commit_of is_commit].
      now rewrite !filter_no_commit by assumption. }
    destruct Hsel as (w1' & idx' & Hidx' & Hkept).
    rewrite Hidx in Hidx'. injection Hidx' as <- <-.
    pose proof (reconcile_kept _ _ _ Hkept) as Hk. split.
    + intros id Hid. apply list_elem_of_omap in Hid as (x & Hx & Hs).
      apply Hk in Hx as [_ Hp].
      rewrite (not_in_existing_string_id idx x id Hs) in Hp.
      injection Hp as Hp. now apply negb_true_iff in Hp.
    + intros x id Hx Hs Hnew. apply Hk. split; [exact Hx|].
      rewrite (not_in_existing_string_id idx x id Hs), Hnew. reflexivity.
Qed.

Lemma indexed_ids_are_not_resubmitted_witness :
  let candidates := [Demo.record "openai/gsm8k" 3; Demo.record "cais/hle" 43] in
  let evaluation_results := PDict [("evaluation_results", PList candidates)] in
  let idx := [(PStr "cais/hle", Demo.hle_main);
              (PStr "Idavidrein/gpqa", Demo.gpqa_pr7)] in
  let commits :=
    List.filter is_commit
      (new_events Demo.w0
         (create_eval_results_pr Demo.hub "acme/model-x" evaluation_results
            "model" true Demo.w0).1) in
  commits = [] \/
  exists items,
    commits = [commit_of Demo.hub "acme/model-x" "model"
                 (staging_dir Demo.hub "acme/model-x") (string_ids items)] /\
    (forall id, id ∈ string_ids items -> dict_mem (KStr id) idx = false) /\
    (forall x id,
       x ∈ candidates_of evaluation_results -> string_id x = Some id ->
       dict_mem (KStr id) idx = false -> x ∈ items).
Proof.
  intros candidates evaluation_results idx.
  apply (indexed_ids_are_not_resubmitted Demo.hub "acme/model-x"
           evaluation_results "model" Demo.w0
           (get_existing_eval_results Demo.hub "acme/model-x" "model" Demo.w0).1
           idx).
  vm_compute. reflexivity.
Defined.

(** ** What the clean-up leaves *)











(** X28: with [skip_existing] off, [create_eval_results_pr] does not
    consult the repository: the only call to the Hub that a run can
    make is its commit. *)
Theorem without_the_index_only_the_commit_is_remote
    env repo_id evaluation_results repo_type w :
  Forall (fun ev => is_remote ev = true -> is_commit ev = true)
    (new_events w
       (create_eval_results_pr env repo_id evaluation_results repo_type
          false w).1).
Proof.
  set (Q := fun ev => is_remote ev = true -> is_commit ev = true).
  assert (Hprint : forall line, Q (Print line)) by (intros line; discriminate).
  apply emits_new_events.
  unfold create_eval_results_pr, bind, lift_outcome, ret, os_makedirs.
  destruct (py_get evaluation_results "evaluation_results" (PList []))
    as [results|e]; [|reflexivity].
  destruct (truthy results); cbn [negb]; [|cbn; now apply emits_log].
  set (temp_dir := staging_dir env repo_id).
  assert (Hmk : emits Q w (log (Makedirs temp_dir) w))
    by (apply emits_log; discriminate).
  destruct (fs_makedirs_fault env (trace w) temp_dir) as [e|]; [exact Hmk|].
  etransitivity; [exact Hmk|].
  destruct (stage_and_submit_trace env repo_id repo_type temp_dir results
              (log (Makedirs temp_dir) w))
    as (loop_events & tail & paths & Ht & Hl & _ & Hc).
  cbv zeta in Ht, Hc. eexists. split; [exact Ht|].
  assert (Htail : Forall Q tail).
  { destruct Hc as [(e & -> & _)|(items & _ & _ & Hsub)].
    - constructor; [apply Hprint|constructor].
    - apply submission_cases in Hsub.
      destruct Hsub as [(_ & -> & _)
                       |[_ [(u & _ & -> & _)|(e & _ & -> & _)]]];
        repeat (constructor; [first [apply Hprint | intros _; reflexivity]|]);
        constructor. }
  repeat (apply Forall_app; split); try assumption.
  - eapply Forall_impl; [exact Hl|]. intros ev Hev. destruct ev; try easy.
  - apply Forall_map, Forall_forall. intros p _. discriminate.
  - constructor; [discriminate|constructor].
Qed.
